(** * A semi-supervised DCGAN on MNIST with stratified cross-validation

    Shallow embedding of [model-MNIST-cv.py]: the class [DCGAN]
    ([__init__], [build_generator], [train], [evaluate_discriminator],
    [save_imgs], [predict]), [load_data_kfold] and the cross-validation
    driver under [if __name__ == '__main__'].

    Conventions.
    - Python [int] is [Z].  Python [float] (binary64) is idealised as an
      exact rational [Q]; rounding is not modelled.  Module [Binary64]
      evaluates the class weights with the kernel's binary64 floats at a
      few batch sizes to show where the idealisation matters.
    - A Python [dict] is a [gmap]; a 1-D numpy array is a [list]; a 2-D
      numpy array is a list of rows.
    - A raised exception is a value of [exn]; code that can raise returns
      a [result].
    - Keras, numpy's random generator and scikit-learn are external: the
      program only calls them.  What they compute appears as the fields
      of the class [Engine] (forward passes, losses, gradients, the
      optimizer, the random draws, the shuffle); how Keras puts these
      together in [compile], [train_on_batch] and [evaluate] is modelled
      in modules [Keras] and [Training], and the split of
      [StratifiedKFold] in module [CrossValidation].
    - The generator's last activation is [tanh], which has no rational
      values to speak of: module [GeneratorNet] runs the layer stack on
      real numbers. *)

From Stdlib Require Import ZArith QArith Qround Qabs Lia Lqa List.
From Stdlib Require Import Reals Lra.
From Stdlib Require Import Floats Uint63.
From stdpp Require Import base option list gmap strings pretty.

Set Default Proof Using "Type".
Open Scope Z_scope.

(** ** Exceptions and results *)

Inductive exn : Type :=
| ZeroDivisionError
| ValueError
| IndexError.

Inductive result (A : Type) : Type :=
| Ok (a : A)
| Err (e : exn).
Arguments Ok {A} a.
Arguments Err {A} e.

Definition rbind {A B} (r : result A) (k : A → result B) : result B :=
  match r with
  | Ok a => k a
  | Err e => Err e
  end.

(** ** Class weights ([DCGAN.train], the lines before the loop) *)

Module ClassWeights.

(** [self.num_classes = 10] *)
Definition num_classes : Z := 10.

(** [half_batch = int(batch_size / 2)]: true division, then truncation
    towards zero.  The float quotient is exact for batch sizes below
    2^53 in absolute value. *)
Definition half_batch_of (batch_size : Z) : Z := Z.quot batch_size 2.

(** [a / b] on Python ints (true division): raises on a zero divisor. *)
Definition true_div (a b : Z) : result Q :=
  if b =? 0 then Err ZeroDivisionError
  else Ok (inject_Z a / inject_Z b)%Q.

(** [cw1 = {0: 1, 1: 1}] *)
Definition cw1 : gmap Z Q := <[1 := 1%Q]> (<[0 := 1%Q]> ∅).

(** [{i: self.num_classes / half_batch for i in range(self.num_classes)}],
    the comprehension run key by key. *)
Fixpoint dict_comprehension (keys : list Z) (half_batch : Z)
    (acc : gmap Z Q) : result (gmap Z Q) :=
  match keys with
  | [] => Ok acc
  | i :: rest =>
      rbind (true_div num_classes half_batch) (λ w,
        dict_comprehension rest half_batch (<[i := w]> acc))
  end.

(** [cw2 = {...}; cw2[self.num_classes] = 1 / half_batch] *)
Definition cw2 (half_batch : Z) : result (gmap Z Q) :=
  rbind (dict_comprehension (seqZ 0 num_classes) half_batch ∅) (λ m,
    rbind (true_div 1 half_batch) (λ w,
      Ok (<[num_classes := w]> m))).

(** The identity of the specification, for a weight map [cw]: the mass
    of the fake half, [half_batch] samples of the sentinel class,
    against the mass of the real half, [num_classes] classes of
    [half_batch / num_classes] samples each. *)
Definition fake_half_mass (cw : gmap Z Q) (half_batch : Z) : option Q :=
  wf ← cw !! num_classes;
  Some (wf * inject_Z half_batch)%Q.

Definition real_class_mass (cw : gmap Z Q) (half_batch : Z) (c : Z) : option Q :=
  wr ← cw !! c;
  Some (wr * (inject_Z half_batch / inject_Z num_classes))%Q.

Definition real_half_mass (cw : gmap Z Q) (half_batch : Z) (c : Z) : option Q :=
  m ← real_class_mass cw half_batch c;
  Some (m * inject_Z num_classes)%Q.

(** The claim as the specification states it, at one batch size. *)
Definition stated_balance (batch_size : Z) : Prop :=
  ∀ cw c mf mr,
    cw2 (half_batch_of batch_size) = Ok cw →
    0 ≤ c < num_classes →
    fake_half_mass cw (half_batch_of batch_size) = Some mf →
    real_half_mass cw (half_batch_of batch_size) c = Some mr →
    (mf == mr)%Q.

End ClassWeights.

(** ** numpy and [keras.utils]: the array helpers the program calls *)

Module Numpy.

(** [np.full((n, 1), v)]: a column of [n] entries; a negative dimension
    raises. *)
Definition full {A} (n : Z) (v : A) : result (list A) :=
  if n <? 0 then Err ValueError else Ok (replicate (Z.to_nat n) v).

(** [np.ones((n, 1))] and [np.zeros((n, 1))] kept as 2-D arrays: [n] rows
    of one entry. *)
Definition ones (n : Z) : result (list (list Q)) := full n [1%Q].
Definition zeros (n : Z) : result (list (list Q)) := full n [0%Q].

(** numpy's rule for an index [i] into an axis of length [n]: a negative
    index counts from the end. *)
Definition wrapped (n i : Z) : Z := if i <? 0 then i + n else i.

(** [a[i]] for one integer index; anything outside [-len, len) raises. *)
Definition item {A} (a : list A) (i : Z) : result A :=
  let n := Z.of_nat (length a) in
  let j := wrapped n i in
  if (0 <=? j) && (j <? n) then
    match a !! Z.to_nat j with
    | Some x => Ok x
    | None => Err IndexError
    end
  else Err IndexError.

(** [a[idx]] for an index array: one row per index. *)
Fixpoint take {A} (a : list A) (idx : list Z) : result (list A) :=
  match idx with
  | [] => Ok []
  | i :: rest =>
      rbind (item a i) (λ x, rbind (take a rest) (λ xs, Ok (x :: xs)))
  end.

(** [np.add(a, b)] on two vectors of one length. *)
Definition add (a b : list Q) : list Q := zip_with Qplus a b.

(** [c * a] for a scalar [c]. *)
Definition scale (c : Q) (a : list Q) : list Q := map (Qmult c) a.

(** [np.argmax(row)]: the first position of the largest entry; raises on
    an empty row. *)
Fixpoint argmax_from (best_i : nat) (best : Q) (i : nat) (row : list Q) : nat :=
  match row with
  | [] => best_i
  | x :: rest =>
      if Qle_bool x best then argmax_from best_i best (S i) rest
      else argmax_from i x (S i) rest
  end.

Definition argmax (row : list Q) : result nat :=
  match row with
  | [] => Err ValueError
  | x :: rest => Ok (argmax_from 0 x 1 rest)
  end.

(** [row[:-1]] *)
Definition drop_last (row : list Q) : list Q := removelast row.

(** One row of [to_categorical]: [categorical[r, y] = 1] on a row of
    zeros, with numpy's index rule. *)
Definition one_hot (num_classes : Z) (y : Z) : result (list Q) :=
  let j := wrapped num_classes y in
  if (0 <=? j) && (j <? num_classes) then
    Ok (<[Z.to_nat j := 1%Q]> (replicate (Z.to_nat num_classes) 0%Q))
  else Err IndexError.

(** [keras.utils.to_categorical(y, num_classes)] for a column [y] of
    integer labels. *)
Fixpoint to_categorical (y : list Z) (num_classes : Z) : result (list (list Q)) :=
  match y with
  | [] => Ok []
  | c :: rest =>
      rbind (one_hot num_classes c) (λ row,
        rbind (to_categorical rest num_classes) (λ rows, Ok (row :: rows)))
  end.

End Numpy.

(** ** Keras: networks, compilation and the training step *)

Module Keras.

(** The weight tensors the optimizer manages (kernels, biases, batch-norm
    scale and shift), named by the network that owns them.  The moving
    statistics of batch-norm layers are kept by the engine (in [backend])
    outside the optimizer. *)
Inductive wname : Type :=
| GenW (i : nat)
| DiscW (i : nat).

#[global] Instance wname_eq_dec : EqDecision wname.
Proof. solve_decision. Defined.

#[global] Instance wname_countable : Countable wname.
Proof.
  refine (inj_countable'
    (λ n, match n with GenW i => inl i | DiscW i => inr i end)
    (λ s, match s with inl i => GenW i | inr i => DiscW i end) _).
  by intros [].
Defined.

Inductive activation : Type := Relu | Tanh | Sigmoid | Softmax.

Inductive padding : Type := Same | Valid.

Inductive layer : Type :=
| Dense (units : Z) (act : option activation)
| Reshape (shape : list Z)
| BatchNormalization (momentum : Q)
| UpSampling2D
| Conv2D (filters kernel_size strides : Z) (pad : padding)
| Activation (act : activation)
| LeakyReLU (alpha : Q)
| Dropout (rate : Q)
| ZeroPadding2D (top bottom left right : Z)
| Flatten.

(** Number of optimizer-managed tensors of a layer. *)
Definition layer_weights (l : layer) : nat :=
  match l with
  | Dense _ _ => 2
  | Conv2D _ _ _ _ => 2
  | BatchNormalization _ => 2
  | _ => 0
  end.

Definition count_weights (ls : list layer) : nat :=
  foldr (λ l n, (layer_weights l + n)%nat) 0%nat ls.

(** A [Model]: its layers, the names of its weights and its [trainable]
    attribute. *)
Record network : Type := {
  net_layers : list layer;
  net_weights : list wname;
  net_trainable : bool
}.

(** [model.trainable = flag] *)
Definition set_trainable (flag : bool) (n : network) : network :=
  {| net_layers := net_layers n;
     net_weights := net_weights n;
     net_trainable := flag |}.

(** [model.trainable_weights]: empty while the model is not trainable. *)
Definition trainable_weights (n : network) : list wname :=
  if net_trainable n then net_weights n else [].

Inductive loss_fn : Type := BinaryCrossentropy | CategoricalCrossentropy.

(** What [compile] fixes: one loss and one loss weight per output, whether
    accuracy is reported, and the weights collected for the optimizer at
    that moment. *)
Record compiled : Type := {
  cm_losses : list loss_fn;
  cm_loss_weights : list Q;
  cm_accuracy : bool;
  cm_collected : list wname
}.

(** [Model(...).compile(loss=..., loss_weights=..., metrics=...)] for a
    model made of the networks [parts]. *)
Definition compile (parts : list network) (losses : list loss_fn)
    (loss_weights : list Q) (accuracy : bool) : compiled :=
  {| cm_losses := losses;
     cm_loss_weights := loss_weights;
     cm_accuracy := accuracy;
     cm_collected := concat (map trainable_weights parts) |}.

(** The libraries the program calls: numpy's random generator, the
    tensor engine under Keras (forward passes, losses, gradients, the
    optimizer) and scikit-learn's shuffle. *)
Class Engine : Type := {
  tensor : Type;
  rng : Type;
  backend : Type;
  (** numpy's global generator: one raw integer, one standard normal *)
  next_uint : rng → Z * rng;
  next_normal : rng → Q * rng;
  (** weight initialisation of a new model *)
  initial_tensor : backend → wname → tensor;
  backend_after_init : backend → backend;
  (** forward passes: inference mode sample by sample, training mode on
      the batch; the discriminator returns its validity and label rows *)
  generator_infer : backend → gmap wname tensor → list Q → list Q;
  generator_fwd : backend → gmap wname tensor → list (list Q) → list (list Q);
  discriminator_infer :
    backend → gmap wname tensor → list Q → list Q * list Q;
  discriminator_fwd :
    backend → gmap wname tensor → list (list Q) →
    list (list Q) * list (list Q);
  (** per-sample loss and batch accuracy of one output *)
  loss_value : loss_fn → list Q → list Q → Q;
  accuracy : loss_fn → list (list Q) → list (list Q) → Q;
  (** what a class-weight argument that is not a dict per output does to
      one sample *)
  opaque_sample_weight : list (gmap Z Q) → list Q → Q;
  (** differentiation and one optimizer update of one tensor *)
  gradient : (gmap wname tensor → Q) → gmap wname tensor → wname → tensor;
  is_zero : tensor → bool;
  apply_gradient : backend → wname → tensor → tensor → tensor;
  backend_after_step : backend → list (wname * tensor) → backend;
  (** scikit-learn: the order a seed shuffles [n] samples into *)
  sklearn_shuffle : Z → nat → list nat
}.

End Keras.

(** ** The training step of a compiled model *)

Module Training.
Import Numpy Keras.

(** The two models the program trains. *)
Inductive model_id : Type := TheDiscriminator | TheCombined.

(** Calls into the engine, with their arguments and what they returned. *)
Inductive event : Type :=
| TrainOnBatch (m : model_id) (x : list (list Q)) (y : list (list (list Q)))
    (class_weight : list (gmap Z Q)) (out : list Q)
| Evaluate (m : model_id) (x : list (list Q)) (y : list (list (list Q)))
    (out : list Q).

Section WithEngine.
Context `{E : Engine}.

Local Abbreviation store := (gmap wname tensor).

Definition sum (l : list Q) : Q := foldr Qplus 0%Q l.

Definition mean (l : list Q) : Q :=
  (sum l / inject_Z (Z.of_nat (length l)))%Q.

(** The class of one target row, as the class-weight lookup sees it: the
    arg-max of a one-hot row, the value itself for a single column. *)
Definition sample_class (row : list Q) : result Z :=
  match row with
  | [v] =>
      if Qeq_bool v (inject_Z (Qfloor v)) then Ok (Qfloor v)
      else Err ValueError
  | _ => rbind (argmax row) (λ i, Ok (Z.of_nat i))
  end.

(** Sample weights of one output from its class-weight dict: every class
    met must be a key. *)
Fixpoint class_sample_weights (cw : gmap Z Q) (y : list (list Q))
    : result (list Q) :=
  match y with
  | [] => Ok []
  | row :: rest =>
      rbind (sample_class row) (λ c,
        match cw !! c with
        | None => Err ValueError
        | Some w =>
            rbind (class_sample_weights cw rest) (λ ws, Ok (w :: ws))
        end)
  end.

Fixpoint per_output_weights (cws : list (gmap Z Q))
    (ys : list (list (list Q))) : result (list (list Q)) :=
  match cws, ys with
  | cw :: cws', y :: ys' =>
      rbind (class_sample_weights cw y) (λ w,
        rbind (per_output_weights cws' ys') (λ ws, Ok (w :: ws)))
  | _, _ => Ok []
  end.

(** The [class_weight] argument against the outputs of the model: a list
    needs one dict per output; a model with a single output takes a
    one-element list as its dict and hands anything else to the engine. *)
Definition sample_weights (n_outputs : nat) (class_weight : list (gmap Z Q))
    (ys : list (list (list Q))) : result (list (list Q)) :=
  match ys with
  | [y] =>
      match class_weight with
      | [cw] => rbind (class_sample_weights cw y) (λ w, Ok [w])
      | _ => Ok [map (opaque_sample_weight class_weight) y]
      end
  | _ =>
      if decide (length class_weight = n_outputs)
      then per_output_weights class_weight ys
      else Err ValueError
  end.

(** The loss of one output: the mean over the batch of the per-sample
    loss scaled by the sample weight. *)
Definition weighted_loss (f : loss_fn) (sw : list Q)
    (y out : list (list Q)) : Q :=
  mean (zip_with Qmult sw (zip_with (loss_value f) y out)).

Fixpoint output_losses (losses : list loss_fn) (sws : list (list Q))
    (ys outs : list (list (list Q))) : list Q :=
  match losses, sws, ys, outs with
  | f :: fs, sw :: sws', y :: ys', o :: outs' =>
      weighted_loss f sw y o :: output_losses fs sws' ys' outs'
  | _, _, _, _ => []
  end.

Fixpoint output_accuracies (losses : list loss_fn)
    (ys outs : list (list (list Q))) : list Q :=
  match losses, ys, outs with
  | f :: fs, y :: ys', o :: outs' =>
      accuracy f y o :: output_accuracies fs ys' outs'
  | _, _, _ => []
  end.

(** The quantity a training step descends on: the loss-weighted sum of
    the output losses. *)
Definition total_loss (loss_weights : list Q) (losses : list Q) : Q :=
  sum (zip_with Qmult loss_weights losses).

(** Outputs of the two models in training mode.  The combined model feeds
    the generator's images to the discriminator and keeps the validity
    output only. *)
Definition outputs (m : model_id) (b : backend) (st : store)
    (x : list (list Q)) : list (list (list Q)) :=
  match m with
  | TheDiscriminator =>
      let '(valid, label) := discriminator_fwd b st x in [valid; label]
  | TheCombined =>
      let img := generator_fwd b st x in
      let '(valid, _) := discriminator_fwd b st img in [valid]
  end.

(** Outputs of the discriminator in inference mode. *)
Definition test_outputs (b : backend) (st : store) (x : list (list Q))
    : list (list (list Q)) :=
  let rows := map (discriminator_infer b st) x in
  [map fst rows; map snd rows].

Definition objective (cm : compiled) (m : model_id) (b : backend)
    (x : list (list Q)) (ys : list (list (list Q))) (sws : list (list Q))
    : store → Q :=
  λ st, total_loss (cm_loss_weights cm)
          (output_losses (cm_losses cm) sws ys (outputs m b st x)).

(** What a step reports: the total, then the loss of each output when
    there are several, then the accuracy of each output when compiled
    with [metrics=['accuracy']]. *)
Definition report (cm : compiled) (sws : list (list Q))
    (ys outs : list (list (list Q))) : list Q :=
  let ls := output_losses (cm_losses cm) sws ys outs in
  total_loss (cm_loss_weights cm) ls
    :: (if decide (1 < length (cm_losses cm))%nat then ls else [])
    ++ (if cm_accuracy cm then output_accuracies (cm_losses cm) ys outs
        else []).

(** One optimizer update: every collected weight moves along its
    gradient, taken at the weights before the step; no other weight is
    written. *)
Definition optimizer_step (cm : compiled) (b : backend) (obj : store → Q)
    (st : store) : store :=
  foldl (λ s n,
           match st !! n with
           | Some v => <[n := apply_gradient b n v (gradient obj st n)]> s
           | None => s
           end)
        st (cm_collected cm).

Definition gradients (cm : compiled) (obj : store → Q) (st : store)
    : list (wname * tensor) :=
  map (λ n, (n, gradient obj st n)) (cm_collected cm).

(** An optimizer that moves every weight whose gradient is not zero. *)
Definition optimizer_moves : Prop :=
  ∀ (b : backend) (n : wname) (v g : tensor),
    is_zero g = false → apply_gradient b n v g ≠ v.

(** Every target array must have as many rows as the input. *)
Definition same_samples (x : list (list Q)) (ys : list (list (list Q)))
    : bool :=
  forallb (λ y, Nat.eqb (length y) (length x)) ys.

End WithEngine.
End Training.

(** ** The class [DCGAN] *)

Module Gan.
Import Numpy Keras Training ClassWeights.

(** [self.img_rows], [self.img_cols], [self.channels] *)
Definition img_rows : Z := 28.
Definition img_cols : Z := 28.
Definition channels : Z := 1.

(** The [Sequential] stack of [build_generator], in the order of its
    [model.add] calls. *)
Definition generator_layers : list layer :=
  [ Dense (128 * 7 * 7) (Some Relu);
    Reshape [7; 7; 128];
    BatchNormalization (8 # 10);
    UpSampling2D;
    Conv2D 128 3 1 Same;
    Activation Relu;
    BatchNormalization (8 # 10);
    UpSampling2D;
    Conv2D 64 3 1 Same;
    Activation Relu;
    BatchNormalization (8 # 10);
    Conv2D channels 3 1 Same;
    Activation Tanh ].

(** The [Sequential] trunk of [build_discriminator] and the two [Dense]
    heads that read its features. *)
Definition discriminator_trunk : list layer :=
  [ Conv2D 32 3 2 Same;
    LeakyReLU (2 # 10);
    Dropout (25 # 100);
    Conv2D 64 3 2 Same;
    ZeroPadding2D 0 1 0 1;
    LeakyReLU (2 # 10);
    Dropout (25 # 100);
    BatchNormalization (8 # 10);
    Conv2D 128 3 2 Same;
    LeakyReLU (2 # 10);
    Dropout (25 # 100);
    BatchNormalization (8 # 10);
    Conv2D 256 3 1 Same;
    LeakyReLU (2 # 10);
    Dropout (25 # 100);
    Flatten ].

Definition discriminator_heads : list layer :=
  [ Dense 1 (Some Sigmoid); Dense (num_classes + 1) (Some Softmax) ].

Definition build_generator : network :=
  {| net_layers := generator_layers;
     net_weights := map GenW (seq 0 (count_weights generator_layers));
     net_trainable := true |}.

Definition build_discriminator : network :=
  let layers := discriminator_trunk ++ discriminator_heads in
  {| net_layers := layers;
     net_weights := map DiscW (seq 0 (count_weights layers));
     net_trainable := true |}.

(** [self.training_history]: a dict of four lists under fixed keys. *)
Record history : Type := {
  D_loss : list Q;
  D_acc : list Q;
  G_loss : list Q;
  G_acc : list Q
}.

Definition empty_history : history :=
  {| D_loss := []; D_acc := []; G_loss := []; G_acc := [] |}.

(** The history after the four [append] calls of one epoch. *)
Definition record_epoch (h : history) (d_loss d_acc g_loss g_acc : Q) : history :=
  {| D_loss := D_loss h ++ [d_loss];
     D_acc := D_acc h ++ [d_acc];
     G_loss := G_loss h ++ [g_loss];
     G_acc := G_acc h ++ [g_acc] |}.

(** The models [__init__] builds and stores in [self.discriminator],
    [self.generator] and [self.combined].  These attributes are assigned
    once, in [__init__], and never again. *)
Record models : Type := {
  discriminator : network;
  discriminator_model : compiled;
  generator : network;
  generator_model : compiled;
  combined : compiled
}.

(** The model part of [DCGAN.__init__], in its order: the discriminator
    is compiled while trainable, then the generator, then the
    discriminator is marked not trainable, then the combined model is
    built from both and compiled. *)
Definition build_models : models :=
  let discriminator := build_discriminator in
  let discriminator_model :=
    compile [discriminator] [BinaryCrossentropy; CategoricalCrossentropy]
            [1 # 2; 1 # 2]%Q true in
  let generator := build_generator in
  let generator_model := compile [generator] [BinaryCrossentropy] [1%Q] false in
  let discriminator := set_trainable false discriminator in
  let combined :=
    compile [generator; discriminator] [BinaryCrossentropy] [1%Q] false in
  {| discriminator := discriminator;
     discriminator_model := discriminator_model;
     generator := generator;
     generator_model := generator_model;
     combined := combined |}.

Definition compiled_of (m : model_id) : compiled :=
  match m with
  | TheDiscriminator => discriminator_model build_models
  | TheCombined => combined build_models
  end.

Section WithEngine.
Context `{E : Engine}.

Local Abbreviation store := (gmap wname tensor).

(** What changes in a [DCGAN] object after [__init__]: its history and
    the values of the weights of its networks. *)
Record DCGAN : Type := {
  training_history : history;
  weights : store
}.

(** [DCGAN.__init__]: an empty history and freshly initialised weights
    for the networks of [build_models]. *)
Definition init (b : backend) : DCGAN * backend :=
  ({| training_history := empty_history;
      weights :=
        list_to_map
          (map (λ n, (n, initial_tensor b n))
               (net_weights (generator build_models)
                ++ net_weights (discriminator build_models))) |},
   backend_after_init b).

Definition with_weights (st : store) (o : DCGAN) : DCGAN :=
  {| training_history := training_history o; weights := st |}.

Definition with_history (h : history) (o : DCGAN) : DCGAN :=
  {| training_history := h; weights := weights o |}.

(** What a method call can change: numpy's generator, the engine's state,
    the object, the log of engine calls and the sample grids written. *)
Record world : Type := {
  np_random : rng;
  keras : backend;
  self : DCGAN;
  calls : list event;
  saved : list (Z * list (list Q))
}.

(** A method body: it may raise, and what it changed before stays
    changed. *)
Definition M (A : Type) : Type := world → world * result A.

#[global] Instance M_ret : MRet M := λ A a w, (w, Ok a).

#[global] Instance M_bind : MBind M := λ A B k m w,
  match m w with
  | (w', Ok a) => k a w'
  | (w', Err e) => (w', Err e)
  end.

Definition lift {A} (r : result A) : M A := λ w, (w, r).

Definition set_rng (g : rng) (w : world) : world :=
  {| np_random := g; keras := keras w; self := self w;
     calls := calls w; saved := saved w |}.

Definition set_self (o : DCGAN) (w : world) : world :=
  {| np_random := np_random w; keras := keras w; self := o;
     calls := calls w; saved := saved w |}.

(** [size] draws of [np.random.randint(0, high)]. *)
Fixpoint draw_indices (size : nat) (high : Z) (g : rng) : list Z * rng :=
  match size with
  | O => ([], g)
  | S n =>
      let '(r, g1) := next_uint g in
      let '(rest, g2) := draw_indices n high g1 in
      (r `mod` high :: rest, g2)
  end.

(** [np.random.randint(0, high, size)] *)
Definition randint (high size : Z) : M (list Z) := λ w,
  if (high <=? 0) || (size <? 0) then (w, Err ValueError)
  else
    let '(idx, g) := draw_indices (Z.to_nat size) high (np_random w) in
    (set_rng g w, Ok idx).

Fixpoint draw_row (cols : nat) (g : rng) : list Q * rng :=
  match cols with
  | O => ([], g)
  | S n =>
      let '(v, g1) := next_normal g in
      let '(rest, g2) := draw_row n g1 in
      (v :: rest, g2)
  end.

Fixpoint draw_rows (rows cols : nat) (g : rng) : list (list Q) * rng :=
  match rows with
  | O => ([], g)
  | S n =>
      let '(r, g1) := draw_row cols g in
      let '(rest, g2) := draw_rows n cols g1 in
      (r :: rest, g2)
  end.

(** [np.random.normal(0, 1, (rows, cols))] *)
Definition normal (rows cols : Z) : M (list (list Q)) := λ w,
  if (rows <? 0) || (cols <? 0) then (w, Err ValueError)
  else
    let '(z, g) := draw_rows (Z.to_nat rows) (Z.to_nat cols) (np_random w) in
    (set_rng g w, Ok z).

(** [self.generator.predict(noise)] *)
Definition generator_predict (noise : list (list Q)) : M (list (list Q)) :=
  λ w, (w, Ok (map (generator_infer (keras w) (weights (self w))) noise)).

(** A training step once its arguments are accepted.  The report is
    computed at the weights before the step. *)
Definition step_report (m : model_id) (x : list (list Q))
    (ys : list (list (list Q))) (sws : list (list Q)) (w : world) : list Q :=
  report (compiled_of m) sws ys (outputs m (keras w) (weights (self w)) x).

(** The quantity the step descends on, as a function of the weights. *)
Definition step_objective (m : model_id) (x : list (list Q))
    (ys : list (list (list Q))) (sws : list (list Q)) (w : world)
    : store → Q :=
  objective (compiled_of m) m (keras w) x ys sws.

(** The world after the step: the collected weights are updated and the
    call is logged. *)
Definition step_world (m : model_id) (x : list (list Q))
    (ys : list (list (list Q))) (class_weight : list (gmap Z Q))
    (sws : list (list Q)) (w : world) : world :=
  let cm := compiled_of m in
  let obj := step_objective m x ys sws w in
  let st := weights (self w) in
  {| np_random := np_random w;
     keras := backend_after_step (keras w) (gradients cm obj st);
     self := with_weights (optimizer_step cm (keras w) obj st) (self w);
     calls :=
       calls w ++ [TrainOnBatch m x ys class_weight (step_report m x ys sws w)];
     saved := saved w |}.

Definition commit_step (m : model_id) (x : list (list Q))
    (ys : list (list (list Q))) (class_weight : list (gmap Z Q))
    (sws : list (list Q)) : M (list Q) := λ w,
  (step_world m x ys class_weight sws w, Ok (step_report m x ys sws w)).

(** [model.train_on_batch(x, y, class_weight=...)] for one of the two
    compiled models of [self]. *)
Definition train_on_batch (m : model_id) (x : list (list Q))
    (ys : list (list (list Q))) (class_weight : list (gmap Z Q))
    : M (list Q) := λ w,
  if negb (same_samples x ys) then (w, Err ValueError)
  else
    match sample_weights (length (cm_losses (compiled_of m))) class_weight ys with
    | Err e => (w, Err e)
    | Ok sws => commit_step m x ys class_weight sws w
    end.

(** [self.discriminator.evaluate(x, y)]: inference mode, every sample
    weighted 1, nothing updated. *)
Definition evaluate (x : list (list Q)) (ys : list (list (list Q)))
    : M (list Q) := λ w,
  let cm := compiled_of TheDiscriminator in
  if negb (same_samples x ys) then (w, Err ValueError)
  else
    let sws := map (λ y, replicate (length y) 1%Q) ys in
    let out := report cm sws ys (test_outputs (keras w) (weights (self w)) x) in
    ({| np_random := np_random w; keras := keras w; self := self w;
        calls := calls w ++ [Evaluate TheDiscriminator x ys out];
        saved := saved w |},
     Ok out).

(** A step of a model with one output and no metric returns the loss
    itself rather than a list. *)
Definition scalar (out : list Q) : result Q :=
  match out with
  | [v] => Ok v
  | _ => Err ValueError
  end.

(** [a % b] on Python ints. *)
Definition py_mod (a b : Z) : result Z :=
  if b =? 0 then Err ZeroDivisionError else Ok (a `mod` b).

(** The four lists of the history, by their keys. *)
Inductive history_key : Type := Key_D_loss | Key_D_acc | Key_G_loss | Key_G_acc.

Definition history_append (key : history_key) (v : Q) (h : history) : history :=
  match key with
  | Key_D_loss =>
      {| D_loss := D_loss h ++ [v]; D_acc := D_acc h;
         G_loss := G_loss h; G_acc := G_acc h |}
  | Key_D_acc =>
      {| D_loss := D_loss h; D_acc := D_acc h ++ [v];
         G_loss := G_loss h; G_acc := G_acc h |}
  | Key_G_loss =>
      {| D_loss := D_loss h; D_acc := D_acc h;
         G_loss := G_loss h ++ [v]; G_acc := G_acc h |}
  | Key_G_acc =>
      {| D_loss := D_loss h; D_acc := D_acc h;
         G_loss := G_loss h; G_acc := G_acc h ++ [v] |}
  end.

(** [self.training_history[key].append(v)] *)
Definition append_history (key : history_key) (v : Q) : M unit := λ w,
  (set_self
     (with_history (history_append key v (training_history (self w))) (self w))
     w,
   Ok tt).

(** [fig.savefig("./generators_output/mnist_%d.png" % epoch)] *)
Definition savefig (epoch : Z) (grid : list (list Q)) : M unit := λ w,
  ({| np_random := np_random w; keras := keras w; self := self w;
      calls := calls w; saved := saved w ++ [(epoch, grid)] |},
   Ok tt).

(** [save_imgs]: a 5 x 5 grid of generated images, rescaled by
    [0.5 * gen_imgs + 1] and written to a file named after the epoch. *)
Definition save_imgs (epoch : Z) : M unit :=
  noise ← normal (5 * 5) 100;
  gen_imgs ← generator_predict noise;
  savefig epoch (map (map (λ v, (1 # 2) * v + 1)%Q) gen_imgs).

(** The body of the loop of [train]. *)
Definition epoch_body (X_train : list (list Q)) (y_train : list Z)
    (batch_size half_batch : Z) (cw1 cw2 : gmap Z Q) (save_interval : Z)
    (epoch : Z) : M unit :=
  idx ← randint (Z.of_nat (length X_train)) half_batch;
  imgs ← lift (take X_train idx);
  noise ← normal half_batch 100;
  gen_imgs ← generator_predict noise;
  valid ← lift (ones half_batch);
  fake ← lift (zeros half_batch);
  y ← lift (take y_train idx);
  labels ← lift (to_categorical y (num_classes + 1));
  sentinel ← lift (full half_batch num_classes);
  fake_labels ← lift (to_categorical sentinel (num_classes + 1));
  d_loss_real ← train_on_batch TheDiscriminator imgs [valid; labels] [cw1; cw2];
  d_loss_fake ←
    train_on_batch TheDiscriminator gen_imgs [fake; fake_labels] [cw1; cw2];
  let d_loss := scale (1 # 2) (add d_loss_real d_loss_fake) in
  noise ← normal batch_size 100;
  validity ← lift (ones batch_size);
  g_out ← train_on_batch TheCombined noise [validity] [cw1; cw2];
  g_loss ← lift (scalar g_out);
  d0 ← lift (item d_loss 0);
  _ ← append_history Key_D_loss d0;
  d3 ← lift (item d_loss 3);
  _ ← append_history Key_D_acc (100 * d3)%Q;
  _ ← append_history Key_G_loss g_loss;
  d4 ← lift (item d_loss 4);
  _ ← append_history Key_G_acc (100 * d4)%Q;
  r ← lift (py_mod epoch save_interval);
  if r =? 0 then save_imgs epoch else mret tt.

(** [for x in xs: body(x)] *)
Fixpoint for_each {A} (xs : list A) (body : A → M unit) : M unit :=
  match xs with
  | [] => mret tt
  | x :: rest => _ ← body x; for_each rest body
  end.

(** [DCGAN.train] *)
Definition train (X_train : list (list Q)) (y_train : list Z)
    (epochs batch_size save_interval : Z) : M unit :=
  let half_batch := half_batch_of batch_size in
  let cw1 := cw1 in
  cw2 ← lift (cw2 half_batch);
  for_each (seqZ 0 epochs)
    (epoch_body X_train y_train batch_size half_batch cw1 cw2 save_interval).

(** [DCGAN.evaluate_discriminator] *)
Definition evaluate_discriminator (X_test : list (list Q)) (y_test : list Z)
    : M (Q * Q) :=
  valid ← lift (ones (Z.of_nat (length y_test)));
  labels ← lift (to_categorical y_test (num_classes + 1));
  scores ← evaluate X_test [valid; labels];
  s0 ← lift (item scores 0);
  s3 ← lift (item scores 3);
  mret (s0, (s3 * 100)%Q).

(** The class predictions of [DCGAN.predict]:
    [np.argmax(y_pred[1][:, :-1], axis=1)] on the label output of
    [discriminator.predict(X_test)]. *)
Fixpoint argmax_rows (rows : list (list Q)) : result (list nat) :=
  match rows with
  | [] => Ok []
  | row :: rest =>
      rbind (argmax (drop_last row)) (λ c,
        rbind (argmax_rows rest) (λ cs, Ok (c :: cs)))
  end.

Definition predict (X_test : list (list Q)) : M (list nat) := λ w,
  let y_pred := test_outputs (keras w) (weights (self w)) X_test in
  match y_pred !! 1%nat with
  | Some label => (w, argmax_rows label)
  | None => (w, Err IndexError)
  end.

(** What one completed pass through the loop body did: the indices drawn,
    the real and generated half batches with their class targets, the
    full batch of noise for the generator, and what the three training
    steps returned. *)
Record epoch_log : Type := {
  ep_idx : list Z;
  ep_imgs : list (list Q);
  ep_labels : list (list Q);
  ep_gen_noise : list (list Q);
  ep_gen_imgs : list (list Q);
  ep_fake_labels : list (list Q);
  ep_noise : list (list Q);
  ep_d_loss_real : list Q;
  ep_d_loss_fake : list Q;
  ep_g_loss : Q
}.

(** The three calls of one pass, in order. *)
Definition epoch_calls (cw1 cw2 : gmap Z Q) (half_batch batch_size : Z)
    (l : epoch_log) : list event :=
  [ TrainOnBatch TheDiscriminator (ep_imgs l)
      [replicate (Z.to_nat half_batch) [1%Q]; ep_labels l] [cw1; cw2]
      (ep_d_loss_real l);
    TrainOnBatch TheDiscriminator (ep_gen_imgs l)
      [replicate (Z.to_nat half_batch) [0%Q]; ep_fake_labels l] [cw1; cw2]
      (ep_d_loss_fake l);
    TrainOnBatch TheCombined (ep_noise l)
      [replicate (Z.to_nat batch_size) [1%Q]] [cw1; cw2]
      [ep_g_loss l] ].

(** [d_loss = 0.5 * np.add(d_loss_real, d_loss_fake)] *)
Definition ep_d_loss (l : epoch_log) : list Q :=
  scale (1 # 2) (add (ep_d_loss_real l) (ep_d_loss_fake l)).

(** The history after the four [append] calls of the pass. *)
Definition epoch_record (h : history) (l : epoch_log) : history :=
  record_epoch h
    (default 0%Q (ep_d_loss l !! 0%nat))
    (100 * default 0%Q (ep_d_loss l !! 3%nat))%Q
    (ep_g_loss l)
    (100 * default 0%Q (ep_d_loss l !! 4%nat))%Q.

(** How the data of a pass relate to the training set, to the sizes and
    to the model at the start of the pass. *)
Record epoch_ok (X_train : list (list Q)) (y_train : list Z)
    (half_batch batch_size : Z) (start : world) (l : epoch_log) : Prop := {
  ok_half_batch : 0 < half_batch;
  ok_batch_size : 2 ≤ batch_size;
  ok_idx_length : length (ep_idx l) = Z.to_nat half_batch;
  ok_idx_range :
    Forall (λ i, 0 ≤ i < Z.of_nat (length X_train)) (ep_idx l);
  ok_imgs : take X_train (ep_idx l) = Ok (ep_imgs l);
  ok_labels :
    ∃ y, take y_train (ep_idx l) = Ok y ∧
         to_categorical y (num_classes + 1) = Ok (ep_labels l);
  ok_gen_noise : length (ep_gen_noise l) = Z.to_nat half_batch;
  ok_gen_imgs :
    ep_gen_imgs l =
      map (generator_infer (keras start) (weights (self start)))
          (ep_gen_noise l);
  ok_fake_labels :
    to_categorical (replicate (Z.to_nat half_batch) num_classes)
                   (num_classes + 1) = Ok (ep_fake_labels l);
  ok_noise : length (ep_noise l) = Z.to_nat batch_size;
  ok_noise_rows : Forall (λ z, length z = 100%nat) (ep_noise l);
  ok_real_report : length (ep_d_loss_real l) = 5%nat;
  ok_fake_report : length (ep_d_loss_fake l) = 5%nat
}.

Definition epoch_valid (X_train : list (list Q)) (y_train : list Z)
    (half_batch batch_size : Z) (l : epoch_log) : Prop :=
  ∃ start, epoch_ok X_train y_train half_batch batch_size start l.

(** The history read as a sequence of records, one per epoch: the
    position in the four lists is the epoch. *)
Fixpoint records_from (epoch : Z) (d_loss d_acc g_loss g_acc : list Q)
    : list (Z * (Q * Q * Q * Q)) :=
  match d_loss, d_acc, g_loss, g_acc with
  | a :: d_loss', b :: d_acc', c :: g_loss', d :: g_acc' =>
      (epoch, (a, b, c, d))
        :: records_from (epoch + 1) d_loss' d_acc' g_loss' g_acc'
  | _, _, _, _ => []
  end.

Definition records (h : history) : list (Z * (Q * Q * Q * Q)) :=
  records_from 0 (D_loss h) (D_acc h) (G_loss h) (G_acc h).

(** The four numbers one pass appends. *)
Definition epoch_metrics (l : epoch_log) : Q * Q * Q * Q :=
  (default 0%Q (ep_d_loss l !! 0%nat),
   (100 * default 0 (ep_d_loss l !! 3%nat))%Q,
   ep_g_loss l,
   (100 * default 0 (ep_d_loss l !! 4%nat))%Q).

(** What [train] needs to run every epoch to its end. *)
Definition train_ready (X_train : list (list Q)) (y_train : list Z)
    (batch_size save_interval : Z) : Prop :=
  2 ≤ batch_size ∧
  (0 < length X_train ≤ length y_train)%nat ∧
  Forall (λ c, - (num_classes + 1) ≤ c < num_classes + 1) y_train ∧
  save_interval ≠ 0.

End WithEngine.
End Gan.

(** ** Cross-validation: [load_data_kfold] and the driver *)

Module CrossValidation.
Import Numpy Keras Training ClassWeights Gan.

(** [seed = 19680801] *)
Definition seed : Z := 19680801.

(** What [mnist.load_data()] returns: images as rows of pixels 0..255. *)
Record mnist : Type := {
  mnist_X_train : list (list Z);
  mnist_y_train : list Z;
  mnist_X_test : list (list Z);
  mnist_y_test : list Z
}.

(** [(X.astype(np.float32) - 127.5) / 127.5] on one image. *)
Definition normalize (img : list Z) : list Q :=
  map (λ p, ((inject_Z p - (1275 # 10)) / (1275 # 10))%Q) img.

(** Modelled from the spec: the number of members of a class, which the
    split of scikit-learn compares with [k]. *)
Definition count_label (labels : list Z) (c : Z) : nat :=
  length (filter (λ x, x = c) labels).

(** Modelled from the spec: the stratified split of scikit-learn, which
    the repository does not contain, deals the members of each class to
    the folds.  This is the rank of sample [i] among the samples of its
    class, in the order [order]: how many samples with its label come
    before it. *)
Fixpoint rank_in (labels : list Z) (order : list nat) (i : nat) : nat :=
  match order with
  | [] => 0
  | j :: rest =>
      if decide (j = i) then 0%nat
      else ((if decide (labels !! j = labels !! i) then 1 else 0)
            + rank_in labels rest i)%nat
  end.

(** Modelled from the spec: the fold of scikit-learn's split in which a
    sample is validated; the members of each class are dealt to the
    folds in turn. *)
Definition test_fold (labels : list Z) (order : list nat) (k : Z) (i : nat) : Z :=
  Z.of_nat (rank_in labels order i) `mod` k.

(** Modelled from the spec: the [k] folds of scikit-learn's split; fold
    [f] validates the samples whose [test_fold] is [f] and trains on the
    others. *)
Definition folds_of (order : list nat) (labels : list Z) (k : Z)
    : list (list Z * list Z) :=
  map (λ f,
         (Z.of_nat <$> filter (λ i, test_fold labels order k i ≠ f)
                         (seq 0 (length labels)),
          Z.of_nat <$> filter (λ i, test_fold labels order k i = f)
                         (seq 0 (length labels))))
      (seqZ 0 k).

(** Modelled from the spec: [StratifiedKFold(n_splits=k, shuffle=True,
    random_state=seed).split(X, y)] of scikit-learn, which the repository
    calls and does not contain.  The specification asks for [k] pairs
    (train indices, validation indices) in which every index is validated
    exactly once and every fold keeps the class proportions, and for a
    configuration error, before any training, when a class has fewer than
    [k] members.  Here [n_X] is the number of rows of [X] and [order] the
    shuffled order of the samples. *)
Definition stratified_kfold_split (n_X : nat) (order : list nat)
    (labels : list Z) (k : Z) : result (list (list Z * list Z)) :=
  if negb (Nat.eqb n_X (length labels)) then Err ValueError
  else if k <? 2 then Err ValueError
  else if negb (forallb (λ c, k <=? Z.of_nat (count_label labels c)) labels)
  then Err ValueError
  else Ok (folds_of order labels k).

Section WithEngine.
Context `{E : Engine}.

(** [load_data_kfold(k)], given what [mnist.load_data()] returned. *)
Definition load_data_kfold (data : mnist) (k : Z)
    : result (list (list Z * list Z)
              * list (list Q) * list Z * list (list Q) * list Z) :=
  let X_train := map normalize (mnist_X_train data) in
  let y_train := mnist_y_train data in
  let X_test := map normalize (mnist_X_test data) in
  let y_test := mnist_y_test data in
  rbind (stratified_kfold_split (length X_train)
           (sklearn_shuffle seed (length X_train)) y_train k)
    (λ folds, Ok (folds, X_train, y_train, X_test, y_test)).

(** The state of the script: the random generators, the log, the
    module-level variable [dcgan] (unbound before the first fold) and the
    list [kfold_scores]. *)
Record process : Type := {
  p_random : rng;
  p_keras : backend;
  p_calls : list event;
  p_saved : list (Z * list (list Q));
  dcgan : option DCGAN;
  kfold_scores : list Q
}.

(** The two method calls of one fold, on the object they are called on. *)
Definition fold_body (X_train_cv : list (list Q)) (y_train_cv : list Z)
    (X_valid_cv : list (list Q)) (y_valid_cv : list Z)
    (epochs batch_size save_interval : Z) : M Q :=
  _ ← train X_train_cv y_train_cv epochs batch_size save_interval;
  scores ← evaluate_discriminator X_valid_cv y_valid_cv;
  mret scores.2.

(** The world a method of [o] starts in. *)
Definition enter (o : DCGAN) (b : backend) (p : process) : world :=
  {| np_random := p_random p; keras := b; self := o;
     calls := p_calls p; saved := p_saved p |}.

(** The body of the loop over the folds: slice the data, build a new
    [DCGAN], train it, evaluate it, append the accuracy. *)
Definition fold_step (X_train : list (list Q)) (y_train : list Z)
    (epochs batch_size save_interval : Z) (fold : list Z * list Z)
    (p : process) : process * result () :=
  let '(train_idx, val_idx) := fold in
  match take X_train train_idx with
  | Err e => (p, Err e)
  | Ok X_train_cv =>
  match take y_train train_idx with
  | Err e => (p, Err e)
  | Ok y_train_cv =>
  match take X_train val_idx with
  | Err e => (p, Err e)
  | Ok X_valid_cv =>
  match take y_train val_idx with
  | Err e => (p, Err e)
  | Ok y_valid_cv =>
      let '(o, b) := init (p_keras p) in
      let '(w, r) :=
        fold_body X_train_cv y_train_cv X_valid_cv y_valid_cv
          epochs batch_size save_interval (enter o b p) in
      ({| p_random := np_random w; p_keras := keras w;
          p_calls := calls w; p_saved := saved w;
          dcgan := Some (self w);
          kfold_scores :=
            match r with
            | Ok acc => kfold_scores p ++ [acc]
            | Err _ => kfold_scores p
            end |},
       match r with Ok _ => Ok tt | Err e => Err e end)
  end end end end.

Fixpoint for_folds (folds : list (list Z * list Z))
    (step : list Z * list Z → process → process * result ())
    (p : process) : process * result () :=
  match folds with
  | [] => (p, Ok tt)
  | fold :: rest =>
      match step fold p with
      | (p', Ok _) => for_folds rest step p'
      | (p', Err e) => (p', Err e)
      end
  end.

Definition reset_scores (p : process) : process :=
  {| p_random := p_random p; p_keras := p_keras p; p_calls := p_calls p;
     p_saved := p_saved p; dcgan := dcgan p; kfold_scores := [] |}.

Definition set_dcgan (o : option DCGAN) (p : process) : process :=
  {| p_random := p_random p; p_keras := p_keras p; p_calls := p_calls p;
     p_saved := p_saved p; dcgan := o; kfold_scores := kfold_scores p |}.

(** The script up to the end of the loop over the folds, for [k] folds
    and the arguments of [train]. *)
Definition cross_validate (data : mnist) (k epochs batch_size save_interval : Z)
    (p : process) : process * result () :=
  match load_data_kfold data k with
  | Err e => (p, Err e)
  | Ok (folds, X_train, y_train, _, _) =>
      for_folds folds
        (fold_step X_train y_train epochs batch_size save_interval)
        (reset_scores p)
  end.

(** [__main__]: ten folds, 100 epochs, batches of 32, a sample grid every
    10 epochs.  What follows the loop only reports. *)
Definition main (data : mnist) (p : process) : process * result () :=
  cross_validate data 10 100 32 10 p.

End WithEngine.
End CrossValidation.

(** ** A small engine to run the program on *)

Module Toy.
Import Numpy Keras Training Gan.

Definition weight_or_zero (st : gmap wname Q) (n : wname) : Q :=
  default 0%Q (st !! n).

(** Images of four pixels: the first four latent entries, shifted by the
    generator's first weight and squashed into (-1, 1). *)
Definition toy_generate (st : gmap wname Q) (z : list Q) : list Q :=
  map (λ v, let u := (v + weight_or_zero st (GenW 0))%Q in
            Qred (u / (1 + Qabs u)))
      (firstn 4 z).

(** Validity: the first discriminator weight plus the first pixel; labels:
    the uniform distribution over the eleven classes. *)
Definition toy_discriminate (st : gmap wname Q) (x : list Q) : list Q * list Q :=
  ([Qred (weight_or_zero st (DiscW 0) + hd 0%Q x)], replicate 11 (1 # 11)%Q).

(** A loss that is linear in the output, so that the toy weights stay
    short rationals. *)
Definition linear_error (y out : list Q) : Q :=
  Qred (foldr Qplus 0%Q (zip_with (λ a b, a - b)%Q y out)).

(** Forward difference of the objective along one weight. *)
Definition toy_gradient (obj : gmap wname Q → Q) (st : gmap wname Q)
    (n : wname) : Q :=
  Qred (obj (<[n := (weight_or_zero st n + 1)%Q]> st) - obj st).

#[global] Instance toy_engine : Engine := {|
  tensor := Q;
  rng := Z;
  backend := Z;
  next_uint := λ g, (7 * g + 3, g + 1);
  next_normal := λ g, (inject_Z (g `mod` 5 - 2), g + 1);
  initial_tensor := λ b n,
    match n with
    | GenW i => inject_Z (Z.of_nat i)
    | DiscW i => inject_Z (b + Z.of_nat i)
    end;
  backend_after_init := λ b, b + 1;
  generator_infer := λ _ st z, toy_generate st z;
  generator_fwd := λ _ st zs, map (toy_generate st) zs;
  discriminator_infer := λ _ st x, toy_discriminate st x;
  discriminator_fwd := λ _ st xs,
    (map (λ x, fst (toy_discriminate st x)) xs,
     map (λ x, snd (toy_discriminate st x)) xs);
  loss_value := λ _ y out, linear_error y out;
  accuracy := λ _ _ _, (1 # 2)%Q;
  opaque_sample_weight := λ _ _, 1%Q;
  gradient := toy_gradient;
  is_zero := λ g, Qeq_bool g 0;
  apply_gradient := λ _ _ v g, Qred (v - (1 # 5000) * g);
  backend_after_step := λ b _, b + 1;
  sklearn_shuffle := λ _ n, rev (seq 0 n)
|}.

(** A training set of four images, one per label 0..3, and a start of the
    world with a freshly built model. *)
Definition toy_images : list (list Q) :=
  [[0; 0; 0; 0]; [1; 0; 0; 0]; [0; 1; 0; 0]; [0; 0; 1; 0]]%Q.

Definition toy_labels : list Z := [3; 1; 2; 0].

(** Two classes of two samples each, as raw pixels. *)
Definition toy_mnist : CrossValidation.mnist :=
  {| CrossValidation.mnist_X_train :=
       [[0; 0; 0; 0]; [255; 0; 0; 0]; [0; 255; 0; 0]; [0; 0; 255; 0]];
     CrossValidation.mnist_y_train := [0; 1; 0; 1];
     CrossValidation.mnist_X_test := [[0; 0; 0; 255]];
     CrossValidation.mnist_y_test := [1] |}.

Definition toy_process : CrossValidation.process :=
  {| CrossValidation.p_random := 0;
     CrossValidation.p_keras := 0;
     CrossValidation.p_calls := [];
     CrossValidation.p_saved := [];
     CrossValidation.dcgan := None;
     CrossValidation.kfold_scores := [] |}.

Definition toy_world : world :=
  let '(o, b) := init 0 in
  {| np_random := 0; keras := b; self := o; calls := []; saved := [] |}.

End Toy.

(** ** The generator's layer stack on real numbers *)

Module GeneratorNet.
Import Keras Gan.

Definition activate (a : activation) (t : list R) : list R :=
  match a with
  | Relu => map (Rmax 0) t
  | Tanh => map tanh t
  | Sigmoid => map (λ x, 1 / (1 + exp (- x)))%R t
  | Softmax =>
      let total := foldr Rplus 0%R (map exp t) in
      map (λ x, exp x / total)%R t
  end.

Section Layers.

(** The weights of the network, and what each layer does to a tensor
    before any activation: the affine map of [Dense], the convolution,
    the normalisation, the upsampling, the reshape. *)
Variable params : Type.
Variable linear : layer → params → list R → list R.

Definition apply_layer (p : params) (t : list R) (l : layer) : list R :=
  match l with
  | Activation a => activate a t
  | Dense _ (Some a) => activate a (linear l p t)
  | _ => linear l p t
  end.

(** A [Sequential] model applies its layers in the order they were
    added. *)
Definition run (layers : list layer) (p : params) (t : list R) : list R :=
  foldl (apply_layer p) t layers.

(** The generator on one latent vector, and [generator.predict] on a
    batch. *)
Definition generate (p : params) (z : list R) : list R :=
  run generator_layers p z.

Definition generate_batch (p : params) (zs : list (list R)) : list (list R) :=
  map (generate p) zs.

End Layers.
End GeneratorNet.

(** ** The class weights in binary64 *)

Module Binary64.

Definition weights (half_batch : float) : float * float :=
  (PrimFloat.div 10%float half_batch, PrimFloat.div 1%float half_batch).

Definition fake_half_mass (half_batch : float) : float :=
  PrimFloat.mul (snd (weights half_batch)) half_batch.

Definition real_class_mass (half_batch : float) : float :=
  PrimFloat.mul (fst (weights half_batch)) (PrimFloat.div half_batch 10%float).

Definition real_half_mass (half_batch : float) : float :=
  PrimFloat.mul (real_class_mass half_batch) 10%float.

End Binary64.

(** ** The figure of [save_imgs] *)

Module SampleGrid.
Import Numpy.

(** [axs]: the image each cell of the figure shows, by row and column. *)
Abbreviation axes := (gmap (Z * Z) (list Q)).

(** The body of the inner loop: [axs[i,j].imshow(gen_imgs[cnt, :,:,0])],
    then [cnt += 1]. *)
Definition show_cell (gen_imgs : list (list Q)) (i j : Z) (st : Z * axes)
    : result (Z * axes) :=
  rbind (item gen_imgs st.1) (λ img,
    Ok (st.1 + 1, <[(i, j) := img]> st.2)).

(** [for x in xs: body(x)] on a state the body updates. *)
Fixpoint for_range {S} (xs : list Z) (body : Z → S → result S) (st : S)
    : result S :=
  match xs with
  | [] => Ok st
  | x :: rest => rbind (body x st) (for_range rest body)
  end.

(** The two loops of [save_imgs] over a figure of [r] rows and [c]
    columns, from [cnt = 0]. *)
Definition show_grid (r c : Z) (gen_imgs : list (list Q)) : result axes :=
  rbind (for_range (seqZ 0 r)
           (λ i, for_range (seqZ 0 c) (show_cell gen_imgs i)) (0, ∅))
    (λ st, Ok st.2).

End SampleGrid.

(** ** The files of [save_imgs] *)

Module SampleFiles.

(** The name [savefig] is given:
    ["./generators_output/mnist_%d.png" % epoch]. *)
Definition grid_file (epoch : Z) : string :=
  "./generators_output/mnist_" +:+ pretty epoch +:+ ".png".

(** The directory after the figures of a log were written to it in
    order: [savefig] replaces a file that is there under the name. *)
Definition write_all (files : gmap string (list (list Q)))
    (log : list (Z * list (list Q))) : gmap string (list (list Q)) :=
  foldl (λ fs s, <[grid_file s.1 := s.2]> fs) files log.

End SampleFiles.

(** ** Theorems *)

Lemma Ok_inj {A} (a b : A) : Ok a = Ok b → a = b.
Proof. congruence. Qed.

Module ClassWeightsFacts.
Import ClassWeights.

Lemma true_div_ok a b : b ≠ 0 → true_div a b = Ok (inject_Z a / inject_Z b)%Q.
Proof. intros Hb. unfold true_div. by destruct (Z.eqb_spec b 0). Qed.

Lemma dict_comprehension_ok keys hb acc :
  hb ≠ 0 →
  dict_comprehension keys hb acc =
    Ok (foldl (λ m i, <[i := (inject_Z num_classes / inject_Z hb)%Q]> m) acc keys).
Proof.
  intros Hb. revert acc.
  induction keys as [|i rest IH]; intros acc; simpl; [done|].
  rewrite true_div_ok by done. simpl. apply IH.
Qed.

Lemma lookup_foldl_insert (keys : list Z) (w : Q) (acc : gmap Z Q) (i : Z) :
  foldl (λ m k, <[k := w]> m) acc keys !! i =
    if decide (i ∈ keys) then Some w else acc !! i.
Proof.
  revert acc. induction keys as [|k rest IH]; intros acc; cbn [foldl].
  - rewrite (decide_False (P := i ∈ [])); [done|]. by intros ?%elem_of_nil.
  - rewrite IH. destruct (decide (i = k)) as [->|Hne].
    + rewrite lookup_insert_eq.
      rewrite (decide_True (P := k ∈ k :: rest)) by apply list_elem_of_here.
      by destruct (decide (k ∈ rest)).
    + rewrite lookup_insert_ne by done.
      destruct (decide (i ∈ rest)) as [Hin|Hnin].
      * by rewrite (decide_True (P := i ∈ k :: rest))
          by (by apply list_elem_of_further).
      * rewrite (decide_False (P := i ∈ k :: rest)); [done|].
        by intros [?|?]%elem_of_cons.
Qed.

Lemma cw2_ok hb :
  hb ≠ 0 →
  cw2 hb = Ok (<[num_classes := (1 / inject_Z hb)%Q]>
    (foldl (λ m i, <[i := (inject_Z num_classes / inject_Z hb)%Q]> m)
           ∅ (seqZ 0 num_classes))).
Proof.
  intros Hb. unfold cw2.
  rewrite dict_comprehension_ok by done. simpl.
  by rewrite true_div_ok by done.
Qed.

Lemma cw2_zero : cw2 0 = Err ZeroDivisionError.
Proof. reflexivity. Qed.

Lemma cw2_lookup_class hb cw c :
  cw2 hb = Ok cw → 0 ≤ c < num_classes →
  cw !! c = Some (inject_Z num_classes / inject_Z hb)%Q.
Proof.
  intros Hcw Hc. destruct (decide (hb = 0)) as [->|Hb]; [done|].
  rewrite cw2_ok in Hcw by done. apply Ok_inj in Hcw as <-.
  rewrite lookup_insert_ne by lia.
  rewrite lookup_foldl_insert, decide_True; [done|].
  apply elem_of_seqZ. lia.
Qed.

Lemma cw2_lookup_sentinel hb cw :
  cw2 hb = Ok cw → cw !! num_classes = Some (1 / inject_Z hb)%Q.
Proof.
  intros Hcw. destruct (decide (hb = 0)) as [->|Hb]; [done|].
  rewrite cw2_ok in Hcw by done. apply Ok_inj in Hcw as <-.
  by rewrite lookup_insert_eq.
Qed.

Lemma half_batch_even batch_size :
  Z.even batch_size = true → 2 * half_batch_of batch_size = batch_size.
Proof.
  intros Hev. unfold half_batch_of.
  apply Z.even_spec in Hev as [k ->].
  by rewrite (Z.mul_comm 2 k), Z.quot_mul by done; lia.
Qed.

Lemma inject_Z_nonzero (z : Z) : z ≠ 0 → ¬ (inject_Z z == 0)%Q.
Proof. intros Hz. unfold Qeq. simpl. lia. Qed.

(** C1, the stated identity fails.  At the default [batch_size = 32]
    the fake half weighs [1/16 * 16 = 1] and the real half, under
    uniform labels, [10/16 * (16/10) * 10 = 10]. *)
Lemma stated_balance_fails_at_32 : ¬ stated_balance 32.
Proof.
  intros H.
  pose proof (cw2_ok (half_batch_of 32) ltac:(done)) as Hcw.
  pose proof (cw2_lookup_sentinel _ _ Hcw) as Hs.
  pose proof (cw2_lookup_class _ _ 0 Hcw ltac:(done)) as Hc.
  specialize (H _ 0 (1 / inject_Z 16 * inject_Z 16)%Q
    (inject_Z 10 / inject_Z 16 * (inject_Z 16 / inject_Z 10) * inject_Z 10)%Q
    Hcw ltac:(done)).
  unfold real_half_mass, real_class_mass, fake_half_mass in H.
  rewrite Hs, Hc in H.
  specialize (H eq_refl eq_refl).
  vm_compute in H. discriminate H.
Qed.

(** C1, as the code has it.  For every even [batch_size] other than 0,
    [train] builds a class-head weight map that gives [num_classes /
    half_batch] to each class [0..9] and [1 / half_batch] to the
    sentinel class [num_classes]; in exact arithmetic the [half_batch]
    sentinel samples then weigh 1 in total, as much as the
    [half_batch / num_classes] samples of any single genuine class, and
    the whole real half weighs [num_classes] times the fake half. *)
Theorem class_weights_balance_per_class (batch_size : Z) :
  Z.even batch_size = true →
  batch_size ≠ 0 →
  let hb := half_batch_of batch_size in
  2 * hb = batch_size ∧
  ∃ cw mf,
    cw2 hb = Ok cw ∧
    (∀ c, 0 ≤ c < num_classes →
          cw !! c = Some (inject_Z num_classes / inject_Z hb)%Q) ∧
    cw !! num_classes = Some (1 / inject_Z hb)%Q ∧
    fake_half_mass cw hb = Some mf ∧
    (mf == 1)%Q ∧
    ∀ c, 0 ≤ c < num_classes →
      ∃ mc mr,
        real_class_mass cw hb c = Some mc ∧
        real_half_mass cw hb c = Some mr ∧
        (mf == mc)%Q ∧
        (mr == inject_Z num_classes * mf)%Q.
Proof.
  intros Hev Hnz hb.
  pose proof (half_batch_even _ Hev) as H2. fold hb in H2.
  assert (hb ≠ 0) as Hb by lia.
  pose proof (inject_Z_nonzero hb Hb) as HbQ.
  pose proof (cw2_ok hb Hb) as Hcw.
  pose proof (cw2_lookup_sentinel _ _ Hcw) as Hs.
  split; [done|].
  eexists _, _. split; [exact Hcw|].
  split; [intros c Hc; by apply (cw2_lookup_class hb)|].
  split; [exact Hs|].
  split; [unfold fake_half_mass; rewrite Hs; reflexivity|].
  split; [field; exact HbQ|].
  intros c Hc.
  pose proof (cw2_lookup_class _ _ c Hcw Hc) as Hl.
  eexists _, _.
  split; [unfold real_class_mass; rewrite Hl; reflexivity|].
  split; [unfold real_half_mass, real_class_mass; rewrite Hl; reflexivity|].
  split; unfold num_classes; field; exact HbQ.
Qed.

Lemma class_weights_balance_per_class_witness :
  Z.even 32 = true ∧ 32 ≠ 0 ∧
  2 * half_batch_of 32 = 32 ∧
  ∃ cw mf,
    cw2 (half_batch_of 32) = Ok cw ∧
    (∀ c, 0 ≤ c < num_classes →
          cw !! c = Some (inject_Z num_classes / inject_Z (half_batch_of 32))%Q) ∧
    cw !! num_classes = Some (1 / inject_Z (half_batch_of 32))%Q ∧
    fake_half_mass cw (half_batch_of 32) = Some mf ∧
    (mf == 1)%Q ∧
    ∀ c, 0 ≤ c < num_classes →
      ∃ mc mr,
        real_class_mass cw (half_batch_of 32) c = Some mc ∧
        real_half_mass cw (half_batch_of 32) c = Some mr ∧
        (mf == mc)%Q ∧
        (mr == inject_Z num_classes * mf)%Q.
Proof.
  split; [reflexivity|]. split; [lia|].
  apply (class_weights_balance_per_class 32); [reflexivity|lia].
Defined.

End ClassWeightsFacts.

Module Binary64Facts.
Import Binary64.

(** At the default [batch_size = 32] the binary64 weights are exact and
    the two halves weigh 1 and 10. *)
Lemma default_batch_masses :
  weights 16%float = (0.625%float, 0.0625%float) ∧
  fake_half_mass 16%float = 1%float ∧
  real_class_mass 16%float = 1%float ∧
  real_half_mass 16%float = 10%float.
Proof. repeat split; vm_compute; reflexivity. Qed.

(** At [batch_size = 98] rounding separates the sentinel class from a
    genuine class by one unit in the last place: the per-class identity
    is one of exact arithmetic. *)
Lemma batch_98_rounding :
  PrimFloat.eqb (fake_half_mass 49%float) (real_class_mass 49%float) = false.
Proof. vm_compute. reflexivity. Qed.

End Binary64Facts.


(** ** Facts about the array helpers *)

Module NumpyFacts.
Import Numpy.

Lemma rbind_ok {A B} (r : result A) (k : A → result B) (b : B) :
  rbind r k = Ok b → ∃ a, r = Ok a ∧ k a = Ok b.
Proof. destruct r as [a|e]; simpl; [eauto|discriminate]. Qed.

Lemma full_ok {A} (n : Z) (v : A) :
  0 ≤ n → full n v = Ok (replicate (Z.to_nat n) v).
Proof. intros Hn. unfold full. by destruct (Z.ltb_spec n 0); [lia|]. Qed.

Lemma item_ok {A} (a : list A) (i : Z) :
  0 ≤ i < Z.of_nat (length a) →
  ∃ x, item a i = Ok x ∧ a !! Z.to_nat i = Some x.
Proof.
  intros Hi. unfold item, wrapped.
  destruct (Z.ltb_spec i 0); [lia|].
  destruct (Z.leb_spec 0 i); [|lia].
  destruct (Z.ltb_spec i (Z.of_nat (length a))); [|lia]. simpl.
  destruct (a !! Z.to_nat i) as [x|] eqn:Hx; [eauto|].
  apply lookup_ge_None in Hx. lia.
Qed.

Lemma item_elem_of {A} (a : list A) (i : Z) (x : A) :
  item a i = Ok x → x ∈ a.
Proof.
  unfold item. destruct (_ && _); [|discriminate].
  destruct (a !! _) as [y|] eqn:Hy; [|discriminate].
  intros [= <-]. by eapply list_elem_of_lookup_2.
Qed.

Lemma take_length {A} (a : list A) idx xs :
  take a idx = Ok xs → length xs = length idx.
Proof.
  revert xs. induction idx as [|i rest IH]; intros xs; simpl.
  - by intros [= <-].
  - intros (x & _ & (xs' & Hrest & [= <-])%rbind_ok)%rbind_ok.
    simpl. f_equal. by apply IH.
Qed.

Lemma take_elem_of {A} (a : list A) idx xs :
  take a idx = Ok xs → Forall (λ x, x ∈ a) xs.
Proof.
  revert xs. induction idx as [|i rest IH]; intros xs; simpl.
  - intros [= <-]. constructor.
  - intros (x & Hx & (xs' & Hrest & [= <-])%rbind_ok)%rbind_ok.
    constructor; [by eapply item_elem_of|by apply IH].
Qed.

Lemma take_ok {A} (a : list A) idx :
  Forall (λ i, 0 ≤ i < Z.of_nat (length a)) idx →
  ∃ xs, take a idx = Ok xs.
Proof.
  induction 1 as [|i rest Hi _ [xs IH]]; simpl; [eauto|].
  destruct (item_ok a i Hi) as (x & -> & _). simpl.
  rewrite IH. simpl. eauto.
Qed.

(** [take] reads the rows at the positions of [idx], in order. *)
Lemma take_lookup {A} (a : list A) idx xs :
  Forall (λ i, 0 ≤ i) idx →
  take a idx = Ok xs →
  Forall2 (λ i x, a !! Z.to_nat i = Some x) idx xs.
Proof.
  intros Hpos. revert xs.
  induction Hpos as [|i rest Hi _ IH]; intros xs; simpl.
  - intros [= <-]. constructor.
  - intros (x & Hx & (xs' & Hrest & [= <-])%rbind_ok)%rbind_ok.
    constructor; [|by apply IH].
    unfold item, wrapped in Hx. destruct (Z.ltb_spec i 0); [lia|].
    destruct (_ && _); [|discriminate].
    by destruct (a !! Z.to_nat i); simplify_eq.
Qed.

Lemma one_hot_length n c row : one_hot n c = Ok row → length row = Z.to_nat n.
Proof.
  unfold one_hot. destruct (_ && _); [|discriminate].
  intros [= <-]. by rewrite length_insert, length_replicate.
Qed.

Lemma one_hot_ok n c : 0 ≤ c < n →
  one_hot n c = Ok (<[Z.to_nat c := 1%Q]> (replicate (Z.to_nat n) 0%Q)).
Proof.
  intros Hc. unfold one_hot, wrapped.
  destruct (Z.ltb_spec c 0); [lia|].
  destruct (Z.leb_spec 0 c); [|lia].
  by destruct (Z.ltb_spec c n); [|lia].
Qed.

Lemma one_hot_inv n c row :
  one_hot n c = Ok row →
  0 ≤ wrapped n c < n ∧
  row = <[Z.to_nat (wrapped n c) := 1%Q]> (replicate (Z.to_nat n) 0%Q).
Proof.
  unfold one_hot.
  destruct (Z.leb_spec 0 (wrapped n c));
    destruct (Z.ltb_spec (wrapped n c) n);
    simpl; try discriminate.
  intros [= <-]. split; [lia|done].
Qed.

Lemma to_categorical_Forall2 y n rows :
  to_categorical y n = Ok rows →
  Forall2 (λ c row, one_hot n c = Ok row) y rows.
Proof.
  revert rows. induction y as [|c rest IH]; intros rows; simpl.
  - intros [= <-]. constructor.
  - intros (row & Hrow & (rows' & Hrest & [= <-])%rbind_ok)%rbind_ok.
    constructor; [done|by apply IH].
Qed.

Lemma to_categorical_length y n rows :
  to_categorical y n = Ok rows → length rows = length y.
Proof. intros H%to_categorical_Forall2. symmetry. by eapply Forall2_length. Qed.

Lemma to_categorical_ok y n :
  Forall (λ c, - n ≤ c < n) y → ∃ rows, to_categorical y n = Ok rows.
Proof.
  induction 1 as [|c rest Hc _ [rows IH]]; simpl; [eauto|].
  assert (∃ row, one_hot n c = Ok row) as [row ->].
  { unfold one_hot, wrapped.
    destruct (Z.ltb_spec c 0).
    - destruct (Z.leb_spec 0 (c + n)); [|lia].
      destruct (Z.ltb_spec (c + n) n); [|lia]. simpl. eauto.
    - destruct (Z.leb_spec 0 c); [|lia].
      destruct (Z.ltb_spec c n); [|lia]. simpl. eauto. }
  simpl. rewrite IH. simpl. eauto.
Qed.

Lemma to_categorical_replicate k c n row :
  one_hot n c = Ok row →
  to_categorical (replicate k c) n = Ok (replicate k row).
Proof.
  intros Hrow. induction k as [|k IH]; simpl; [done|].
  rewrite Hrow. simpl. by rewrite IH.
Qed.

(** [argmax] over zeros with a single one finds the one. *)
Lemma argmax_from_zeros best_i best i k :
  (0 <= best)%Q →
  argmax_from best_i best i (replicate k 0%Q) = best_i.
Proof.
  intros Hb. revert i. induction k as [|k IH]; intros i; simpl; [done|].
  apply Qle_bool_iff in Hb. rewrite Hb. apply IH.
Qed.

Lemma argmax_from_one_hot best_i i k j :
  (j < k)%nat →
  argmax_from best_i 0%Q i (<[j := 1%Q]> (replicate k 0%Q)) = (i + j)%nat.
Proof.
  revert best_i i j. induction k as [|k IH]; intros best_i i j Hj; [lia|].
  destruct j as [|j]; simpl.
  - rewrite argmax_from_zeros by done. lia.
  - rewrite IH by lia. lia.
Qed.

Lemma argmax_one_hot k j :
  (j < k)%nat →
  argmax (<[j := 1%Q]> (replicate k 0%Q)) = Ok j.
Proof.
  intros Hj. destruct k as [|k]; [lia|].
  destruct j as [|j]; simpl.
  - by rewrite argmax_from_zeros.
  - rewrite argmax_from_one_hot by lia. done.
Qed.

(** [argmax] returns a position of the row. *)
Lemma argmax_from_lt best_i best i row :
  (best_i < i)%nat →
  (argmax_from best_i best i row < i + length row)%nat.
Proof.
  revert best_i best i. induction row as [|x rest IH]; intros bi b i Hlt; simpl.
  - lia.
  - destruct (Qle_bool x b).
    + specialize (IH bi b (S i)). lia.
    + specialize (IH i x (S i)). lia.
Qed.

Lemma argmax_lt row j : argmax row = Ok j → (j < length row)%nat.
Proof.
  destruct row as [|x rest]; simpl; [discriminate|].
  intros [= <-]. pose proof (argmax_from_lt 0 x 1 rest). lia.
Qed.

Lemma argmax_nonempty row : row ≠ [] → ∃ j, argmax row = Ok j.
Proof. destruct row; [done|]. simpl. eauto. Qed.

Lemma add_length a b : length (add a b) = Nat.min (length a) (length b).
Proof. unfold add. apply length_zip_with. Qed.

Lemma scale_length c a : length (scale c a) = length a.
Proof. unfold scale. apply length_map. Qed.

Lemma scale_add_lookup c a b (i : nat) x y :
  a !! i = Some x → b !! i = Some y →
  scale c (add a b) !! i = Some (c * (x + y))%Q.
Proof.
  intros Ha Hb. unfold scale, add.
  rewrite list_lookup_fmap, lookup_zip_with, Ha. simpl. by rewrite Hb.
Qed.

(** The only exception of the array helpers is [IndexError]. *)
Lemma item_raises {A} (a : list A) (i : Z) (e : exn) :
  item a i = Err e → e = IndexError.
Proof.
  unfold item. destruct (_ && _); [|by intros [= <-]].
  destruct (a !! _); [discriminate|by intros [= <-]].
Qed.

Lemma take_raises {A} (a : list A) (idx : list Z) (e : exn) :
  take a idx = Err e → e = IndexError.
Proof.
  induction idx as [|i idx IH]; cbn [take]; [discriminate|].
  destruct (item a i) eqn:Hi; cbn [rbind]; [|intros [= <-]; by eapply item_raises].
  destruct (take a idx); cbn [rbind]; [discriminate|].
  intros [= <-]. by apply IH.
Qed.

Lemma to_categorical_raises (y : list Z) (n : Z) (e : exn) :
  to_categorical y n = Err e → e = IndexError.
Proof.
  induction y as [|c y IH]; cbn [to_categorical]; [discriminate|].
  unfold one_hot at 1.
  destruct (_ && _); cbn [rbind]; [|by intros [= <-]].
  destruct (to_categorical y n); cbn [rbind]; [discriminate|].
  intros [= <-]. by apply IH.
Qed.

End NumpyFacts.

(** ** Facts about the training step *)

Module TrainingFacts.
Import Numpy Keras Training NumpyFacts.

Section WithEngine.
Context `{E : Engine}.

Local Abbreviation store := (gmap wname tensor).

Lemma sample_class_one_hot (j : nat) :
  (j < 11)%nat →
  sample_class (<[j := 1%Q]> (replicate 11 0%Q)) = Ok (Z.of_nat j).
Proof.
  intros Hj.
  do 11 (destruct j as [|j]; [reflexivity|]). lia.
Qed.

(** A one-hot row of eleven entries is weighted by the entry of the
    class-weight dict under the label it encodes. *)
Lemma class_sample_weights_one_hot (cw : gmap Z Q) (y : list Z) rows :
  (∀ c, 0 ≤ c < 11 → is_Some (cw !! c)) →
  to_categorical y 11 = Ok rows →
  ∃ ws, class_sample_weights cw rows = Ok ws ∧
        Forall2 (λ c w, cw !! wrapped 11 c = Some w) y ws.
Proof.
  intros Hkeys Hrows%to_categorical_Forall2.
  induction Hrows as [|c row y rows Hrow _ (ws & IH & Hws)]; simpl.
  - eexists. split; [done|constructor].
  - apply one_hot_inv in Hrow as [Hc ->].
    change (Z.to_nat 11) with 11%nat.
    rewrite sample_class_one_hot by lia.
    rewrite Z2Nat.id by lia. simpl.
    destruct (Hkeys (wrapped 11 c) Hc) as [w Hw]. rewrite Hw, IH. simpl.
    eexists. split; [done|]. by constructor.
Qed.

Lemma class_sample_weights_length (cw : gmap Z Q) rows ws :
  class_sample_weights cw rows = Ok ws → length ws = length rows.
Proof.
  revert ws. induction rows as [|row rows IH]; intros ws; simpl.
  - by intros [= <-].
  - intros (c & _ & Hrest)%rbind_ok.
    destruct (cw !! c); [|discriminate].
    apply rbind_ok in Hrest as (ws' & Hws' & [= <-]).
    simpl. f_equal. by apply IH.
Qed.

Lemma sample_class_column (v : Z) : sample_class [inject_Z v] = Ok v.
Proof.
  unfold sample_class. rewrite Qfloor_Z.
  by rewrite (proj2 (Qeq_bool_iff _ _) (Qeq_refl (inject_Z v))).
Qed.

(** Equal rows get the weight of their class. *)
Lemma class_sample_weights_replicate (cw : gmap Z Q) (k : nat)
    (row : list Q) (c : Z) (w : Q) :
  sample_class row = Ok c →
  cw !! c = Some w →
  class_sample_weights cw (replicate k row) = Ok (replicate k w).
Proof.
  intros Hc Hw. induction k as [|k IH]; [done|].
  cbn [replicate class_sample_weights].
  rewrite Hc. cbn [rbind]. rewrite Hw, IH. done.
Qed.

(** The update writes the collected weights and nothing else; each is
    moved from its value before the step along its gradient there. *)
Lemma optimizer_step_lookup (cm : compiled) (b : backend) (obj : store → Q)
    (st : store) (n : wname) :
  optimizer_step cm b obj st !! n =
    if decide (n ∈ cm_collected cm)
    then (λ v, apply_gradient b n v (gradient obj st n)) <$> st !! n
    else st !! n.
Proof.
  unfold optimizer_step.
  assert (∀ coll (s : store),
    foldl (λ s n,
             match st !! n with
             | Some v => <[n := apply_gradient b n v (gradient obj st n)]> s
             | None => s
             end) s coll !! n =
    if decide (n ∈ coll)
    then match st !! n with
         | Some v => Some (apply_gradient b n v (gradient obj st n))
         | None => s !! n
         end
    else s !! n) as Hgen.
  { induction coll as [|k rest IH]; intros s; cbn [foldl].
    - rewrite (decide_False (P := n ∈ [])); [done|]. by intros ?%elem_of_nil.
    - rewrite IH. destruct (decide (n = k)) as [->|Hne].
      + rewrite (decide_True (P := k ∈ k :: rest)) by apply list_elem_of_here.
        destruct (st !! k) as [v|] eqn:Hk.
        * by destruct (decide (k ∈ rest)); [|rewrite lookup_insert_eq].
        * by destruct (decide (k ∈ rest)).
      + assert ((match st !! k with
                 | Some v => <[k := apply_gradient b k v (gradient obj st k)]> s
                 | None => s
                 end) !! n = s !! n) as Hs.
        { destruct (st !! k); [by rewrite lookup_insert_ne|done]. }
        destruct (decide (n ∈ rest)) as [Hin|Hnin].
        * rewrite (decide_True (P := n ∈ k :: rest))
            by (by apply list_elem_of_further).
          by rewrite Hs.
        * rewrite (decide_False (P := n ∈ k :: rest)); [done|].
          by intros [?|?]%elem_of_cons. }
  rewrite Hgen. destruct (decide (n ∈ cm_collected cm)); [|done].
  by destruct (st !! n).
Qed.

End WithEngine.
End TrainingFacts.

(** ** Facts about the methods of [DCGAN] *)

Module GanFacts.
Import Numpy Keras Training ClassWeights Gan.
Import NumpyFacts TrainingFacts ClassWeightsFacts.

Section WithEngine.
Context `{E : Engine}.

Local Abbreviation store := (gmap wname tensor).

Lemma bind_run {A B} (m : M A) (k : A → M B) (w : world) :
  (m ≫= k) w =
    match m w with
    | (w', Ok a) => k a w'
    | (w', Err e) => (w', Err e)
    end.
Proof. reflexivity. Qed.

Lemma bind_lift {A B} (r : result A) (k : A → M B) (w : world) :
  (lift r ≫= k) w =
    match r with
    | Ok a => k a w
    | Err e => (w, Err e)
    end.
Proof. rewrite bind_run. unfold lift. by destruct r. Qed.

Lemma half_batch_pos (batch_size : Z) :
  0 < half_batch_of batch_size ↔ 2 ≤ batch_size.
Proof.
  unfold half_batch_of. split.
  - intros Hpos. destruct (Z_lt_le_dec batch_size 2) as [Hlt|]; [|done].
    destruct (Z_lt_le_dec batch_size 0) as [Hneg|Hnn].
    + replace batch_size with (- (- batch_size)) in Hpos by lia.
      rewrite Z.quot_opp_l in Hpos by done.
      pose proof (Z.quot_pos (- batch_size) 2). lia.
    + rewrite Z.quot_small in Hpos by lia. lia.
  - intros Hbs. apply Z.quot_str_pos. lia.
Qed.

Lemma normal_ok (rows cols : Z) (w : world) :
  0 ≤ rows → 0 ≤ cols →
  normal rows cols w =
    (set_rng (draw_rows (Z.to_nat rows) (Z.to_nat cols) (np_random w)).2 w,
     Ok (draw_rows (Z.to_nat rows) (Z.to_nat cols) (np_random w)).1).
Proof.
  intros Hr Hc. unfold normal.
  destruct (Z.ltb_spec rows 0); [lia|]. destruct (Z.ltb_spec cols 0); [lia|].
  simpl. by destruct (draw_rows _ _ _).
Qed.

Lemma draw_indices_spec (n : nat) (high : Z) (g : rng) :
  0 < high →
  length (draw_indices n high g).1 = n ∧
  Forall (λ i, 0 ≤ i < high) (draw_indices n high g).1.
Proof.
  intros Hh. revert g. induction n as [|n IH]; intros g; simpl.
  - split; [done|constructor].
  - destruct (next_uint g) as [r g1].
    specialize (IH g1). destruct (draw_indices n high g1) as [rest g2].
    simpl in *. destruct IH as [IH1 IH2]. split; [by f_equal|].
    constructor; [|done]. by apply Z.mod_pos_bound.
Qed.

Lemma draw_row_length (cols : nat) (g : rng) :
  length (draw_row cols g).1 = cols.
Proof.
  revert g. induction cols as [|n IH]; intros g; simpl; [done|].
  destruct (next_normal g) as [v g1].
  specialize (IH g1). destruct (draw_row n g1) as [rest g2].
  simpl in *. by f_equal.
Qed.

Lemma draw_rows_spec (rows cols : nat) (g : rng) :
  length (draw_rows rows cols g).1 = rows ∧
  Forall (λ z, length z = cols) (draw_rows rows cols g).1.
Proof.
  revert g. induction rows as [|n IH]; intros g; simpl.
  - split; [done|constructor].
  - pose proof (draw_row_length cols g) as Hrow.
    destruct (draw_row cols g) as [r g1].
    specialize (IH g1). destruct (draw_rows n cols g1) as [rest g2].
    simpl in *. destruct IH as [IH1 IH2]. split; [by f_equal|].
    by constructor.
Qed.

(** The discriminator was compiled with two losses and accuracy: a step
    reports five numbers. *)
Lemma report_discriminator_length x y1 y2 sw1 sw2 (w : world) :
  length (step_report TheDiscriminator x [y1; y2] [sw1; sw2] w) = 5%nat.
Proof.
  unfold step_report, outputs.
  by destruct (discriminator_fwd _ _ x) as [valid label].
Qed.

(** The combined model has one loss and no metric: a step reports the
    loss alone. *)
Lemma report_combined_scalar x y sw (w : world) :
  ∃ v, step_report TheCombined x [y] [sw] w = [v].
Proof.
  unfold step_report, outputs.
  destruct (discriminator_fwd _ _ (generator_fwd _ _ x)) as [valid label].
  by eexists.
Qed.

Lemma train_on_batch_discriminator (x valid labels : list (list Q))
    (cw1 cw2 : gmap Z Q) (sw1 sw2 : list Q) (w : world) :
  length valid = length x →
  length labels = length x →
  class_sample_weights cw1 valid = Ok sw1 →
  class_sample_weights cw2 labels = Ok sw2 →
  train_on_batch TheDiscriminator x [valid; labels] [cw1; cw2] w =
    commit_step TheDiscriminator x [valid; labels] [cw1; cw2] [sw1; sw2] w.
Proof.
  intros Hv Hl Hsw1 Hsw2. unfold train_on_batch, same_samples.
  cbn [forallb]. rewrite Hv, Hl, Nat.eqb_refl. cbn [andb negb].
  unfold sample_weights. cbn [compiled_of discriminator_model build_models
    compile cm_losses length].
  rewrite decide_True by done.
  cbn [per_output_weights]. rewrite Hsw1, Hsw2. done.
Qed.

Lemma train_on_batch_combined (x validity : list (list Q))
    (cw1 cw2 : gmap Z Q) (w : world) :
  length validity = length x →
  train_on_batch TheCombined x [validity] [cw1; cw2] w =
    commit_step TheCombined x [validity] [cw1; cw2]
      [map (opaque_sample_weight [cw1; cw2]) validity] w.
Proof.
  intros Hv. unfold train_on_batch, same_samples.
  cbn [forallb]. rewrite Hv, Nat.eqb_refl. done.
Qed.

Lemma save_imgs_run (epoch : Z) (w : world) :
  ∃ w', save_imgs epoch w = (w', Ok tt) ∧
        calls w' = calls w ∧ self w' = self w ∧ keras w' = keras w.
Proof.
  unfold save_imgs. rewrite bind_run, normal_ok by lia.
  destruct (draw_rows _ _ _) as [z g]. cbn [fst snd].
  rewrite bind_run. unfold generator_predict, savefig.
  eexists. split; [reflexivity|]. done.
Qed.

(** [save_imgs] draws 25 latent vectors, runs the generator on them at
    the weights of the moment and writes the rescaled images under the
    epoch; it never raises. *)
Lemma save_imgs_trace (epoch : Z) (w : world) :
  save_imgs epoch w =
    (let z := (draw_rows 25 100 (np_random w)).1 in
     let g := (draw_rows 25 100 (np_random w)).2 in
     {| np_random := g; keras := keras w; self := self w; calls := calls w;
        saved := saved w ++
          [(epoch,
            map (map (λ v, (1 # 2) * v + 1)%Q)
                (map (generator_infer (keras w) (weights (self w))) z))] |},
     Ok tt).
Proof.
  unfold save_imgs. rewrite bind_run, normal_ok by lia.
  change (Z.to_nat (5 * 5)) with 25%nat. change (Z.to_nat 100) with 100%nat.
  destruct (draw_rows 25 100 (np_random w)) as [z g]. cbn [fst snd].
  rewrite bind_run. reflexivity.
Qed.

(** The end of the loop body: the test of the save interval. *)
Lemma save_test_run (epoch save_interval : Z) (w : world) :
  (r ← lift (py_mod epoch save_interval);
   if r =? 0 then save_imgs epoch else mret tt) w =
    if decide (save_interval = 0) then (w, Err ZeroDivisionError)
    else if decide (epoch `mod` save_interval = 0) then save_imgs epoch w
    else (w, Ok tt).
Proof.
  rewrite bind_lift. unfold py_mod.
  destruct (Z.eqb_spec save_interval 0) as [->|Hsi].
  - by rewrite decide_True.
  - rewrite decide_False by done.
    destruct (Z.eqb_spec (epoch `mod` save_interval) 0) as [Hr|Hr].
    + by rewrite decide_True.
    + by rewrite decide_False.
Qed.

(** One pass of the loop body up to the test of the save interval.  It
    is rejected when the index draw is (an empty training set, a negative
    half batch) with nothing changed, or when a drawn index has no label
    or a label outside the classes, with only numpy's generator advanced;
    otherwise the three training steps and the four appends are made and
    the pass goes on to the test of the save interval. *)
Lemma epoch_body_trace X_train y_train batch_size cw save_interval epoch w :
  cw2 (half_batch_of batch_size) = Ok cw →
  let hb := half_batch_of batch_size in
  let run :=
    epoch_body X_train y_train batch_size hb cw1 cw save_interval epoch w in
  (run = (w, Err ValueError) ∧ (X_train = [] ∨ hb < 0))
  ∨ (∃ w', run = (w', Err IndexError) ∧
       calls w' = calls w ∧ self w' = self w ∧ keras w' = keras w ∧
       saved w' = saved w ∧ 0 < hb ∧ X_train ≠ [] ∧
       ¬ ((length X_train ≤ length y_train)%nat ∧
          Forall (λ c, - (num_classes + 1) ≤ c < num_classes + 1) y_train))
  ∨ (∃ w7 l,
       epoch_ok X_train y_train hb batch_size w l ∧
       calls w7 = calls w ++ epoch_calls cw1 cw hb batch_size l ∧
       training_history (self w7) = epoch_record (training_history (self w)) l ∧
       saved w7 = saved w ∧
       run = (r ← lift (py_mod epoch save_interval);
              if r =? 0 then save_imgs epoch else mret tt) w7).
Proof.
  intros Hcw hb run.
  assert (hb ≠ 0) as Hhb.
  { intros Hz. unfold hb in Hz. rewrite Hz in Hcw. discriminate Hcw. }
  destruct run as [w' r] eqn:Hrun. revert Hrun.
  unfold run, epoch_body. clear run.
  (* randint *)
  rewrite bind_run. unfold randint at 1.
  destruct ((Z.of_nat (length X_train) <=? 0) || (hb <? 0)) eqn:Hguard.
  { intros [= <- <-]. left. split; [done|].
    apply orb_true_iff in Hguard as [H|H].
    - apply Z.leb_le in H. left. destruct X_train; [done|]. cbn in H. lia.
    - apply Z.ltb_lt in H. by right. }
  apply orb_false_iff in Hguard as [HN%Z.leb_gt Hhb0%Z.ltb_ge].
  assert (0 < hb) as Hpos by lia.
  assert (2 ≤ batch_size) as Hbs by (by apply half_batch_pos).
  pose proof (draw_indices_spec (Z.to_nat hb) _ (np_random w) HN) as [Hilen Hirange].
  destruct (draw_indices (Z.to_nat hb) _ (np_random w)) as [idx g1].
  simpl in Hilen, Hirange.
  (* imgs *)
  rewrite bind_lift.
  destruct (take_ok X_train idx Hirange) as [imgs Himgs]. rewrite Himgs.
  (* noise *)
  rewrite bind_run, normal_ok by lia.
  pose proof (draw_rows_spec (Z.to_nat hb) (Z.to_nat 100) (np_random (set_rng g1 w)))
    as [Hnlen _].
  destruct (draw_rows (Z.to_nat hb) (Z.to_nat 100) (np_random (set_rng g1 w)))
    as [gen_noise g2]. simpl in Hnlen. cbn [fst snd].
  (* generator.predict *)
  rewrite bind_run. unfold generator_predict at 1.
  (* valid, fake *)
  unfold ones, zeros. rewrite !full_ok by lia. rewrite !bind_lift.
  (* labels *)
  destruct (take y_train idx) as [y|e] eqn:Hy; cycle 1.
  { intros [= <- <-]. right. left. eexists. split.
    { by rewrite (take_raises _ _ _ Hy). }
    do 6 (split; [done || (intros ->; cbn in HN; lia)|]).
    intros [HX _].
    destruct (take_ok y_train idx) as [? Hc]; [|congruence].
    eapply Forall_impl; [exact Hirange|]. simpl. lia. }
  rewrite bind_lift.
  destruct (to_categorical y (num_classes + 1)) as [labels|e] eqn:Hlabels; cycle 1.
  { intros [= <- <-]. right. left. eexists. split.
    { by rewrite (to_categorical_raises _ _ _ Hlabels). }
    do 6 (split; [done || (intros ->; cbn in HN; lia)|]).
    intros [_ Hrange].
    destruct (to_categorical_ok y (num_classes + 1)) as [? Hc]; [|congruence].
    apply take_elem_of in Hy.
    eapply Forall_impl; [exact Hy|]. simpl. intros c Hc.
    by eapply Forall_forall in Hrange. }
  rewrite bind_lift.
  assert (one_hot (num_classes + 1) num_classes =
          Ok (<[10%nat := 1%Q]> (replicate 11 0%Q))) as Hsent by reflexivity.
  rewrite (to_categorical_replicate _ _ _ _ Hsent).
  rewrite bind_lift.
  (* the discriminator on the real half *)
  assert (length imgs = Z.to_nat hb) as Hilen'
    by (by rewrite (take_length _ _ _ Himgs)).
  assert (length labels = Z.to_nat hb) as Hllen.
  { by rewrite (to_categorical_length _ _ _ Hlabels), (take_length _ _ _ Hy). }
  assert (∀ c, 0 ≤ c < 11 → is_Some (cw !! c)) as Hkeys.
  { intros c Hc. destruct (decide (c = num_classes)) as [->|Hne].
    - rewrite (cw2_lookup_sentinel _ _ Hcw). eauto.
    - rewrite (cw2_lookup_class _ _ c Hcw) by (unfold num_classes in *; lia). eauto. }
  destruct (class_sample_weights_one_hot cw y labels Hkeys Hlabels)
    as (sw_real & Hsw_real & _).
  rewrite bind_run.
  rewrite (train_on_batch_discriminator imgs _ labels cw1 cw
             (replicate (Z.to_nat hb) 1%Q) sw_real);
    [|by rewrite length_replicate|congruence
     |by apply (class_sample_weights_replicate cw1 _ _ 1)|done].
  unfold commit_step at 1.
  set (w2 := set_rng g2 (set_rng g1 w)).
  set (valid := replicate (Z.to_nat hb) [1%Q]).
  set (sws_real := [replicate (Z.to_nat hb) 1%Q; sw_real]).
  set (d_loss_real := step_report TheDiscriminator imgs [valid; labels] sws_real w2).
  set (w3 := step_world TheDiscriminator imgs [valid; labels] [cw1; cw] sws_real w2).
  (* the discriminator on the generated half *)
  set (gen_imgs := map (generator_infer (keras w2) (weights (self w2))) gen_noise).
  set (fake := replicate (Z.to_nat hb) [0%Q]).
  set (fake_labels := replicate (Z.to_nat hb) (<[10%nat:=1%Q]> (replicate 11 0%Q))).
  assert (class_sample_weights cw fake_labels =
          Ok (replicate (Z.to_nat hb) (1 / inject_Z hb)%Q)) as Hsw_fake.
  { apply (class_sample_weights_replicate cw _ _ num_classes).
    - apply (sample_class_one_hot 10). lia.
    - by apply cw2_lookup_sentinel. }
  rewrite bind_run.
  rewrite (train_on_batch_discriminator gen_imgs fake fake_labels cw1 cw
             (replicate (Z.to_nat hb) 1%Q)
             (replicate (Z.to_nat hb) (1 / inject_Z hb)%Q));
    [|by unfold fake, gen_imgs; rewrite length_replicate, length_map
     |by unfold fake_labels, gen_imgs; rewrite length_replicate, length_map
     |by apply (class_sample_weights_replicate cw1 _ _ 0)|exact Hsw_fake].
  unfold commit_step at 1.
  set (sws_fake := [replicate (Z.to_nat hb) 1%Q; replicate (Z.to_nat hb) (1 / inject_Z hb)%Q]).
  set (d_loss_fake := step_report TheDiscriminator gen_imgs [fake; fake_labels] sws_fake w3).
  set (w4 := step_world TheDiscriminator gen_imgs [fake; fake_labels] [cw1; cw] sws_fake w3).
  (* the generator through the combined model *)
  rewrite bind_run, normal_ok by lia.
  pose proof (draw_rows_spec (Z.to_nat batch_size) (Z.to_nat 100) (np_random w4))
    as [Hzlen Hzrows].
  destruct (draw_rows (Z.to_nat batch_size) (Z.to_nat 100) (np_random w4))
    as [noise g5]. simpl in Hzlen, Hzrows. cbn [fst snd].
  rewrite bind_lift.
  set (validity := replicate (Z.to_nat batch_size) [1%Q]).
  rewrite bind_run.
  rewrite train_on_batch_combined
    by (by unfold validity; rewrite length_replicate).
  unfold commit_step at 1.
  set (w5 := set_rng g5 w4).
  set (sws_g := [map (opaque_sample_weight [cw1; cw]) validity]).
  destruct (report_combined_scalar noise validity
              (map (opaque_sample_weight [cw1; cw]) validity) w5) as [g_loss Hg].
  fold sws_g in Hg. rewrite Hg.
  set (w6 := step_world TheCombined noise [validity] [cw1; cw] sws_g w5).
  rewrite bind_lift. cbn [scalar].
  (* the history *)
  pose proof (report_discriminator_length imgs valid labels
                (replicate (Z.to_nat hb) 1%Q) sw_real w2) as Hlr.
  pose proof (report_discriminator_length gen_imgs fake fake_labels
                (replicate (Z.to_nat hb) 1%Q)
                (replicate (Z.to_nat hb) (1 / inject_Z hb)%Q) w3) as Hlf.
  fold sws_real d_loss_real in Hlr. fold sws_fake d_loss_fake in Hlf.
  set (d_loss := scale (1 # 2) (add d_loss_real d_loss_fake)).
  assert (length d_loss = 5%nat) as Hld.
  { unfold d_loss. rewrite scale_length, add_length. lia. }
  destruct (item_ok d_loss 0) as (d0 & Hd0 & Hd0'); [lia|].
  destruct (item_ok d_loss 3) as (d3 & Hd3 & Hd3'); [lia|].
  destruct (item_ok d_loss 4) as (d4 & Hd4 & Hd4'); [lia|].
  rewrite bind_lift, Hd0, bind_run. unfold append_history at 1.
  rewrite bind_lift, Hd3, bind_run. unfold append_history at 1.
  rewrite bind_run. unfold append_history at 1.
  rewrite bind_lift, Hd4, bind_run. unfold append_history at 1.
  set (w7 := set_self _ _).
  set (l := {| ep_idx := idx; ep_imgs := imgs; ep_labels := labels;
               ep_gen_noise := gen_noise; ep_gen_imgs := gen_imgs;
               ep_fake_labels := fake_labels; ep_noise := noise;
               ep_d_loss_real := d_loss_real; ep_d_loss_fake := d_loss_fake;
               ep_g_loss := g_loss |}).
  intros <-. right. right. exists w7, l.
  split.
  { constructor; cbn [l ep_idx ep_imgs ep_labels ep_gen_noise ep_gen_imgs
                      ep_fake_labels ep_noise ep_d_loss_real ep_d_loss_fake];
      try done.
    - eauto.
    - by apply to_categorical_replicate. }
  split.
  { unfold w7, w6, step_world. cbn [calls set_self]. rewrite Hg.
    unfold w5, w4, step_world. cbn [calls set_rng].
    unfold w3, step_world. cbn [calls]. unfold w2. cbn [calls set_rng].
    by rewrite <- !app_assoc. }
  split.
  { unfold epoch_record, ep_d_loss. cbn [l ep_d_loss_real ep_d_loss_fake ep_g_loss].
    fold d_loss.
    change (Z.to_nat 0) with 0%nat in Hd0'.
    change (Z.to_nat 3) with 3%nat in Hd3'.
    change (Z.to_nat 4) with 4%nat in Hd4'.
    rewrite Hd0', Hd3', Hd4'. reflexivity. }
  split; [reflexivity|]. reflexivity.
Qed.

Lemma epoch_body_spec X_train y_train batch_size cw save_interval epoch w w' r :
  half_batch_of batch_size ≠ 0 →
  cw2 (half_batch_of batch_size) = Ok cw →
  epoch_body X_train y_train batch_size (half_batch_of batch_size) cw1 cw
    save_interval epoch w = (w', r) →
  (calls w' = calls w ∧ self w' = self w ∧ keras w' = keras w ∧
   saved w' = saved w ∧ (∃ e, r = Err e) ∧
   ¬ train_ready X_train y_train batch_size save_interval)
  ∨ (∃ l, epoch_ok X_train y_train (half_batch_of batch_size) batch_size w l ∧
          calls w' = calls w ++ epoch_calls cw1 cw (half_batch_of batch_size) batch_size l ∧
          training_history (self w') = epoch_record (training_history (self w)) l ∧
          (r = Ok tt ∨ (r = Err ZeroDivisionError ∧ save_interval = 0))).
Proof.
  intros Hhb Hcw.
  destruct (epoch_body_trace X_train y_train batch_size cw save_interval epoch
              w Hcw)
    as [[-> Hwhy]|[(w1 & -> & Hc & Hs & Hk & Hsv & _ & _ & Hwhy)
                  |(w7 & l & Hok & Hc & Hh & _ & ->)]].
  - intros [= <- <-]. left. repeat split; eauto.
    intros (Hbs%half_batch_pos & HX & _).
    destruct Hwhy as [->|?]; [cbn in HX|]; lia.
  - intros [= <- <-]. left. repeat split; eauto.
    intros (_ & HX & Hrange & _). apply Hwhy. split; [lia|done].
  - rewrite save_test_run.
    destruct (decide (save_interval = 0)) as [->|Hsi].
    { intros [= <- <-]. right. exists l. eauto 10. }
    destruct (decide (epoch `mod` save_interval = 0)).
    + destruct (save_imgs_run epoch w7) as (w8 & -> & Hc8 & Hs8 & _).
      intros [= <- <-]. right. exists l. rewrite Hc8, Hs8. eauto 10.
    + intros [= <- <-]. right. exists l. eauto 10.
Qed.

Lemma epoch_body_ready X_train y_train batch_size cw save_interval epoch w :
  train_ready X_train y_train batch_size save_interval →
  cw2 (half_batch_of batch_size) = Ok cw →
  ∃ w' l,
    epoch_body X_train y_train batch_size (half_batch_of batch_size) cw1 cw
      save_interval epoch w = (w', Ok tt) ∧
    epoch_ok X_train y_train (half_batch_of batch_size) batch_size w l ∧
    calls w' = calls w ++ epoch_calls cw1 cw (half_batch_of batch_size) batch_size l ∧
    training_history (self w') = epoch_record (training_history (self w)) l.
Proof.
  intros Hready Hcw.
  destruct (epoch_body _ _ _ _ _ _ _ _ w) as [w' r] eqn:Hrun.
  assert (half_batch_of batch_size ≠ 0) as Hhb.
  { destruct Hready as (Hbs%half_batch_pos & _). lia. }
  destruct (epoch_body_spec _ _ _ _ _ _ _ _ _ Hhb Hcw Hrun)
    as [(_ & _ & _ & _ & _ & Hnot)|(l & Hok & Hcalls & Hhist & Hr)]; [done|].
  exists w', l. destruct Hr as [->|[_ ->]]; [done|].
  by destruct Hready as (_ & _ & _ & ?).
Qed.


(** The history after a run of passes. *)
Lemma history_after_epochs (ls : list epoch_log) (h : history) :
  D_loss (foldl epoch_record h ls) =
    D_loss h ++ map (λ l, default 0%Q (ep_d_loss l !! 0%nat)) ls ∧
  D_acc (foldl epoch_record h ls) =
    D_acc h ++ map (λ l, (100 * default 0 (ep_d_loss l !! 3%nat))%Q) ls ∧
  G_loss (foldl epoch_record h ls) = G_loss h ++ map ep_g_loss ls ∧
  G_acc (foldl epoch_record h ls) =
    G_acc h ++ map (λ l, (100 * default 0 (ep_d_loss l !! 4%nat))%Q) ls.
Proof.
  revert h. induction ls as [|l ls IH]; intros h; cbn [foldl map].
  - by rewrite !app_nil_r.
  - destruct (IH (epoch_record h l)) as (-> & -> & -> & ->).
    unfold epoch_record, record_epoch. cbn [D_loss D_acc G_loss G_acc].
    by rewrite <- !app_assoc.
Qed.

(** The loop: a run of completed passes, then either the end of the list
    or the first pass that raised. *)
Lemma for_each_epochs X_train y_train batch_size cw save_interval
    (epochs : list Z) (w w' : world) (r : result ()) :
  half_batch_of batch_size ≠ 0 →
  cw2 (half_batch_of batch_size) = Ok cw →
  for_each epochs
    (epoch_body X_train y_train batch_size (half_batch_of batch_size) cw1 cw
       save_interval) w = (w', r) →
  ∃ ls,
    Forall (epoch_valid X_train y_train (half_batch_of batch_size) batch_size) ls ∧
    calls w' = calls w ++
      concat (map (epoch_calls cw1 cw (half_batch_of batch_size) batch_size) ls) ∧
    training_history (self w') = foldl epoch_record (training_history (self w)) ls ∧
    (length ls ≤ length epochs)%nat ∧
    (r = Ok tt → length ls = length epochs) ∧
    (train_ready X_train y_train batch_size save_interval → r = Ok tt).
Proof.
  intros Hhb Hcw. revert w.
  induction epochs as [|epoch rest IH]; intros w; cbn [for_each].
  - intros [= <- <-]. exists []. cbn. rewrite app_nil_r. eauto 10.
  - rewrite bind_run.
    destruct (epoch_body _ _ _ _ _ _ _ epoch w) as [w1 r1] eqn:Hrun.
    destruct (epoch_body_spec _ _ _ _ _ _ _ _ _ Hhb Hcw Hrun)
      as [(Hc & Hs & _ & _ & [e ->] & Hnot)|(l & Hok & Hc & Hh & Hr)].
    + intros [= <- <-]. exists []. cbn. rewrite app_nil_r, Hs.
      split; [constructor|]. repeat split; try done. lia.
    + destruct Hr as [->|[-> ->]].
      * intros Hrest. destruct (IH _ Hrest) as (ls & Hv & Hc' & Hh' & Hle & Hlen & Hlive).
        exists (l :: ls). cbn [map concat foldl length].
        split; [constructor; [by exists w|done]|].
        split; [by rewrite Hc', Hc, <- app_assoc|].
        split; [by rewrite Hh', Hh|].
        split; [lia|]. split; [|done]. intros ?. f_equal. auto.
      * intros [= <- <-]. exists [l]. cbn [map concat foldl length].
        rewrite app_nil_r.
        split; [constructor; [by exists w|constructor]|].
        repeat split; try done; try lia.
        by intros (_ & _ & _ & ?).
Qed.

(** [train], whatever its arguments: the calls it makes are those of a
    run of completed passes, the history grows by one record per pass,
    and with arguments that are [train_ready] every epoch completes. *)
Lemma train_spec X_train y_train epochs batch_size save_interval
    (w w' : world) (r : result ()) :
  train X_train y_train epochs batch_size save_interval w = (w', r) →
  ∃ cw ls,
    (half_batch_of batch_size ≠ 0 → cw2 (half_batch_of batch_size) = Ok cw) ∧
    Forall (epoch_valid X_train y_train (half_batch_of batch_size) batch_size) ls ∧
    calls w' = calls w ++
      concat (map (epoch_calls cw1 cw (half_batch_of batch_size) batch_size) ls) ∧
    training_history (self w') = foldl epoch_record (training_history (self w)) ls ∧
    (length ls ≤ Z.to_nat epochs)%nat ∧
    (r = Ok tt → length ls = Z.to_nat epochs) ∧
    (train_ready X_train y_train batch_size save_interval → r = Ok tt).
Proof.
  unfold train. rewrite bind_lift.
  destruct (decide (half_batch_of batch_size = 0)) as [Hz|Hnz].
  - rewrite Hz, cw2_zero. intros [= <- <-]. exists ∅, []. cbn.
    rewrite app_nil_r. split; [done|]. split; [constructor|].
    repeat split; try done; try lia.
    intros (Hbs%half_batch_pos & _). lia.
  - destruct (cw2 (half_batch_of batch_size)) as [cw|e] eqn:Hcw;
      [|by rewrite cw2_ok in Hcw].
    intros Hrun.
    destruct (for_each_epochs _ _ _ _ _ _ _ _ _ Hnz Hcw Hrun)
      as (ls & Hv & Hc & Hh & Hle & Hlen & Hlive).
    rewrite length_seqZ in Hle, Hlen.
    exists cw, ls. eauto 10.
Qed.

End WithEngine.
End GanFacts.

(** ** The training loop: batches, targets and history *)

Module TrainClaims.
Import Numpy Keras Training ClassWeights Gan.
Import NumpyFacts TrainingFacts ClassWeightsFacts GanFacts.

Section WithEngine.
Context `{E : Engine}.

Lemma records_from_app (epoch : Z) (a b c d a' b' c' d' : list Q) :
  length a = length b → length a = length c → length a = length d →
  records_from epoch (a ++ a') (b ++ b') (c ++ c') (d ++ d') =
    records_from epoch a b c d
      ++ records_from (epoch + Z.of_nat (length a)) a' b' c' d'.
Proof.
  revert epoch b c d.
  induction a as [|x a IH]; intros epoch [|y b] [|z c] [|u d];
    cbn [length]; try lia; intros Hb Hc Hd.
  - cbn. by rewrite Z.add_0_r.
  - cbn [app records_from]. rewrite IH by lia.
    replace (epoch + 1 + Z.of_nat (length a))
      with (epoch + Z.of_nat (S (length a))) by lia.
    done.
Qed.

Lemma records_from_metrics (epoch : Z) (ls : list epoch_log) :
  records_from epoch
    (map (λ l, default 0%Q (ep_d_loss l !! 0%nat)) ls)
    (map (λ l, (100 * default 0 (ep_d_loss l !! 3%nat))%Q) ls)
    (map ep_g_loss ls)
    (map (λ l, (100 * default 0 (ep_d_loss l !! 4%nat))%Q) ls) =
  imap (λ i l, (epoch + Z.of_nat i, epoch_metrics l)) ls.
Proof.
  revert epoch. induction ls as [|l ls IH]; intros epoch; [done|].
  cbn [map records_from imap]. rewrite IH. f_equal.
  - by rewrite Z.add_0_r.
  - apply imap_ext. intros i x _. cbn. f_equal. lia.
Qed.

(** C3.  For every even [batch_size], [half_batch] is [batch_size / 2],
    and the engine calls of a run of [train] are, epoch after epoch, a
    discriminator step on [half_batch] images of the training set with
    validity target 1, then a discriminator step on [half_batch] generated
    images with validity target 0, then a generator step through the
    combined model on [batch_size] latent vectors with validity target 1.
    A run that returns has made these three calls in each of its epochs,
    and a run whose arguments are [train_ready] returns. *)
Theorem train_half_batches (X_train : list (list Q)) (y_train : list Z)
    (epochs batch_size save_interval : Z) (w : world) :
  Z.even batch_size = true →
  let half_batch := half_batch_of batch_size in
  let w' := (train X_train y_train epochs batch_size save_interval w).1 in
  let r := (train X_train y_train epochs batch_size save_interval w).2 in
  2 * half_batch = batch_size ∧
  ∃ (cw : gmap Z Q) (ls : list epoch_log),
    calls w' = calls w ++
      concat (map (λ l,
        [ TrainOnBatch TheDiscriminator (ep_imgs l)
            [replicate (Z.to_nat half_batch) [1%Q]; ep_labels l]
            [cw1; cw] (ep_d_loss_real l);
          TrainOnBatch TheDiscriminator (ep_gen_imgs l)
            [replicate (Z.to_nat half_batch) [0%Q]; ep_fake_labels l]
            [cw1; cw] (ep_d_loss_fake l);
          TrainOnBatch TheCombined (ep_noise l)
            [replicate (Z.to_nat batch_size) [1%Q]]
            [cw1; cw] [ep_g_loss l] ]) ls) ∧
    Forall (λ l,
      Z.of_nat (length (ep_imgs l)) = half_batch ∧
      Forall (λ x, x ∈ X_train) (ep_imgs l) ∧
      Z.of_nat (length (ep_gen_imgs l)) = half_batch ∧
      (∃ b st z, ep_gen_imgs l = map (generator_infer b st) z) ∧
      Z.of_nat (length (ep_noise l)) = batch_size ∧
      Forall (λ z, length z = 100%nat) (ep_noise l)) ls ∧
    (r = Ok tt → length ls = Z.to_nat epochs) ∧
    (train_ready X_train y_train batch_size save_interval →
     r = Ok tt ∧ length ls = Z.to_nat epochs).
Proof.
  intros Hev. cbv zeta.
  split; [by apply half_batch_even|].
  destruct (train X_train y_train epochs batch_size save_interval w)
    as [w' r] eqn:Hrun. cbn [fst snd].
  destruct (train_spec _ _ _ _ _ _ _ _ Hrun)
    as (cw & ls & _ & Hv & Hc & _ & _ & Hlen & Hlive).
  exists cw, ls. split; [exact Hc|]. split; [|by auto].
  eapply Forall_impl; [exact Hv|]. intros l [start Hok].
  destruct Hok.
  split; [rewrite (take_length _ _ _ ok_imgs0); lia|].
  split; [by eapply take_elem_of|].
  split; [rewrite ok_gen_imgs0, length_map; lia|].
  split; [eauto|]. split; [lia|done].
Qed.



(** C7.  In every epoch every generated image gets the class label
    [num_classes]: the class target of the second discriminator step is
    [to_categorical] of a column of [half_batch] tens, that is
    [half_batch] rows [0,0,0,0,0,0,0,0,0,0,1].  The class target of the
    first step has, for each index drawn, the one-hot row of the label at
    that index; all rows have eleven entries.  Label 3 is encoded as
    [0,0,0,1,0,0,0,0,0,0,0], and the validity target of a real sample is
    1. *)
Theorem class_targets_one_hot (X_train : list (list Q)) (y_train : list Z)
    (epochs batch_size save_interval : Z) (w : world) :
  let half_batch := half_batch_of batch_size in
  let w' := (train X_train y_train epochs batch_size save_interval w).1 in
  let r := (train X_train y_train epochs batch_size save_interval w).2 in
  (∃ (cw : gmap Z Q) (ls : list epoch_log),
     calls w' = calls w ++
       concat (map (λ l,
         [ TrainOnBatch TheDiscriminator (ep_imgs l)
             [replicate (Z.to_nat half_batch) [1%Q]; ep_labels l]
             [cw1; cw] (ep_d_loss_real l);
           TrainOnBatch TheDiscriminator (ep_gen_imgs l)
             [replicate (Z.to_nat half_batch) [0%Q]; ep_fake_labels l]
             [cw1; cw] (ep_d_loss_fake l);
           TrainOnBatch TheCombined (ep_noise l)
             [replicate (Z.to_nat batch_size) [1%Q]]
             [cw1; cw] [ep_g_loss l] ]) ls) ∧
     Forall (λ l,
       to_categorical (replicate (Z.to_nat half_batch) num_classes)
                      (num_classes + 1) = Ok (ep_fake_labels l) ∧
       ep_fake_labels l =
         replicate (Z.to_nat half_batch) [0; 0; 0; 0; 0; 0; 0; 0; 0; 0; 1]%Q ∧
       Forall2 (λ i row, ∃ c, y_train !! Z.to_nat i = Some c ∧
                              one_hot (num_classes + 1) c = Ok row)
               (ep_idx l) (ep_labels l) ∧
       Forall2 (λ i x, X_train !! Z.to_nat i = Some x) (ep_idx l) (ep_imgs l) ∧
       Forall (λ row, length row = 11%nat) (ep_labels l)) ls ∧
     (r = Ok tt → length ls = Z.to_nat epochs) ∧
     (train_ready X_train y_train batch_size save_interval → r = Ok tt)) ∧
  num_classes + 1 = 11 ∧
  one_hot (num_classes + 1) 3 = Ok [0; 0; 0; 1; 0; 0; 0; 0; 0; 0; 0]%Q ∧
  to_categorical (replicate 16 3) (num_classes + 1) =
    Ok (replicate 16 [0; 0; 0; 1; 0; 0; 0; 0; 0; 0; 0]%Q) ∧
  ones 16 = Ok (replicate 16 [1%Q]).
Proof.
  cbv zeta. split; [|by repeat split].
  destruct (train X_train y_train epochs batch_size save_interval w)
    as [w' r] eqn:Hrun. cbn [fst snd].
  destruct (train_spec _ _ _ _ _ _ _ _ Hrun)
    as (cw & ls & _ & Hv & Hc & _ & _ & Hlen & Hlive).
  exists cw, ls. split; [exact Hc|]. split; [|by auto].
  eapply Forall_impl; [exact Hv|]. intros l [start Hok].
  destruct Hok as [? ? ? Hrange ? (y & Hy & Hlabels) ? ? Hfake ? ? ? ?].
  assert (Forall (λ i, 0 ≤ i) (ep_idx l)) as Hpos.
  { eapply Forall_impl; [exact Hrange|]. simpl. lia. }
  split; [done|].
  split.
  { rewrite (to_categorical_replicate _ _ _ [0; 0; 0; 0; 0; 0; 0; 0; 0; 0; 1]%Q)
      in Hfake by reflexivity.
    congruence. }
  split.
  { pose proof (take_lookup _ _ _ Hpos Hy) as H1.
    pose proof (to_categorical_Forall2 _ _ _ Hlabels) as H2.
    clear -H1 H2. revert H2. generalize (ep_labels l).
    induction H1 as [|i c idx y Hi _ IH]; intros rows H2.
    - inversion H2. constructor.
    - inversion H2 as [|? row ? rows' Hrow Hrest]; subst.
      constructor; [eauto|by apply IH]. }
  split; [by apply take_lookup|].
  apply to_categorical_Forall2 in Hlabels.
  clear -Hlabels. induction Hlabels as [|c row ? ? Hrow]; constructor; [|done].
  by apply one_hot_length in Hrow.
Qed.

End WithEngine.

Lemma toy_ready : train_ready Toy.toy_images Toy.toy_labels 4 1.
Proof.
  split; [lia|]. split; [cbn; lia|]. split; [|done].
  unfold Toy.toy_labels, num_classes. repeat constructor; lia.
Qed.

Lemma train_half_batches_witness :
  Z.even 4 = true ∧
  (train Toy.toy_images Toy.toy_labels 2 4 1 Toy.toy_world).2 = Ok tt ∧
  length (calls (train Toy.toy_images Toy.toy_labels 2 4 1 Toy.toy_world).1)
    = 6%nat.
Proof.
  split; [reflexivity|].
  destruct (train_half_batches Toy.toy_images Toy.toy_labels 2 4 1
              Toy.toy_world eq_refl)
    as (_ & cw & ls & Hc & _ & _ & Hlive).
  destruct (Hlive toy_ready) as [Hr Hlen]. split; [exact Hr|].
  rewrite Hc. destruct ls as [|l1 [|l2 [|l3 ls]]]; try discriminate Hlen.
  reflexivity.
Defined.

End TrainClaims.

(** ** The combined model trains the generator only *)

Module FreezeClaims.
Import Numpy Keras Training ClassWeights Gan.
Import NumpyFacts TrainingFacts ClassWeightsFacts GanFacts.

Section WithEngine.
Context `{E : Engine}.

(** A training step either rejects its arguments and changes nothing, or
    commits with the sample weights computed from them. *)
Lemma train_on_batch_cases (m : model_id) (x : list (list Q))
    (ys : list (list (list Q))) (class_weight : list (gmap Z Q)) (w : world) :
  (∃ e, train_on_batch m x ys class_weight w = (w, Err e)) ∨
  (∃ sws,
     sample_weights (length (cm_losses (compiled_of m))) class_weight ys = Ok sws ∧
     train_on_batch m x ys class_weight w =
       (step_world m x ys class_weight sws w, Ok (step_report m x ys sws w))).
Proof.
  unfold train_on_batch.
  destruct (negb (same_samples x ys)); [left; eauto|].
  destruct (sample_weights _ class_weight ys) as [sws|e]; [|left; eauto].
  right. exists sws. done.
Qed.

Lemma combined_collects_generator :
  cm_collected (compiled_of TheCombined) = net_weights (generator build_models).
Proof. reflexivity. Qed.

Lemma discriminator_collects_discriminator :
  cm_collected (compiled_of TheDiscriminator) =
    net_weights (discriminator build_models).
Proof. reflexivity. Qed.

Lemma discriminator_weight_not_collected (i : nat) :
  DiscW i ∉ cm_collected (compiled_of TheCombined).
Proof.
  rewrite combined_collects_generator.
  cbn [generator build_models build_generator net_weights].
  intros (j & Hj & _)%list_elem_of_fmap. discriminate Hj.
Qed.


End WithEngine.

Lemma toy_optimizer_moves : optimizer_moves (E := Toy.toy_engine).
Proof.
  intros b n v g Hnz Heq. cbn in *.
  assert (v - (1 # 5000) * g == v)%Q as Hq.
  { rewrite <- Heq at 2. symmetry. apply Qred_correct. }
  assert (g == 0)%Q as Hg by Lqa.lra.
  apply Qeq_bool_iff in Hg. congruence.
Qed.


End FreezeClaims.

(** ** The range of the generator's output *)

Module GeneratorClaims.
Import Keras Gan GeneratorNet.

Lemma tanh_bounds (x : R) : (-1 < tanh x < 1)%R.
Proof.
  unfold tanh, sinh, cosh.
  pose proof (exp_pos x) as Ha. pose proof (exp_pos (- x)) as Hb.
  set (a := exp x) in *. set (b := exp (- x)) in *.
  replace ((a - b) / 2 / ((a + b) / 2))%R with ((a - b) / (a + b))%R
    by (field; Lra.lra).
  split.
  - apply Rmult_lt_reg_r with (a + b)%R; [Lra.lra|].
    unfold Rdiv. rewrite Rmult_assoc, Rinv_l by Lra.lra. Lra.lra.
  - apply Rmult_lt_reg_r with (a + b)%R; [Lra.lra|].
    unfold Rdiv. rewrite Rmult_assoc, Rinv_l by Lra.lra. Lra.lra.
Qed.

Lemma run_app {params} (linear : layer → params → list R → list R)
    (l1 l2 : list layer) (p : params) (t : list R) :
  run params linear (l1 ++ l2) p t =
    run params linear l2 p (run params linear l1 p t).
Proof. unfold run. apply foldl_app. Qed.

(** C5.  Whatever the weights and the latent batch, every value of every
    image the generator returns lies in [-1, 1]: the stack of
    [build_generator] ends with the output convolution followed by the
    [tanh] activation, with no normalisation layer after that
    convolution. *)
Theorem generator_output_in_range {params : Type}
    (linear : layer → params → list R → list R)
    (p : params) (zs : list (list R)) :
  Forall (Forall (λ v, (-1 <= v <= 1)%R))
         (generate_batch params linear p zs) ∧
  length (generate_batch params linear p zs) = length zs ∧
  ∃ body, generator_layers =
            body ++ [Conv2D channels 3 1 Same; Activation Tanh].
Proof.
  split; [|split].
  - unfold generate_batch. apply Forall_fmap, Forall_forall. intros z _.
    unfold generate.
    assert (∃ body, generator_layers = body ++ [Activation Tanh])
      as [body ->] by (by eexists (removelast generator_layers)).
    unfold compose. rewrite run_app.
    unfold run at 1. cbn [foldl apply_layer activate].
    apply Forall_fmap, Forall_forall. intros v _. cbn.
    pose proof (tanh_bounds v). Lra.lra.
  - unfold generate_batch. apply length_map.
  - by eexists (removelast (removelast generator_layers)).
Qed.

End GeneratorClaims.

(** ** Evaluation and prediction *)

Module EvaluateClaims.
Import Numpy Keras Training ClassWeights Gan CrossValidation.
Import NumpyFacts TrainingFacts ClassWeightsFacts GanFacts.

Section WithEngine.
Context `{E : Engine}.

Lemma drop_last_firstn (row : list Q) (n : nat) :
  length row = S n → drop_last row = firstn n row.
Proof.
  intros Hlen. unfold drop_last.
  rewrite <- (firstn_skipn n row) at 1.
  destruct (skipn n row) as [|p [|q rest]] eqn:Hs.
  - apply (f_equal length) in Hs. rewrite length_skipn in Hs. simpl in Hs. lia.
  - apply removelast_last.
  - apply (f_equal length) in Hs. rewrite length_skipn in Hs. simpl in Hs. lia.
Qed.

Lemma argmax_rows_spec (rows : list (list Q)) :
  Forall (λ row, length row = 11%nat) rows →
  ∃ classes,
    argmax_rows rows = Ok classes ∧
    Forall2 (λ row c, argmax (firstn 10 row) = Ok c ∧ (c < 10)%nat) rows classes.
Proof.
  induction 1 as [|row rows Hrow _ (classes & IH & Hcs)]; cbn [argmax_rows].
  - exists []. split; [done|constructor].
  - rewrite (drop_last_firstn row 10 Hrow).
    destruct (argmax_nonempty (firstn 10 row)) as [c Hc].
    { intros Hnil. apply (f_equal length) in Hnil.
      rewrite length_firstn, Hrow in Hnil. discriminate Hnil. }
    rewrite Hc, IH. cbn [rbind]. exists (c :: classes). split; [done|].
    constructor; [|done]. split; [done|].
    apply argmax_lt in Hc. rewrite length_firstn, Hrow in Hc.
    exact Hc.
Qed.

(** C9.  [predict] turns each row of the discriminator's label output
    into the arg-max of the row without its last column.  On rows of
    eleven entries this is the arg-max over the first ten: a class below
    10, the same whatever the sentinel entry is. *)
Theorem predict_never_sentinel (X_test : list (list Q)) (w : world) :
  (∀ x, length (discriminator_infer (keras w) (weights (self w)) x).2
        = 11%nat) →
  ∃ classes,
    predict X_test w = (w, Ok classes) ∧
    Forall2 (λ x c,
      let row := (discriminator_infer (keras w) (weights (self w)) x).2 in
      argmax (drop_last row) = Ok c ∧
      argmax (firstn 10 row) = Ok c ∧
      (c < 10)%nat ∧
      ∀ sentinel, argmax (drop_last (firstn 10 row ++ [sentinel])) = Ok c)
      X_test classes.
Proof.
  intros Hrows. unfold predict, test_outputs. cbn [lookup list_lookup].
  set (label := map snd _).
  destruct (argmax_rows_spec label) as (classes & Hcs & Hall).
  { unfold label. rewrite map_map. apply Forall_fmap, Forall_forall.
    intros x _. apply Hrows. }
  exists classes. split; [by rewrite Hcs|].
  unfold label in Hall. rewrite map_map in Hall.
  apply Forall2_fmap_l in Hall.
  eapply Forall2_impl; [exact Hall|]. cbn. intros x c [Hc Hlt].
  split; [by rewrite (drop_last_firstn _ 10 (Hrows x))|].
  split; [done|]. split; [done|].
  intros sentinel. unfold drop_last. by rewrite removelast_last.
Qed.

Lemma evaluate_run (x valid labels : list (list Q)) (w : world) :
  length valid = length x → length labels = length x →
  evaluate x [valid; labels] w =
    (let rows := map (discriminator_infer (keras w) (weights (self w))) x in
     let sws := [replicate (length valid) 1%Q; replicate (length labels) 1%Q] in
     let out := report (compiled_of TheDiscriminator) sws [valid; labels]
                  [map fst rows; map snd rows] in
     ({| np_random := np_random w; keras := keras w; self := self w;
         calls := calls w ++ [Evaluate TheDiscriminator x [valid; labels] out];
         saved := saved w |}, Ok out)).
Proof.
  intros Hv Hl. unfold evaluate, same_samples. cbn [forallb map].
  rewrite !Hv, !Hl, Nat.eqb_refl. reflexivity.
Qed.

(** [evaluate_discriminator] on held-out data it accepts. *)
Lemma evaluate_discriminator_run (X_test : list (list Q)) (y_test : list Z)
    (w : world) :
  length X_test = length y_test →
  Forall (λ c, 0 ≤ c ≤ 9) y_test →
  ∃ labels total loss_valid loss_class,
    let valid := replicate (length y_test) [1%Q] in
    let rows := map (discriminator_infer (keras w) (weights (self w))) X_test in
    let acc_valid := accuracy BinaryCrossentropy valid (map fst rows) in
    let acc_class := accuracy CategoricalCrossentropy labels (map snd rows) in
    let scores := [total; loss_valid; loss_class; acc_valid; acc_class] in
    to_categorical y_test (num_classes + 1) = Ok labels ∧
    evaluate_discriminator X_test y_test w =
      ({| np_random := np_random w; keras := keras w; self := self w;
          calls := calls w ++ [Evaluate TheDiscriminator X_test [valid; labels] scores];
          saved := saved w |},
       Ok (total, (acc_valid * 100)%Q)).
Proof.
  intros Hlen Hrange.
  destruct (to_categorical_ok y_test (num_classes + 1)) as [labels Hlabels].
  { eapply Forall_impl; [exact Hrange|]. unfold num_classes. simpl. lia. }
  pose proof (to_categorical_length _ _ _ Hlabels) as Hll.
  unfold evaluate_discriminator, ones.
  rewrite full_ok by lia. rewrite Nat2Z.id, bind_lift, Hlabels, bind_lift.
  rewrite bind_run, evaluate_run
    by (rewrite ?length_replicate; congruence).
  cbv zeta. unfold report.
  cbn [compiled_of discriminator_model build_models compile cm_losses
       cm_loss_weights cm_accuracy output_losses output_accuracies length].
  destruct (decide (1 < 2)%nat) as [_|]; [|lia].
  cbn [app].
  eexists labels, _, _, _. split; [done|]. reflexivity.
Qed.

(** [evaluate_discriminator] when images and labels differ in number. *)
Lemma evaluate_discriminator_mismatch (X_test : list (list Q))
    (y_test : list Z) (w : world) :
  length X_test ≠ length y_test →
  Forall (λ c, 0 ≤ c ≤ 9) y_test →
  evaluate_discriminator X_test y_test w = (w, Err ValueError).
Proof.
  intros Hne Hrange.
  destruct (to_categorical_ok y_test (num_classes + 1)) as [labels Hlabels].
  { eapply Forall_impl; [exact Hrange|]. unfold num_classes. simpl. lia. }
  unfold evaluate_discriminator, ones.
  rewrite full_ok by lia. rewrite Nat2Z.id, bind_lift, Hlabels, bind_lift.
  rewrite bind_run. unfold evaluate, same_samples. cbn [forallb].
  rewrite length_replicate.
  destruct (Nat.eqb_spec (length y_test) (length X_test)) as [Heq|_];
    [by symmetry in Heq|].
  done.
Qed.

End WithEngine.
End EvaluateClaims.

(** ** Facts about the folds *)

Module SplitFacts.
Import Numpy CrossValidation NumpyFacts.

(** Dealing a list out by the value of a function: the parts for a
    duplicate-free list of values are the elements with one of these
    values, each once. *)
Lemma filter_by_value_step {A} (g : A → Z) (f : Z) (fs : list Z) (l : list A) :
  f ∉ fs →
  filter (λ i, g i = f) l ++ filter (λ i, g i ∈ fs) l
    ≡ₚ filter (λ i, g i ∈ f :: fs) l.
Proof.
  intros Hf. induction l as [|x l IH]; [done|].
  destruct (decide (g x = f)) as [Hx|Hx].
  - rewrite (filter_cons_True (λ i, g i = f)) by done.
    rewrite (filter_cons_False (λ i, g i ∈ fs)) by (by rewrite Hx).
    rewrite (filter_cons_True (λ i, g i ∈ f :: fs)) by (rewrite Hx; left).
    cbn. by rewrite IH.
  - rewrite (filter_cons_False (λ i, g i = f)) by done.
    destruct (decide (g x ∈ fs)) as [Hin|Hnin].
    + rewrite (filter_cons_True (λ i, g i ∈ fs)) by done.
      rewrite (filter_cons_True (λ i, g i ∈ f :: fs)) by (by right).
      rewrite <- Permutation_middle. by rewrite IH.
    + rewrite (filter_cons_False (λ i, g i ∈ fs)) by done.
      rewrite (filter_cons_False (λ i, g i ∈ f :: fs)); [done|].
      by intros [?|?]%elem_of_cons.
Qed.

Lemma concat_filter_by_value {A} (g : A → Z) (fs : list Z) (l : list A) :
  NoDup fs →
  concat (map (λ f, filter (λ i, g i = f) l) fs)
    ≡ₚ filter (λ i, g i ∈ fs) l.
Proof.
  induction 1 as [|f fs Hf _ IH]; cbn [map concat].
  - induction l as [|x l IHl]; [done|].
    rewrite filter_cons_False; [done|]. by intros ?%elem_of_nil.
  - rewrite IH. by apply filter_by_value_step.
Qed.

Lemma filter_all {A} (P : A → Prop) `{∀ x, Decision (P x)} (l : list A) :
  Forall P l → filter P l = l.
Proof.
  induction 1 as [|x l Hx _ IH]; [done|].
  by rewrite filter_cons_True, IH.
Qed.

Lemma fmap_seq_seqZ (n : nat) : Z.of_nat <$> seq 0 n = seqZ 0 (Z.of_nat n).
Proof.
  unfold seqZ. rewrite Nat2Z.id. apply list_fmap_ext.
  intros i x _. lia.
Qed.

Lemma test_fold_range (labels : list Z) (order : list nat) (k : Z) (i : nat) :
  0 < k → 0 ≤ test_fold labels order k i < k.
Proof. intros Hk. unfold test_fold. by apply Z.mod_pos_bound. Qed.

Lemma test_fold_elem_of (labels : list Z) (order : list nat) (k : Z) (i : nat) :
  0 < k → test_fold labels order k i ∈ seqZ 0 k.
Proof.
  intros Hk. apply elem_of_seqZ.
  pose proof (test_fold_range labels order k i Hk). lia.
Qed.

Lemma split_accepts (n_X : nat) (order : list nat) (labels : list Z) (k : Z) :
  n_X = length labels →
  2 ≤ k →
  (∀ c, c ∈ labels → k ≤ Z.of_nat (count_label labels c)) →
  stratified_kfold_split n_X order labels k = Ok (folds_of order labels k).
Proof.
  intros -> Hk Hcount. unfold stratified_kfold_split.
  rewrite Nat.eqb_refl. cbn [negb].
  destruct (Z.ltb_spec k 2); [lia|].
  assert (forallb (λ c, k <=? Z.of_nat (count_label labels c)) labels = true)
    as ->; [|done].
  apply forallb_forall. intros c Hc%list_elem_of_In.
  apply Z.leb_le. by apply Hcount.
Qed.

Lemma folds_length (order : list nat) (labels : list Z) (k : Z) :
  length (folds_of order labels k) = Z.to_nat k.
Proof. unfold folds_of. by rewrite length_map, length_seqZ. Qed.

Lemma folds_validation_partition (order : list nat) (labels : list Z) (k : Z) :
  0 < k →
  concat (map snd (folds_of order labels k))
    ≡ₚ seqZ 0 (Z.of_nat (length labels)).
Proof.
  intros Hk. unfold folds_of. rewrite map_map. cbn [snd].
  rewrite <- fmap_seq_seqZ.
  transitivity (Z.of_nat <$>
    concat (map (λ f, filter (λ i, test_fold labels order k i = f)
                        (seq 0 (length labels))) (seqZ 0 k))).
  { generalize (seqZ 0 k). intros fs.
    induction fs as [|f fs IH]; cbn [map concat]; [done|].
    by rewrite fmap_app, IH. }
  apply fmap_Permutation.
  rewrite concat_filter_by_value by apply NoDup_seqZ.
  rewrite filter_all; [done|].
  apply Forall_forall. intros i _. by apply test_fold_elem_of.
Qed.

Lemma folds_train_complement (order : list nat) (labels : list Z) (k : Z) :
  Forall (λ fold, fold.1 ++ fold.2 ≡ₚ seqZ 0 (Z.of_nat (length labels)))
         (folds_of order labels k).
Proof.
  unfold folds_of. apply Forall_fmap, Forall_forall. intros f _. cbn.
  rewrite <- fmap_seq_seqZ, <- fmap_app. apply fmap_Permutation.
  rewrite Permutation_app_comm.
  apply (filter_app_complement (λ i, test_fold labels order k i = f)).
Qed.

Lemma folds_index_range (order : list nat) (labels : list Z) (k : Z) :
  Forall (λ fold,
    Forall (λ i, 0 ≤ i < Z.of_nat (length labels)) fold.1 ∧
    Forall (λ i, 0 ≤ i < Z.of_nat (length labels)) fold.2)
    (folds_of order labels k).
Proof.
  assert (∀ P : nat → Prop, ∀ H : (∀ x, Decision (P x)),
    Forall (λ i, 0 ≤ i < Z.of_nat (length labels))
           (Z.of_nat <$> filter P (seq 0 (length labels)))) as Hfilter.
  { intros P H. apply Forall_fmap, Forall_forall.
    intros i [_ Hi%elem_of_seq]%list_elem_of_filter. cbn. lia. }
  unfold folds_of. apply Forall_fmap, Forall_forall. intros f _. cbn.
  split; apply Hfilter.
Qed.

End SplitFacts.

(** ** Every fold has something to train on *)

Module TrainSliceFacts.
Import CrossValidation SplitFacts.

Lemma count_label_app (l1 l2 : list Z) (c : Z) :
  count_label (l1 ++ l2) c = (count_label l1 c + count_label l2 c)%nat.
Proof. unfold count_label. by rewrite filter_app, length_app. Qed.

Lemma count_label_pos (l : list Z) (c : Z) :
  (0 < count_label l c)%nat → ∃ i, l !! i = Some c.
Proof.
  unfold count_label. intros Hpos.
  destruct (filter (λ x, x = c) l) as [|x rest] eqn:Hf; [simpl in Hpos; lia|].
  assert (x ∈ filter (λ x, x = c) l) as [-> Hin]%list_elem_of_filter
    by (rewrite Hf; left).
  by apply list_elem_of_lookup_1.
Qed.

(** A class with two members has a member besides any given one. *)
Lemma count_label_other (labels : list Z) (c : Z) (j0 : nat) :
  labels !! j0 = Some c →
  (2 ≤ count_label labels c)%nat →
  ∃ j, j ≠ j0 ∧ labels !! j = Some c.
Proof.
  intros Hj0 Hcount.
  pose proof (take_drop_middle _ _ _ Hj0) as Hsplit.
  pose proof (lookup_lt_Some _ _ _ Hj0) as Hlt.
  rewrite <- Hsplit in Hcount.
  rewrite count_label_app in Hcount.
  change (c :: skipn (S j0) labels) with ([c] ++ skipn (S j0) labels) in Hcount.
  rewrite count_label_app in Hcount.
  assert (count_label [c] c = 1%nat) as Hone.
  { unfold count_label. by rewrite filter_cons_True. }
  rewrite Hone in Hcount.
  destruct (decide (0 < count_label (firstn j0 labels) c)%nat) as [Hpre|Hpre].
  - destruct (count_label_pos _ _ Hpre) as [i Hi].
    pose proof (lookup_lt_Some _ _ _ Hi) as Hi'.
    rewrite length_firstn in Hi'.
    exists i. split; [lia|].
    rewrite <- Hsplit. rewrite lookup_app_l by (rewrite length_firstn; lia).
    done.
  - destruct (count_label_pos (skipn (S j0) labels) c) as [i Hi]; [lia|].
    exists (S j0 + i)%nat. split; [lia|].
    by rewrite lookup_drop in Hi.
Qed.

Lemma rank_in_head (labels : list Z) (j : nat) (rest : list nat) :
  rank_in labels (j :: rest) j = 0%nat.
Proof. cbn. by rewrite decide_True. Qed.

(** The first sample of its class in the order has rank 0. *)
Lemma rank_in_first (labels : list Z) (pre : list nat) (j : nat)
    (post : list nat) :
  Forall (λ x, labels !! x ≠ labels !! j) pre →
  rank_in labels (pre ++ j :: post) j = 0%nat.
Proof.
  induction 1 as [|x pre Hx _ IH]; [apply rank_in_head|].
  cbn [app rank_in]. destruct (decide (x = j)); [done|].
  by rewrite decide_False, IH.
Qed.

(** With at least two folds, a shuffled order of all samples and two
    members in every class, no fold validates every sample. *)
Lemma train_slice_nonempty (labels : list Z) (order : list nat) (k f : Z) :
  2 ≤ k →
  order ≡ₚ seq 0 (length labels) →
  labels ≠ [] →
  (∀ c, c ∈ labels → (2 ≤ count_label labels c)%nat) →
  ∃ i, (i < length labels)%nat ∧ test_fold labels order k i ≠ f.
Proof.
  intros Hk Hperm Hne Hcount.
  assert (NoDup order) as Hnd by (rewrite Hperm; apply NoDup_seq).
  assert (∀ i, i ∈ order ↔ (i < length labels)%nat) as Hmem.
  { intros i. rewrite Hperm, elem_of_seq. lia. }
  destruct order as [|j0 rest].
  { apply Permutation_length in Hperm. rewrite length_seq in Hperm.
    destruct labels; [done|discriminate]. }
  assert (j0 < length labels)%nat as Hj0 by (apply Hmem; left).
  destruct (lookup_lt_is_Some_2 labels j0 Hj0) as [c0 Hc0].
  assert (test_fold labels (j0 :: rest) k j0 = 0) as Hfold0.
  { unfold test_fold. rewrite rank_in_head.
    change (Z.of_nat 0) with 0. apply Z.mod_0_l. lia. }
  destruct (decide (f = 0)) as [->|Hf].
  2:{ exists j0. split; [exact Hj0|]. rewrite Hfold0. intros Heq. by apply Hf. }
  destruct (count_label_other labels c0 j0 Hc0) as (j & Hjne & Hj).
  { apply Hcount. by eapply list_elem_of_lookup_2. }
  assert (j ∈ rest) as Hjrest.
  { assert (j ∈ j0 :: rest) as [?|?]%elem_of_cons; [|done|done].
    apply Hmem. by eapply lookup_lt_Some. }
  destruct (list_find (λ x, labels !! x = Some c0) rest) as [[i j1]|] eqn:Hfind.
  2:{ eapply list_find_None, Forall_forall in Hfind; [|exact Hjrest]. done. }
  apply list_find_Some in Hfind as (Hi & Hj1 & Hbefore).
  pose proof (take_drop_middle _ _ _ Hi) as Hsplit.
  assert (j1 ∈ rest) as Hj1rest by (by eapply list_elem_of_lookup_2).
  exists j1. split; [apply Hmem; by right|].
  assert (rank_in labels (j0 :: rest) j1 = 1%nat) as Hrank.
  { cbn [rank_in]. rewrite decide_False.
    2:{ intros ->. by apply NoDup_cons in Hnd as [? _]. }
    rewrite decide_True by congruence.
    rewrite <- Hsplit, rank_in_first; [done|].
    apply Forall_forall. intros x Hx.
    apply list_elem_of_lookup_1 in Hx as [i' Hi'].
    pose proof (lookup_lt_Some _ _ _ Hi') as Hlt. rewrite length_firstn in Hlt.
    rewrite lookup_take_lt in Hi' by lia.
    rewrite Hj1. apply (Hbefore i' x Hi'). lia. }
  unfold test_fold. rewrite Hrank.
  change (Z.of_nat 1) with 1. rewrite Z.mod_small by lia. done.
Qed.

End TrainSliceFacts.

(** ** Facts about the driver *)

Module DriverFacts.
Import Numpy Keras Training ClassWeights Gan CrossValidation.
Import NumpyFacts TrainingFacts ClassWeightsFacts GanFacts.
Import EvaluateClaims SplitFacts TrainSliceFacts.

Section WithEngine.
Context `{E : Engine}.

(** What a fold that ran to its end did: it sliced the data, built a new
    object, trained it, evaluated it on the validation slice and appended
    the second component of the evaluation. *)
Lemma fold_step_ok (X_train : list (list Q)) (y_train : list Z)
    (epochs batch_size save_interval : Z) (fold : list Z * list Z)
    (p p' : process) :
  fold_step X_train y_train epochs batch_size save_interval fold p = (p', Ok tt) →
  ∃ X_train_cv y_train_cv X_valid_cv y_valid_cv w1 w2 loss acc,
    take X_train fold.1 = Ok X_train_cv ∧
    take y_train fold.1 = Ok y_train_cv ∧
    take X_train fold.2 = Ok X_valid_cv ∧
    take y_train fold.2 = Ok y_valid_cv ∧
    train X_train_cv y_train_cv epochs batch_size save_interval
      (enter (init (p_keras p)).1 (init (p_keras p)).2 p) = (w1, Ok tt) ∧
    evaluate_discriminator X_valid_cv y_valid_cv w1 = (w2, Ok (loss, acc)) ∧
    dcgan p' = Some (self w2) ∧
    kfold_scores p' = kfold_scores p ++ [acc].
Proof.
  unfold fold_step. destruct fold as [train_idx val_idx]. cbn [fst snd].
  destruct (take X_train train_idx) as [Xc|]; [|discriminate].
  destruct (take y_train train_idx) as [yc|]; [|discriminate].
  destruct (take X_train val_idx) as [Xv|]; [|discriminate].
  destruct (take y_train val_idx) as [yv|]; [|discriminate].
  destruct (init (p_keras p)) as [o b]. cbn [fst snd].
  unfold fold_body. rewrite bind_run.
  destruct (train Xc yc epochs batch_size save_interval (enter o b p))
    as [w1 [[]|e]] eqn:Htrain; [|discriminate].
  rewrite bind_run.
  destruct (evaluate_discriminator Xv yv w1) as [w2 [[loss acc]|e]] eqn:Heval;
    [|discriminate].
  cbn. intros [= <-]. cbn.
  exists Xc, yc, Xv, yv, w1, w2, loss, acc. done.
Qed.

(** A fold appends one score when it runs to its end and none when it
    raises. *)
Lemma fold_step_scores (X_train : list (list Q)) (y_train : list Z)
    (epochs batch_size save_interval : Z) (fold : list Z * list Z)
    (p p' : process) (r : result ()) :
  fold_step X_train y_train epochs batch_size save_interval fold p = (p', r) →
  match r with
  | Ok _ => ∃ acc, kfold_scores p' = kfold_scores p ++ [acc]
  | Err _ => kfold_scores p' = kfold_scores p
  end.
Proof.
  unfold fold_step. destruct fold as [train_idx val_idx].
  destruct (take X_train train_idx) as [Xc|]; [|by intros [= <- <-]].
  destruct (take y_train train_idx) as [yc|]; [|by intros [= <- <-]].
  destruct (take X_train val_idx) as [Xv|]; [|by intros [= <- <-]].
  destruct (take y_train val_idx) as [yv|]; [|by intros [= <- <-]].
  destruct (init (p_keras p)) as [o b].
  destruct (fold_body _ _ _ _ _ _ _ _) as [w [acc|e]];
    intros [= <- <-]; cbn; eauto.
Qed.

(** The object left by the previous fold plays no part in a fold. *)
Lemma fold_step_fresh (X_train : list (list Q)) (y_train : list Z)
    (epochs batch_size save_interval : Z) (fold : list Z * list Z)
    (p : process) (o : option DCGAN) :
  let old := fold_step X_train y_train epochs batch_size save_interval fold p in
  let new := fold_step X_train y_train epochs batch_size save_interval fold
               (set_dcgan o p) in
  new.2 = old.2 ∧
  kfold_scores new.1 = kfold_scores old.1 ∧
  p_calls new.1 = p_calls old.1 ∧
  (old.2 = Ok tt → new = old).
Proof.
  cbv zeta. unfold fold_step. destruct fold as [train_idx val_idx].
  destruct (take X_train train_idx) as [Xc|]; [|done].
  destruct (take y_train train_idx) as [yc|]; [|done].
  destruct (take X_train val_idx) as [Xv|]; [|done].
  destruct (take y_train val_idx) as [yv|]; [|done].
  cbn [set_dcgan p_keras].
  destruct (init (p_keras p)) as [ob b].
  change (enter ob b (set_dcgan o p)) with (enter ob b p).
  by destruct (fold_body _ _ _ _ _ _ _ _) as [w [acc|e]].
Qed.

(** A fold whose slices exist and whose training slice is not empty runs
    to its end. *)
Lemma fold_step_live (X_train : list (list Q)) (y_train : list Z)
    (epochs batch_size save_interval : Z) (fold : list Z * list Z)
    (p : process) :
  length X_train = length y_train →
  Forall (λ c, 0 ≤ c ≤ 9) y_train →
  2 ≤ batch_size → save_interval ≠ 0 →
  Forall (λ i, 0 ≤ i < Z.of_nat (length y_train)) fold.1 →
  Forall (λ i, 0 ≤ i < Z.of_nat (length y_train)) fold.2 →
  fold.1 ≠ [] →
  (fold_step X_train y_train epochs batch_size save_interval fold p).2 = Ok tt.
Proof.
  intros Hlen Hlabels Hbs Hsi Htr Hva Hne.
  unfold fold_step. destruct fold as [train_idx val_idx]. cbn [fst snd] in *.
  destruct (take_ok X_train train_idx) as [Xc HXc]; [by rewrite Hlen|].
  destruct (take_ok y_train train_idx) as [yc Hyc]; [done|].
  destruct (take_ok X_train val_idx) as [Xv HXv]; [by rewrite Hlen|].
  destruct (take_ok y_train val_idx) as [yv Hyv]; [done|].
  rewrite HXc, Hyc, HXv, Hyv.
  destruct (init (p_keras p)) as [o b].
  unfold fold_body. rewrite bind_run.
  destruct (train Xc yc epochs batch_size save_interval (enter o b p))
    as [w1 r1] eqn:Htrain.
  destruct (train_spec _ _ _ _ _ _ _ _ Htrain) as (_ & _ & _ & _ & _ & _ & _ & _ & Hlive).
  rewrite Hlive.
  2:{ split; [done|]. split.
      - rewrite (take_length _ _ _ HXc), (take_length _ _ _ Hyc).
        destruct train_idx; [done|]. cbn. lia.
      - split; [|done]. apply take_elem_of in Hyc.
        eapply Forall_impl; [exact Hyc|]. cbn. intros c Hc.
        eapply Forall_forall in Hlabels; [|exact Hc].
        unfold num_classes. cbn in Hlabels. lia. }
  rewrite bind_run.
  destruct (evaluate_discriminator_run Xv yv w1)
    as (labels & total & lv & lc & _ & ->).
  { by rewrite (take_length _ _ _ HXv), (take_length _ _ _ Hyv). }
  { apply take_elem_of in Hyv.
    eapply Forall_impl; [exact Hyv|]. cbn. intros c Hc.
    by eapply Forall_forall in Hlabels. }
  done.
Qed.

(** The loop over the folds: one score per fold that ran to its end. *)
Lemma for_folds_scores (folds : list (list Z * list Z))
    (step : list Z * list Z → process → process * result ())
    (p p' : process) (r : result ()) :
  (∀ fold q q' s, step fold q = (q', s) →
     match s with
     | Ok _ => ∃ acc, kfold_scores q' = kfold_scores q ++ [acc]
     | Err _ => kfold_scores q' = kfold_scores q
     end) →
  for_folds folds step p = (p', r) →
  ∃ new,
    kfold_scores p' = kfold_scores p ++ new ∧
    (length new ≤ length folds)%nat ∧
    (r = Ok tt → length new = length folds).
Proof.
  intros Hstep. revert p.
  induction folds as [|fold rest IH]; intros p; cbn [for_folds].
  - intros [= <- <-]. exists []. by rewrite app_nil_r.
  - destruct (step fold p) as [q [[]|e]] eqn:Hq.
    + intros Hrest. destruct (IH _ Hrest) as (new & Hnew & Hle & Hlen).
      destruct (Hstep _ _ _ _ Hq) as [acc Hacc].
      exists (acc :: new). rewrite Hnew, Hacc, <- app_assoc.
      split; [done|]. cbn [length]. split; [lia|]. intros ?. f_equal. auto.
    + intros [= <- <-]. exists [].
      rewrite (Hstep _ _ _ _ Hq), app_nil_r. split; [done|].
      split; [cbn; lia|discriminate].
Qed.

Lemma for_folds_live (folds : list (list Z * list Z))
    (step : list Z * list Z → process → process * result ())
    (p : process) :
  Forall (λ fold, ∀ q, (step fold q).2 = Ok tt) folds →
  (for_folds folds step p).2 = Ok tt.
Proof.
  intros Hall. revert p.
  induction Hall as [|fold rest Hfold _ IH]; intros p; cbn [for_folds]; [done|].
  specialize (Hfold p). destruct (step fold p) as [q s]. cbn in Hfold.
  rewrite Hfold. apply IH.
Qed.

End WithEngine.
End DriverFacts.

(** ** Cross-validation: folds, fresh models and scores *)

Module CrossValidationClaims.
Import Numpy Keras Training ClassWeights Gan CrossValidation.
Import NumpyFacts TrainingFacts ClassWeightsFacts GanFacts.
Import EvaluateClaims SplitFacts TrainSliceFacts DriverFacts.

Section WithEngine.
Context `{E : Engine}.

Lemma lookup_initial_weights (b : backend) (names : list wname) (n : wname) :
  n ∈ names →
  (list_to_map (map (λ m, (m, initial_tensor b m)) names)
     : gmap wname tensor) !! n = Some (initial_tensor b n).
Proof.
  induction names as [|m names IH]; [by intros ?%elem_of_nil|].
  intros Hn. cbn [map list_to_map foldr].
  destruct (decide (m = n)) as [->|Hne]; [by rewrite lookup_insert_eq|].
  rewrite lookup_insert_ne by done. apply IH.
  by apply elem_of_cons in Hn as [?|?].
Qed.

(** C10.  On held-out data with labels in 0..9, [evaluate_discriminator]
    raises when images and labels differ in number; otherwise it
    evaluates the discriminator against validity target 1 for every
    sample and the one-hot labels, and returns the total loss with 100
    times entry 3 of the scores, which is the accuracy of the validity
    output; the accuracy of the class output, entry 4, is not returned.
    The score a fold appends to [kfold_scores] is this number, taken on
    the fold's validation slice after training. *)
Theorem evaluate_discriminator_validity_accuracy (X_test : list (list Q))
    (y_test : list Z) (w : world) :
  Forall (λ c, 0 ≤ c ≤ 9) y_test →
  (length X_test ≠ length y_test →
   evaluate_discriminator X_test y_test w = (w, Err ValueError)) ∧
  (length X_test = length y_test →
   ∃ labels total loss_valid loss_class,
     let valid := replicate (length y_test) [1%Q] in
     let rows := map (discriminator_infer (keras w) (weights (self w))) X_test in
     let acc_valid := accuracy BinaryCrossentropy valid (map fst rows) in
     let acc_class := accuracy CategoricalCrossentropy labels (map snd rows) in
     let scores := [total; loss_valid; loss_class; acc_valid; acc_class] in
     to_categorical y_test (num_classes + 1) = Ok labels ∧
     evaluate_discriminator X_test y_test w =
       ({| np_random := np_random w; keras := keras w; self := self w;
           calls := calls w ++
             [Evaluate TheDiscriminator X_test [valid; labels] scores];
           saved := saved w |},
        Ok (total, (acc_valid * 100)%Q))) ∧
  (∀ X_train y_train epochs batch_size save_interval fold p p',
     Forall (λ c, 0 ≤ c ≤ 9) y_train →
     fold_step X_train y_train epochs batch_size save_interval fold p
       = (p', Ok tt) →
     ∃ X_train_cv y_train_cv X_valid_cv y_valid_cv w1,
       take X_train fold.1 = Ok X_train_cv ∧
       take y_train fold.1 = Ok y_train_cv ∧
       take X_train fold.2 = Ok X_valid_cv ∧
       take y_train fold.2 = Ok y_valid_cv ∧
       train X_train_cv y_train_cv epochs batch_size save_interval
         (enter (init (p_keras p)).1 (init (p_keras p)).2 p) = (w1, Ok tt) ∧
       kfold_scores p' = kfold_scores p ++
         [(accuracy BinaryCrossentropy
             (replicate (length y_valid_cv) [1%Q])
             (map fst (map (discriminator_infer (keras w1) (weights (self w1)))
                           X_valid_cv)) * 100)%Q]).
Proof.
  intros Hrange.
  split; [intros Hne; by apply evaluate_discriminator_mismatch|].
  split; [intros Hlen; by apply evaluate_discriminator_run|].
  intros X_train y_train epochs batch_size save_interval fold p p' Hlabels Hstep.
  destruct (fold_step_ok _ _ _ _ _ _ _ _ Hstep)
    as (Xc & yc & Xv & yv & w1 & w2 & loss & acc
        & HXc & Hyc & HXv & Hyv & Htrain & Heval & _ & Hscores).
  exists Xc, yc, Xv, yv, w1. split; [done|]. split; [done|].
  split; [done|]. split; [done|]. split; [done|].
  destruct (evaluate_discriminator_run Xv yv w1)
    as (labels & total & lv & lc & _ & Hrun).
  { by rewrite (take_length _ _ _ HXv), (take_length _ _ _ Hyv). }
  { apply take_elem_of in Hyv.
    eapply Forall_impl; [exact Hyv|]. cbn. intros c Hc.
    by eapply Forall_forall in Hlabels. }
  rewrite Hrun in Heval. injection Heval as _ _ <-. exact Hscores.
Qed.


End WithEngine.

Lemma predict_never_sentinel_witness :
  (∀ x, length (discriminator_infer (keras Toy.toy_world)
                  (weights (self Toy.toy_world)) x).2 = 11%nat) ∧
  ∃ classes,
    predict Toy.toy_images Toy.toy_world = (Toy.toy_world, Ok classes) ∧
    length classes = 4%nat.
Proof.
  assert (∀ x, length (discriminator_infer (keras Toy.toy_world)
                         (weights (self Toy.toy_world)) x).2 = 11%nat) as Hrows
    by (intros x; reflexivity).
  split; [exact Hrows|].
  destruct (predict_never_sentinel Toy.toy_images Toy.toy_world Hrows)
    as (classes & Hrun & Hall).
  exists classes. split; [exact Hrun|].
  symmetry. apply (Forall2_length _ _ _ Hall).
Defined.

Lemma evaluate_discriminator_validity_accuracy_witness :
  length Toy.toy_images = length Toy.toy_labels ∧
  Forall (λ c, 0 ≤ c ≤ 9) Toy.toy_labels ∧
  ∃ total,
    (evaluate_discriminator Toy.toy_images Toy.toy_labels Toy.toy_world).2
      = Ok (total, ((1 # 2) * 100)%Q).
Proof.
  assert (Forall (λ c, 0 ≤ c ≤ 9) Toy.toy_labels) as Hlabels
    by (unfold Toy.toy_labels; repeat constructor; lia).
  split; [reflexivity|]. split; [exact Hlabels|].
  destruct (evaluate_discriminator_validity_accuracy
              Toy.toy_images Toy.toy_labels Toy.toy_world Hlabels)
    as (_ & Hsame & _).
  destruct (Hsame eq_refl) as (labels & total & lv & lc & _ & Hrun).
  exists total. rewrite Hrun. reflexivity.
Defined.


End CrossValidationClaims.

(** ** [train] at the edges of its arguments *)

Module TrainEdges.
Import Numpy Keras Training ClassWeights Gan.
Import NumpyFacts TrainingFacts ClassWeightsFacts GanFacts.

Section WithEngine.
Context `{E : Engine}.

Lemma half_batch_zero (batch_size : Z) :
  half_batch_of batch_size = 0 ↔ -2 < batch_size < 2.
Proof.
  unfold half_batch_of. split.
  - intros Hq. pose proof (Z.quot_rem' batch_size 2) as Hd.
    pose proof (Z.rem_bound_abs batch_size 2 ltac:(lia)). lia.
  - intros Hbs. apply Z.quot_small_iff; lia.
Qed.

Lemma half_batch_neg (batch_size : Z) :
  batch_size ≤ -2 → half_batch_of batch_size < 0.
Proof.
  intros Hbs. unfold half_batch_of.
  pose proof (Z.quot_rem' batch_size 2) as Hd.
  pose proof (Z.rem_bound_pos_neg batch_size 2 ltac:(lia) ltac:(lia)). lia.
Qed.

(** The first pass of [train] when the loop runs at all. *)
Lemma train_first_epoch X_train y_train epochs batch_size save_interval cw
    (w : world) :
  cw2 (half_batch_of batch_size) = Ok cw →
  0 < epochs →
  train X_train y_train epochs batch_size save_interval w =
    match epoch_body X_train y_train batch_size (half_batch_of batch_size)
            cw1 cw save_interval 0 w with
    | (w1, Ok _) =>
        for_each (seqZ 1 (epochs - 1))
          (epoch_body X_train y_train batch_size (half_batch_of batch_size)
             cw1 cw save_interval) w1
    | (w1, Err e) => (w1, Err e)
    end.
Proof.
  intros Hcw Hpos. unfold train. rewrite bind_lift, Hcw.
  rewrite seqZ_cons by done. cbn [for_each]. by rewrite bind_run.
Qed.

(** A pass on data that are ready reaches the test of the save
    interval. *)
Lemma epoch_body_reaches_test X_train y_train batch_size cw save_interval
    epoch w :
  cw2 (half_batch_of batch_size) = Ok cw →
  2 ≤ batch_size →
  (0 < length X_train ≤ length y_train)%nat →
  Forall (λ c, - (num_classes + 1) ≤ c < num_classes + 1) y_train →
  ∃ w7 l,
    epoch_ok X_train y_train (half_batch_of batch_size) batch_size w l ∧
    calls w7 = calls w ++
      epoch_calls cw1 cw (half_batch_of batch_size) batch_size l ∧
    training_history (self w7) = epoch_record (training_history (self w)) l ∧
    saved w7 = saved w ∧
    epoch_body X_train y_train batch_size (half_batch_of batch_size) cw1 cw
      save_interval epoch w =
      (r ← lift (py_mod epoch save_interval);
       if r =? 0 then save_imgs epoch else mret tt) w7.
Proof.
  intros Hcw Hbs HX Hrange.
  destruct (epoch_body_trace X_train y_train batch_size cw save_interval epoch
              w Hcw)
    as [[_ Hwhy]|[(w1 & _ & _ & _ & _ & _ & _ & _ & Hnot)|Hdone]]; [| |done].
  - apply half_batch_pos in Hbs. destruct Hwhy as [->|?]; [cbn in HX|]; lia.
  - destruct Hnot. split; [lia|done].
Qed.

(** The sample grids written by a run of passes that all returned: one
    for every epoch the save interval divides. *)
Lemma for_each_saved X_train y_train batch_size cw save_interval
    (epochs : list Z) (w w' : world) :
  cw2 (half_batch_of batch_size) = Ok cw →
  for_each epochs
    (epoch_body X_train y_train batch_size (half_batch_of batch_size) cw1 cw
       save_interval) w = (w', Ok tt) →
  ∃ grids : list (list (list Q)),
    saved w' = saved w ++
      zip (filter (λ e, e `mod` save_interval = 0) epochs) grids ∧
    length grids = length (filter (λ e, e `mod` save_interval = 0) epochs) ∧
    Forall (λ grid,
      ∃ b st (z : list (list Q)),
        length z = 25%nat ∧ Forall (λ row, length row = 100%nat) z ∧
        grid = map (λ row, map (λ v, (1 # 2) * v + 1)%Q
                             (generator_infer b st row)) z) grids.
Proof.
  intros Hcw. revert w.
  induction epochs as [|epoch rest IH]; intros w; cbn [for_each].
  - intros [= <-]. exists []. cbn. by rewrite app_nil_r.
  - rewrite bind_run.
    destruct (epoch_body _ _ _ _ _ _ _ epoch w) as [w1 [[]|e]] eqn:Hrun;
      [|discriminate].
    intros Hrest. destruct (IH _ Hrest) as (grids & Hsaved & Hlen & Hgrids).
    destruct (epoch_body_trace X_train y_train batch_size cw save_interval
                epoch w Hcw)
      as [[Hr _]|[(w2 & Hr & _)|(w7 & l & _ & _ & _ & Hs7 & Hr)]];
      cbv zeta in Hr; rewrite Hrun in Hr; [discriminate|discriminate|].
    rewrite save_test_run in Hr.
    destruct (decide (save_interval = 0)); [discriminate|].
    rewrite filter_cons.
    destruct (decide (epoch `mod` save_interval = 0)).
    + rewrite save_imgs_trace in Hr. cbv zeta in Hr.
      pose proof (draw_rows_spec 25 100 (np_random w7)) as [Hzlen Hzrows].
      destruct (draw_rows 25 100 (np_random w7)) as [z g]. cbn [fst snd] in *.
      injection Hr as ->.
      eexists (_ :: grids). cbn [zip zip_with length].
      rewrite Hsaved. cbn [saved]. rewrite Hs7, <- app_assoc. cbn [app].
      split; [reflexivity|]. split; [by f_equal|].
      constructor; [|done].
      exists (keras w7), (weights (self w7)), z.
      split; [done|]. split; [done|]. by rewrite map_map.
    + injection Hr as ->. exists grids. by rewrite Hsaved, Hs7.
Qed.

(** X1.  A [batch_size] of -1, 0 or 1 gives [half_batch = 0]: [train]
    raises [ZeroDivisionError] while it builds the class weights, before
    the loop, whatever the data and the number of epochs; nothing is
    drawn, trained, recorded or saved. *)
Theorem train_batch_size_below_two (X_train : list (list Q))
    (y_train : list Z) (epochs batch_size save_interval : Z) (w : world) :
  -2 < batch_size < 2 →
  train X_train y_train epochs batch_size save_interval w
    = (w, Err ZeroDivisionError).
Proof.
  intros Hbs%half_batch_zero. unfold train.
  by rewrite bind_lift, Hbs, cw2_zero.
Qed.

(** X2.  With [epochs <= 0] and a [batch_size] that has a half batch,
    [train] returns at once and changes nothing, even on an empty
    training set, with a negative batch size or a save interval of 0. *)
Theorem train_without_epochs (X_train : list (list Q)) (y_train : list Z)
    (epochs batch_size save_interval : Z) (w : world) :
  epochs ≤ 0 →
  ¬ (-2 < batch_size < 2) →
  train X_train y_train epochs batch_size save_interval w = (w, Ok tt).
Proof.
  intros Hep Hbs. unfold train.
  assert (half_batch_of batch_size ≠ 0) as Hhb by (by rewrite half_batch_zero).
  rewrite bind_lift, cw2_ok by done.
  by rewrite seqZ_nil by done.
Qed.

(** X3.  With at least one epoch, [train] on an empty training set, or
    with a [batch_size] of -2 or less, raises [ValueError] at the index
    draw of the first epoch (numpy rejects an empty range and a negative
    size); nothing is trained, recorded or saved and numpy's generator is
    not advanced. *)
Theorem train_rejects_index_draw (X_train : list (list Q)) (y_train : list Z)
    (epochs batch_size save_interval : Z) (w : world) :
  0 < epochs →
  ¬ (-2 < batch_size < 2) →
  X_train = [] ∨ batch_size ≤ -2 →
  train X_train y_train epochs batch_size save_interval w
    = (w, Err ValueError).
Proof.
  intros Hep Hbs Hwhy.
  assert (half_batch_of batch_size ≠ 0) as Hhb by (by rewrite half_batch_zero).
  rewrite (train_first_epoch _ _ _ _ _ _ _ (cw2_ok _ Hhb) Hep).
  unfold epoch_body. rewrite bind_run. unfold randint.
  destruct Hwhy as [->|Hneg%half_batch_neg].
  - done.
  - destruct (Z.ltb_spec (half_batch_of batch_size) 0) as [_|]; [|lia].
    by rewrite orb_true_r.
Qed.

(** X4.  With [save_interval = 0] and otherwise usable arguments,
    [train] raises [ZeroDivisionError] at [epoch % save_interval], and
    only there: by then the first epoch has made its three training steps
    and appended its record to the history, and these effects stay.  No
    sample grid is written and no second epoch starts. *)
Theorem train_zero_save_interval (X_train : list (list Q)) (y_train : list Z)
    (epochs batch_size : Z) (w : world) :
  0 < epochs →
  2 ≤ batch_size →
  (0 < length X_train ≤ length y_train)%nat →
  Forall (λ c, - (num_classes + 1) ≤ c < num_classes + 1) y_train →
  let half_batch := half_batch_of batch_size in
  let w' := (train X_train y_train epochs batch_size 0 w).1 in
  (train X_train y_train epochs batch_size 0 w).2 = Err ZeroDivisionError ∧
  ∃ cw l,
    cw2 half_batch = Ok cw ∧
    epoch_ok X_train y_train half_batch batch_size w l ∧
    calls w' = calls w ++ epoch_calls cw1 cw half_batch batch_size l ∧
    training_history (self w') = epoch_record (training_history (self w)) l ∧
    saved w' = saved w.
Proof.
  intros Hep Hbs HX Hrange. cbv zeta.
  assert (half_batch_of batch_size ≠ 0) as Hhb.
  { apply half_batch_pos in Hbs. lia. }
  pose proof (cw2_ok _ Hhb) as Hcw.
  rewrite (train_first_epoch _ _ _ _ _ _ _ Hcw Hep).
  destruct (epoch_body_reaches_test X_train y_train batch_size _ 0 0 w
              Hcw Hbs HX Hrange) as (w7 & l & Hok & Hc & Hh & Hs & ->).
  rewrite save_test_run, decide_True by done. cbn [fst snd].
  split; [done|]. eauto 10.
Qed.

(** X5.  A run of [train] that returns has written one sample grid for
    every epoch that [save_interval] divides, in epoch order, and none
    for the others: epoch 0 is always saved, the last epoch only if the
    interval divides it.  Each grid holds 25 images, generated from latent
    vectors of 100 entries and rescaled by [0.5 * v + 1].  A run with
    [train_ready] arguments returns; with the arguments of the script
    (100 epochs, interval 10) the epochs saved are 0, 10, ..., 90. *)
Theorem train_saves_on_schedule (X_train : list (list Q)) (y_train : list Z)
    (epochs batch_size save_interval : Z) (w : world) :
  let w' := (train X_train y_train epochs batch_size save_interval w).1 in
  let r := (train X_train y_train epochs batch_size save_interval w).2 in
  let due := filter (λ e, e `mod` save_interval = 0) (seqZ 0 epochs) in
  (r = Ok tt →
   ∃ grids : list (list (list Q)),
     saved w' = saved w ++ zip due grids ∧
     length grids = length due ∧
     Forall (λ grid,
       ∃ b st (z : list (list Q)),
         length z = 25%nat ∧ Forall (λ row, length row = 100%nat) z ∧
         grid = map (λ row, map (λ v, (1 # 2) * v + 1)%Q
                              (generator_infer b st row)) z) grids) ∧
  (train_ready X_train y_train batch_size save_interval → r = Ok tt) ∧
  filter (λ e, e `mod` 10 = 0) (seqZ 0 100)
    = [0; 10; 20; 30; 40; 50; 60; 70; 80; 90].
Proof.
  cbv zeta. split; [|split; [|reflexivity]].
  - destruct (train X_train y_train epochs batch_size save_interval w)
      as [w' r] eqn:Hrun. cbn [fst snd]. intros ->.
    unfold train in Hrun. rewrite bind_lift in Hrun.
    destruct (cw2 (half_batch_of batch_size)) as [cw|e] eqn:Hcw;
      [|discriminate].
    by eapply for_each_saved.
  - destruct (train X_train y_train epochs batch_size save_interval w)
      as [w' r] eqn:Hrun. cbn [fst snd].
    by destruct (train_spec _ _ _ _ _ _ _ _ Hrun)
      as (_ & _ & _ & _ & _ & _ & _ & _ & Hlive).
Qed.

(** Why a run of passes can raise. *)
Lemma for_each_raises X_train y_train batch_size cw save_interval
    (epochs : list Z) (w w' : world) (e : exn) :
  cw2 (half_batch_of batch_size) = Ok cw →
  for_each epochs
    (epoch_body X_train y_train batch_size (half_batch_of batch_size) cw1 cw
       save_interval) w = (w', Err e) →
  match e with
  | ZeroDivisionError => save_interval = 0 ∧ 2 ≤ batch_size ∧ X_train ≠ []
  | ValueError => X_train = [] ∨ batch_size ≤ -2
  | IndexError =>
      2 ≤ batch_size ∧ X_train ≠ [] ∧
      ¬ ((length X_train ≤ length y_train)%nat ∧
         Forall (λ c, - (num_classes + 1) ≤ c < num_classes + 1) y_train)
  end.
Proof.
  intros Hcw.
  assert (half_batch_of batch_size ≠ 0) as Hhb.
  { intros Hz. rewrite Hz in Hcw. discriminate Hcw. }
  revert w. induction epochs as [|epoch rest IH]; intros w; cbn [for_each];
    [discriminate|].
  rewrite bind_run.
  destruct (epoch_body_trace X_train y_train batch_size cw save_interval
              epoch w Hcw)
    as [[-> Hwhy]|[(w1 & -> & _ & _ & _ & _ & Hpos & HX & Hwhy)
                  |(w7 & l & Hok & _ & _ & _ & ->)]].
  - intros [= _ <-]. destruct Hwhy as [?|Hneg]; [by left|right].
    destruct (Z_le_gt_dec batch_size (-2)) as [?|Hgt]; [done|].
    assert (2 ≤ batch_size) as Hbs by (rewrite half_batch_zero in Hhb; lia).
    apply half_batch_pos in Hbs. lia.
  - intros [= _ <-]. by apply half_batch_pos in Hpos.
  - rewrite save_test_run.
    destruct (decide (save_interval = 0)) as [->|Hsi].
    { intros [= _ <-]. destruct Hok. split; [done|]. split; [done|].
      intros ->. destruct (ep_idx l); cbn in *; [lia|].
      apply Forall_cons in ok_idx_range0 as [? _]. lia. }
    destruct (decide (epoch `mod` save_interval = 0)).
    + rewrite save_imgs_trace. apply IH.
    + apply IH.
Qed.

(** X6.  The exceptions of [train] and what each one means.  A
    [ZeroDivisionError] comes from a [batch_size] of -1, 0 or 1, or from
    [save_interval = 0] once an epoch has been trained; a [ValueError]
    from the index draw, on an empty training set or with a [batch_size]
    of -2 or less; an [IndexError] from a drawn index that has no label
    or whose label is outside [-11, 10]. *)
Theorem train_failure_reasons (X_train : list (list Q)) (y_train : list Z)
    (epochs batch_size save_interval : Z) (w : world) (e : exn) :
  (train X_train y_train epochs batch_size save_interval w).2 = Err e →
  match e with
  | ZeroDivisionError =>
      -2 < batch_size < 2 ∨
      (save_interval = 0 ∧ 0 < epochs ∧ 2 ≤ batch_size ∧ X_train ≠ [])
  | ValueError => 0 < epochs ∧ (X_train = [] ∨ batch_size ≤ -2)
  | IndexError =>
      0 < epochs ∧ 2 ≤ batch_size ∧ X_train ≠ [] ∧
      ¬ ((length X_train ≤ length y_train)%nat ∧
         Forall (λ c, - (num_classes + 1) ≤ c < num_classes + 1) y_train)
  end.
Proof.
  destruct (decide (-2 < batch_size < 2)) as [Hsmall|Hbs].
  { unfold train.
    rewrite bind_lift, (proj2 (half_batch_zero _) Hsmall), cw2_zero.
    intros [= <-]. by left. }
  assert (half_batch_of batch_size ≠ 0) as Hhb by (by rewrite half_batch_zero).
  destruct (decide (0 < epochs)) as [Hep|Hep]; cycle 1.
  { unfold train. rewrite bind_lift, cw2_ok by done.
    by rewrite seqZ_nil by lia. }
  unfold train. rewrite bind_lift, cw2_ok by done.
  destruct (for_each _ _ w) as [w' r] eqn:Hrun. cbn [snd]. intros ->.
  pose proof (for_each_raises _ _ _ _ _ _ _ _ _ (cw2_ok _ Hhb) Hrun) as Hwhy.
  destruct e; [right|split; [done|]|split; [done|]]; tauto.
Qed.

End WithEngine.

Lemma train_batch_size_below_two_witness :
  -2 < 1 < 2 ∧
  train Toy.toy_images Toy.toy_labels 100 1 10 Toy.toy_world
    = (Toy.toy_world, Err ZeroDivisionError).
Proof.
  split; [lia|]. apply train_batch_size_below_two. lia.
Defined.

Lemma train_without_epochs_witness :
  0 ≤ 0 ∧ ¬ (-2 < 32 < 2) ∧
  train [] [] 0 32 0 Toy.toy_world = (Toy.toy_world, Ok tt).
Proof.
  split; [lia|]. split; [lia|]. apply train_without_epochs; lia.
Defined.

Lemma train_rejects_index_draw_witness :
  0 < 100 ∧ ¬ (-2 < 32 < 2) ∧ (@nil (list Q) = [] ∨ 32 ≤ -2) ∧
  train [] [] 100 32 10 Toy.toy_world = (Toy.toy_world, Err ValueError).
Proof.
  split; [lia|]. split; [lia|]. split; [by left|].
  apply train_rejects_index_draw; [lia|lia|by left].
Defined.

Lemma train_zero_save_interval_witness :
  0 < 2 ∧ 2 ≤ 4 ∧
  (0 < length Toy.toy_images ≤ length Toy.toy_labels)%nat ∧
  Forall (λ c, - (num_classes + 1) ≤ c < num_classes + 1) Toy.toy_labels ∧
  (train Toy.toy_images Toy.toy_labels 2 4 0 Toy.toy_world).2
    = Err ZeroDivisionError ∧
  length (calls (train Toy.toy_images Toy.toy_labels 2 4 0 Toy.toy_world).1)
    = 3%nat.
Proof.
  assert (Forall (λ c, - (num_classes + 1) ≤ c < num_classes + 1)
            Toy.toy_labels) as Hlabels.
  { unfold Toy.toy_labels, num_classes. repeat constructor; lia. }
  split; [lia|]. split; [lia|]. split; [cbn; lia|]. split; [exact Hlabels|].
  destruct (train_zero_save_interval Toy.toy_images Toy.toy_labels 2 4
              Toy.toy_world ltac:(lia) ltac:(lia) ltac:(cbn; lia) Hlabels)
    as (Hr & cw & l & _ & _ & Hc & _).
  split; [exact Hr|]. rewrite Hc. reflexivity.
Defined.

Lemma train_failure_reasons_witness :
  (train [] [] 100 32 10 Toy.toy_world).2 = Err ValueError ∧
  0 < 100 ∧ (@nil (list Q) = [] ∨ 32 ≤ -2).
Proof.
  assert ((train [] [] 100 32 10 Toy.toy_world).2 = Err ValueError) as Hrun
    by reflexivity.
  split; [exact Hrun|].
  exact (train_failure_reasons [] [] 100 32 10 Toy.toy_world ValueError Hrun).
Defined.

End TrainEdges.

(** ** What the methods leave alone *)

Module FrameFacts.
Import Numpy Keras Training ClassWeights Gan.
Import NumpyFacts TrainingFacts ClassWeightsFacts GanFacts FreezeClaims.

Section WithEngine.
Context `{E : Engine}.

Lemma generator_weight_not_collected (i : nat) :
  GenW i ∉ cm_collected (compiled_of TheDiscriminator).
Proof.
  rewrite discriminator_collects_discriminator.
  cbn [discriminator build_models build_discriminator set_trainable net_weights].
  intros (j & Hj & _)%list_elem_of_fmap. discriminate Hj.
Qed.

(** [to_categorical] accepts exactly the labels numpy can index a row of
    [n] entries with. *)
Lemma to_categorical_rejects (y : list Z) (n : Z) :
  ¬ Forall (λ c, - n ≤ c < n) y → to_categorical y n = Err IndexError.
Proof.
  intros Hnot.
  destruct (to_categorical y n) as [rows|e] eqn:Hrows;
    [|by rewrite (to_categorical_raises _ _ _ Hrows)].
  destruct Hnot. apply to_categorical_Forall2 in Hrows.
  induction Hrows as [|c row y rows Hrow _ IH]; constructor; [|done].
  apply one_hot_inv in Hrow as [Hc _]. unfold wrapped in Hc.
  destruct (Z.ltb_spec c 0); lia.
Qed.

(** [evaluate_discriminator], whatever its arguments. *)
Lemma evaluate_discriminator_cases (X_test : list (list Q)) (y_test : list Z)
    (w : world) :
  evaluate_discriminator X_test y_test w =
    match to_categorical y_test (num_classes + 1) with
    | Err e => (w, Err e)
    | Ok labels =>
        if decide (length X_test = length y_test) then
          let valid := replicate (length y_test) [1%Q] in
          let rows :=
            map (discriminator_infer (keras w) (weights (self w))) X_test in
          let scores :=
            report (compiled_of TheDiscriminator)
              [replicate (length valid) 1%Q; replicate (length labels) 1%Q]
              [valid; labels] [map fst rows; map snd rows] in
          ({| np_random := np_random w; keras := keras w; self := self w;
              calls := calls w ++
                [Evaluate TheDiscriminator X_test [valid; labels] scores];
              saved := saved w |},
           Ok (default 0%Q (scores !! 0%nat),
               (default 0%Q (scores !! 3%nat) * 100)%Q))
        else (w, Err ValueError)
    end.
Proof.
  unfold evaluate_discriminator, ones.
  rewrite full_ok by lia. rewrite Nat2Z.id, bind_lift, bind_lift.
  destruct (to_categorical y_test (num_classes + 1)) as [labels|e] eqn:Hlabels;
    [|done].
  pose proof (to_categorical_length _ _ _ Hlabels) as Hll.
  rewrite bind_run.
  destruct (decide (length X_test = length y_test)) as [Hlen|Hne].
  - rewrite EvaluateClaims.evaluate_run
      by (rewrite ?length_replicate; congruence).
    cbv zeta. unfold report.
    cbn [compiled_of discriminator_model build_models compile cm_losses
         cm_loss_weights cm_accuracy output_losses output_accuracies length].
    destruct (decide (1 < 2)%nat) as [_|]; [|lia].
    reflexivity.
  - unfold evaluate, same_samples. cbn [forallb].
    rewrite length_replicate.
    destruct (Nat.eqb_spec (length y_test) (length X_test)) as [Heq|_];
      [by symmetry in Heq|].
    done.
Qed.

(** X7.  A training step of the discriminator's own model leaves every
    weight of the generator as it was, whether the step is accepted or
    not: the discriminator was compiled on its own, before the generator
    was built, so the optimizer was given the discriminator's weights
    only.  The step touches neither the history, nor numpy's generator,
    nor the saved grids. *)
Theorem discriminator_step_leaves_generator (x : list (list Q))
    (ys : list (list (list Q))) (class_weight : list (gmap Z Q)) (w : world) :
  let w' := (train_on_batch TheDiscriminator x ys class_weight w).1 in
  (∀ i, weights (self w') !! GenW i = weights (self w) !! GenW i) ∧
  (∀ n, n ∈ net_weights (generator build_models) →
        weights (self w') !! n = weights (self w) !! n) ∧
  training_history (self w') = training_history (self w) ∧
  np_random w' = np_random w ∧
  saved w' = saved w.
Proof.
  cbv zeta.
  assert (∀ i, weights (self (train_on_batch TheDiscriminator x ys
                                class_weight w).1) !! GenW i
               = weights (self w) !! GenW i) as Hframe.
  { intros i.
    destruct (train_on_batch_cases TheDiscriminator x ys class_weight w)
      as [[e ->]|(sws & _ & ->)]; cbn [fst]; [done|].
    unfold step_world. cbn [self with_weights weights].
    rewrite optimizer_step_lookup.
    by rewrite decide_False by apply generator_weight_not_collected. }
  split; [exact Hframe|]. split.
  { intros n (i & -> & _)%list_elem_of_fmap. apply Hframe. }
  by destruct (train_on_batch_cases TheDiscriminator x ys class_weight w)
    as [[e ->]|(sws & _ & ->)].
Qed.

(** X8.  [evaluate_discriminator] reads the model and changes nothing of
    it: the weights, the history, numpy's generator, the engine's state
    and the saved grids are the same after the call, whether it returns
    or raises; a call that raises leaves no trace at all, and one that
    returns has logged one evaluation.  Evaluating again gives the same
    result. *)
Theorem evaluate_discriminator_read_only (X_test : list (list Q))
    (y_test : list Z) (w : world) :
  let w' := (evaluate_discriminator X_test y_test w).1 in
  let r := (evaluate_discriminator X_test y_test w).2 in
  self w' = self w ∧ np_random w' = np_random w ∧ keras w' = keras w ∧
  saved w' = saved w ∧
  (∀ e, r = Err e → w' = w) ∧
  (∀ scores, r = Ok scores → ∃ ev, calls w' = calls w ++ [ev]) ∧
  (evaluate_discriminator X_test y_test w').2 = r.
Proof.
  cbv zeta. rewrite !evaluate_discriminator_cases.
  destruct (to_categorical y_test (num_classes + 1)) as [labels|e];
    [|cbn; by eauto 10].
  destruct (decide (length X_test = length y_test)); [|cbn; by eauto 10].
  cbn. repeat split; try done; eauto.
Qed.

(** X9.  The errors of [evaluate_discriminator] and their order.  A
    label outside [-11, 10] makes the one-hot encoding raise
    [IndexError], whatever the images are; with labels the encoding
    accepts, differing numbers of images and labels raise [ValueError];
    otherwise, on a test set that is not empty, the call returns.  Labels
    from -11 to -1 are accepted (they count from the end, so -1 stands
    for the sentinel class), and so is the sentinel 10 itself. *)
Theorem evaluate_discriminator_errors (X_test : list (list Q))
    (y_test : list Z) (w : world) :
  let accepted := Forall (λ c, - (num_classes + 1) ≤ c < num_classes + 1) y_test in
  (¬ accepted →
   evaluate_discriminator X_test y_test w = (w, Err IndexError)) ∧
  (accepted → length X_test ≠ length y_test →
   evaluate_discriminator X_test y_test w = (w, Err ValueError)) ∧
  (accepted → length X_test = length y_test → y_test ≠ [] →
   ∃ scores, (evaluate_discriminator X_test y_test w).2 = Ok scores) ∧
  one_hot (num_classes + 1) (-1) = one_hot (num_classes + 1) num_classes.
Proof.
  cbv zeta. rewrite !evaluate_discriminator_cases.
  split; [|split; [|split; [|reflexivity]]].
  - intros Hnot. by rewrite to_categorical_rejects.
  - intros Hacc Hne.
    destruct (to_categorical_ok _ _ Hacc) as [labels ->].
    by rewrite decide_False.
  - intros Hacc Hlen _.
    destruct (to_categorical_ok _ _ Hacc) as [labels ->].
    rewrite decide_True by done. cbn. eauto.
Qed.

End WithEngine.
End FrameFacts.

(** ** What [predict] returns *)

Module PredictFacts.
Import Numpy Keras Training ClassWeights Gan.
Import NumpyFacts TrainingFacts ClassWeightsFacts GanFacts EvaluateClaims.

(** [argmax_from] keeps the first largest entry met so far. *)
Lemma argmax_from_first_max (pre row : list Q) (best_i : nat) (best : Q) :
  pre !! best_i = Some best →
  (∀ k p, pre !! k = Some p → (p <= best)%Q) →
  (∀ k p, (k < best_i)%nat → pre !! k = Some p → (p < best)%Q) →
  let j := argmax_from best_i best (length pre) row in
  ∃ v, (pre ++ row) !! j = Some v ∧
       (∀ k p, (pre ++ row) !! k = Some p → (p <= v)%Q) ∧
       (∀ k p, (k < j)%nat → (pre ++ row) !! k = Some p → (p < v)%Q).
Proof.
  revert pre best_i best.
  induction row as [|x rest IH]; intros pre bi b Hb Hle Hlt; cbn [argmax_from].
  - rewrite app_nil_r. eauto.
  - assert (length (pre ++ [x]) = S (length pre)) as Hlen
      by (rewrite length_app; cbn; lia).
    replace (pre ++ x :: rest) with ((pre ++ [x]) ++ rest)
      by (by rewrite <- app_assoc).
    destruct (Qle_bool x b) eqn:Hx.
    + apply Qle_bool_iff in Hx. rewrite <- Hlen. apply IH.
      * by apply lookup_app_l_Some.
      * intros k p [Hk|[_ Hk]]%lookup_app_Some; [by eapply Hle|].
        apply list_lookup_singleton_Some in Hk as [_ <-]. done.
      * intros k p Hk Hp. apply lookup_app_Some in Hp as [Hp|[Hge _]].
        -- by eapply Hlt.
        -- apply lookup_lt_Some in Hb. lia.
    + assert (b < x)%Q as Hbx.
      { apply Qnot_le_lt. intros Hc%Qle_bool_iff. congruence. }
      rewrite <- Hlen. apply IH.
      * rewrite lookup_app_r by lia. by rewrite Nat.sub_diag.
      * intros k p [Hk|[_ Hk]]%lookup_app_Some.
        -- apply Hle in Hk. Lqa.lra.
        -- apply list_lookup_singleton_Some in Hk as [_ <-]. Lqa.lra.
      * intros k p Hk Hp. apply lookup_app_Some in Hp as [Hp|[Hge _]]; [|lia].
        apply Hle in Hp. Lqa.lra.
Qed.

(** [np.argmax]: the position of the largest entry, the first one when
    several are largest. *)
Lemma argmax_first_max (row : list Q) (j : nat) :
  argmax row = Ok j →
  ∃ v, row !! j = Some v ∧
       (∀ k p, row !! k = Some p → (p <= v)%Q) ∧
       (∀ k p, (k < j)%nat → row !! k = Some p → (p < v)%Q).
Proof.
  destruct row as [|x rest]; cbn [argmax]; [discriminate|].
  intros [= <-].
  apply (argmax_from_first_max [x] rest 0 x); [done| |].
  - intros [|k] p; cbn; [|done]. intros [= <-]. Lqa.lra.
  - intros k p Hk. lia.
Qed.

Section WithEngine.
Context `{E : Engine}.

(** X10.  On label outputs of eleven entries, [predict] gives each image
    the genuine class 0..9 whose entry is largest among the first ten,
    and the lowest such class when several entries are largest; the
    world is left as it was. *)
Theorem predict_most_probable_genuine_class (X_test : list (list Q))
    (w : world) :
  (∀ x, length (discriminator_infer (keras w) (weights (self w)) x).2
        = 11%nat) →
  ∃ classes,
    predict X_test w = (w, Ok classes) ∧
    Forall2 (λ x c,
      let row := (discriminator_infer (keras w) (weights (self w)) x).2 in
      (c < 10)%nat ∧
      ∃ v, row !! c = Some v ∧
           (∀ k p, (k < 10)%nat → row !! k = Some p → (p <= v)%Q) ∧
           (∀ k p, (k < c)%nat → row !! k = Some p → (p < v)%Q))
      X_test classes.
Proof.
  intros Hrows. unfold predict, test_outputs. cbn [lookup list_lookup].
  set (label := map snd _).
  destruct (argmax_rows_spec label) as (classes & Hcs & Hall).
  { unfold label. rewrite map_map. apply Forall_fmap, Forall_forall.
    intros x _. apply Hrows. }
  exists classes. split; [by rewrite Hcs|].
  unfold label in Hall. rewrite map_map in Hall.
  apply Forall2_fmap_l in Hall.
  eapply Forall2_impl; [exact Hall|]. cbn. intros x c [Hc Hlt].
  split; [done|].
  destruct (argmax_first_max _ _ Hc) as (v & Hv & Hle & Hfirst).
  exists v. split; [by rewrite lookup_take_Some in Hv; destruct Hv|].
  split.
  - intros k p Hk Hp. apply (Hle k). by rewrite lookup_take_Some.
  - intros k p Hk Hp. apply (Hfirst k); [done|].
    rewrite lookup_take_Some. split; [done|lia].
Qed.

End WithEngine.

(** X11.  The decoding of [predict] undoes the one-hot encoding of
    [train] and [evaluate_discriminator] on the genuine labels: the rows
    [to_categorical] makes of labels 0..9 are decoded to these labels.
    The row of the sentinel class 10 is decoded to class 0, the first of
    ten equal entries. *)
Theorem predict_decodes_one_hot (y : list Z) :
  Forall (λ c, 0 ≤ c ≤ num_classes) y →
  ∃ rows,
    to_categorical y (num_classes + 1) = Ok rows ∧
    argmax_rows rows =
      Ok (map (λ c, if decide (c = num_classes) then 0%nat else Z.to_nat c) y).
Proof.
  induction 1 as [|c y Hc _ (rows & Hrows & Hdec)];
    cbn [to_categorical argmax_rows map]; [by eexists|].
  rewrite Hrows.
  assert (∃ row, one_hot (num_classes + 1) c = Ok row ∧
            argmax (drop_last row) =
              Ok (if decide (c = num_classes) then 0%nat else Z.to_nat c))
    as (row & -> & Hrow).
  { unfold num_classes in *.
    assert (c ∈ seqZ 0 11) as Hin by (apply elem_of_seqZ; lia).
    clear -Hin. revert c Hin. apply Forall_forall.
    repeat constructor; eexists; split; reflexivity. }
  cbn [rbind]. eexists. split; [done|].
  cbn [argmax_rows]. by rewrite Hrow, Hdec.
Qed.

Lemma predict_most_probable_genuine_class_witness :
  (∀ x, length (discriminator_infer (keras Toy.toy_world)
                  (weights (self Toy.toy_world)) x).2 = 11%nat) ∧
  ∃ classes,
    predict Toy.toy_images Toy.toy_world = (Toy.toy_world, Ok classes) ∧
    Forall (λ c, (c < 10)%nat) classes.
Proof.
  assert (∀ x, length (discriminator_infer (keras Toy.toy_world)
                         (weights (self Toy.toy_world)) x).2 = 11%nat) as Hrows
    by (intros x; reflexivity).
  split; [exact Hrows|].
  destruct (predict_most_probable_genuine_class Toy.toy_images Toy.toy_world
              Hrows) as (classes & Hrun & Hall).
  exists classes. split; [exact Hrun|].
  clear Hrun. induction Hall as [|x c xs cs [Hc _] _ IH]; constructor; done.
Defined.

Lemma predict_decodes_one_hot_witness :
  Forall (λ c, 0 ≤ c ≤ num_classes) [3; 10; 0; 9] ∧
  ∃ rows,
    to_categorical [3; 10; 0; 9] (num_classes + 1) = Ok rows ∧
    argmax_rows rows = Ok [3; 0; 0; 9]%nat.
Proof.
  assert (Forall (λ c, 0 ≤ c ≤ num_classes) [3; 10; 0; 9]) as Hy
    by (unfold num_classes; repeat constructor; lia).
  split; [exact Hy|]. exact (predict_decodes_one_hot [3; 10; 0; 9] Hy).
Defined.

End PredictFacts.

(** ** Pixels: what goes into the model and what is saved *)

Module PixelFacts.
Import Numpy Keras Training ClassWeights Gan CrossValidation.
Import NumpyFacts TrainingFacts ClassWeightsFacts GanFacts.

Lemma normalize_pixel (p : Z) :
  ((inject_Z p - (1275 # 10)) / (1275 # 10) == (2 # 255) * inject_Z p - 1)%Q.
Proof. field. Qed.

Lemma normalize_range (img : list Z) :
  Forall (λ p, 0 ≤ p ≤ 255) img →
  Forall (λ v, -1 <= v <= 1)%Q (normalize img).
Proof.
  intros Himg. unfold normalize. apply Forall_fmap.
  eapply Forall_impl; [exact Himg|]. cbn. intros p [H0 H255].
  rewrite normalize_pixel.
  assert (0 <= inject_Z p)%Q as Hlo by (unfold Qle; cbn; lia).
  assert (inject_Z p <= 255)%Q as Hhi by (unfold Qle; cbn; lia).
  split; Lqa.lra.
Qed.

Lemma normalize_increasing (p q : Z) :
  p < q →
  ((inject_Z p - (1275 # 10)) / (1275 # 10)
   < (inject_Z q - (1275 # 10)) / (1275 # 10))%Q.
Proof.
  intros Hpq. rewrite !normalize_pixel.
  assert (inject_Z p < inject_Z q)%Q as H by (unfold Qlt; cbn; lia).
  Lqa.lra.
Qed.

Section WithEngine.
Context `{E : Engine}.


(** X13.  [save_imgs] never raises.  It appends one grid under the epoch
    it is given, made of 25 images generated at the current weights from
    latent vectors of 100 entries, each pixel rescaled to [0.5 * v + 1];
    for a generator with outputs in [-1, 1] the saved pixels lie in
    [0.5, 1.5], not in [0, 1].  The model, the history and the log of
    training calls are left as they were. *)
Theorem save_imgs_pixel_range (epoch : Z) (w : world) :
  (∀ b st z, Forall (λ v, -1 <= v <= 1)%Q (generator_infer b st z)) →
  ∃ w' (z : list (list Q)),
    save_imgs epoch w = (w', Ok tt) ∧
    length z = 25%nat ∧ Forall (λ row, length row = 100%nat) z ∧
    saved w' = saved w ++
      [(epoch,
        map (λ row, map (λ v, (1 # 2) * v + 1)%Q
                      (generator_infer (keras w) (weights (self w)) row)) z)] ∧
    Forall (λ s, Forall (Forall (λ p, 1 # 2 <= p <= 3 # 2)%Q) s.2)
           (drop (length (saved w)) (saved w')) ∧
    self w' = self w ∧ calls w' = calls w ∧ keras w' = keras w.
Proof.
  intros Hgen. rewrite save_imgs_trace. cbv zeta.
  pose proof (draw_rows_spec 25 100 (np_random w)) as [Hzlen Hzrows].
  destruct (draw_rows 25 100 (np_random w)) as [z g]. cbn [fst snd] in *.
  eexists _, z. split; [reflexivity|]. cbn [saved self calls keras].
  split; [done|]. split; [done|]. split; [by rewrite map_map|].
  split; [|done].
  rewrite drop_app_length. repeat constructor. cbn [snd].
  apply Forall_fmap, Forall_fmap, Forall_forall. intros row _. cbn.
  apply Forall_fmap.
  eapply Forall_impl; [apply Hgen|]. cbn. intros v Hv. Lqa.lra.
Qed.

End WithEngine.

Lemma toy_generate_range (st : gmap wname Q) (z : list Q) :
  Forall (λ v, -1 <= v <= 1)%Q (Toy.toy_generate st z).
Proof.
  unfold Toy.toy_generate. apply Forall_fmap, Forall_forall.
  intros v _. unfold compose. cbv beta zeta.
  set (u := (v + Toy.weight_or_zero st (GenW 0))%Q). clearbody u.
  pose proof (Qabs_nonneg u) as Hnn.
  pose proof (Qle_Qabs u) as Hle.
  assert (- u <= Qabs u)%Q as Hge by (rewrite <- Qabs_opp; apply Qle_Qabs).
  split; rewrite Qred_correct.
  - apply Qle_shift_div_l; Lqa.lra.
  - apply Qle_shift_div_r; Lqa.lra.
Qed.


Lemma save_imgs_pixel_range_witness :
  (∀ b st z, Forall (λ v, -1 <= v <= 1)%Q
               (generator_infer (Engine := Toy.toy_engine) b st z)) ∧
  ∃ w', save_imgs 0 Toy.toy_world = (w', Ok tt) ∧
        length (saved w') = 1%nat.
Proof.
  assert (∀ b st z, Forall (λ v, -1 <= v <= 1)%Q
            (generator_infer (Engine := Toy.toy_engine) b st z)) as Hgen
    by (intros b st z; apply toy_generate_range).
  split; [exact Hgen|].
  destruct (save_imgs_pixel_range 0 Toy.toy_world Hgen)
    as (w' & z & Hrun & _ & _ & Hsaved & _).
  exists w'. split; [exact Hrun|]. by rewrite Hsaved.
Defined.

End PixelFacts.

(** ** The class weights at work *)

Module SampleWeightFacts.
Import Numpy Keras Training ClassWeights Gan.
Import NumpyFacts TrainingFacts ClassWeightsFacts GanFacts.

Section WithEngine.
Context `{E : Engine}.

Lemma Forall2_same_weight (cw : gmap Z Q) (v : Q) (y : list Z) (ws : list Q) :
  Forall (λ c, cw !! wrapped 11 c = Some v) y →
  Forall2 (λ c w, cw !! wrapped 11 c = Some w) y ws →
  ws = replicate (length y) v.
Proof.
  intros Hy Hws. induction Hws as [|c w y ws Hc _ IH]; [done|].
  apply Forall_cons in Hy as [Hv Hy]. cbn. f_equal; [congruence|by apply IH].
Qed.

(** X14.  What the class weights of [train] do in the two
    discriminator steps, for a batch size of 2 or more and genuine labels
    0..9: in the step on real images every sample weighs [1] in the
    validity loss and [num_classes / half_batch] in the class loss; in
    the step on generated images every sample weighs [1] and
    [1 / half_batch].  A real sample so counts [num_classes] times a
    generated one in the class loss, and [cw1] changes nothing. *)
Theorem class_weights_per_sample (batch_size : Z) (y : list Z) :
  2 ≤ batch_size →
  Forall (λ c, 0 ≤ c ≤ 9) y →
  let half_batch := half_batch_of batch_size in
  let n := length y in
  ∃ cw labels fake_labels,
    cw2 half_batch = Ok cw ∧
    to_categorical y (num_classes + 1) = Ok labels ∧
    to_categorical (replicate n num_classes) (num_classes + 1)
      = Ok fake_labels ∧
    sample_weights 2 [cw1; cw] [replicate n [1%Q]; labels] =
      Ok [replicate n 1%Q;
          replicate n (inject_Z num_classes / inject_Z half_batch)%Q] ∧
    sample_weights 2 [cw1; cw] [replicate n [0%Q]; fake_labels] =
      Ok [replicate n 1%Q; replicate n (1 / inject_Z half_batch)%Q] ∧
    (inject_Z num_classes / inject_Z half_batch
     == inject_Z num_classes * (1 / inject_Z half_batch))%Q.
Proof.
  intros Hbs Hy. cbv zeta.
  assert (half_batch_of batch_size ≠ 0) as Hhb.
  { apply half_batch_pos in Hbs. lia. }
  destruct (cw2 (half_batch_of batch_size)) as [cw|e] eqn:Hcw;
    [|by rewrite cw2_ok in Hcw].
  destruct (to_categorical_ok y (num_classes + 1)) as [labels Hlabels].
  { eapply Forall_impl; [exact Hy|]. unfold num_classes. cbn. lia. }
  assert (one_hot (num_classes + 1) num_classes =
          Ok (<[10%nat := 1%Q]> (replicate 11 0%Q))) as Hsent by reflexivity.
  eexists cw, labels, _.
  split; [done|]. split; [exact Hlabels|].
  split; [exact (to_categorical_replicate _ _ _ _ Hsent)|].
  assert (∀ c, 0 ≤ c < 11 → is_Some (cw !! c)) as Hkeys.
  { intros c Hc. destruct (decide (c = num_classes)) as [->|Hne].
    - rewrite (cw2_lookup_sentinel _ _ Hcw). eauto.
    - rewrite (cw2_lookup_class _ _ c Hcw) by (unfold num_classes in *; lia).
      eauto. }
  destruct (class_sample_weights_one_hot _ y labels Hkeys Hlabels)
    as (sw_real & Hsw_real & Hws).
  apply (Forall2_same_weight _ (inject_Z num_classes
           / inject_Z (half_batch_of batch_size))%Q) in Hws; cycle 1.
  { eapply Forall_impl; [exact Hy|]. cbn. intros c Hc.
    unfold wrapped. destruct (Z.ltb_spec c 0); [lia|].
    apply (cw2_lookup_class _ _ c Hcw). unfold num_classes. lia. }
  subst sw_real.
  split; [|split].
  - unfold sample_weights. rewrite decide_True by done.
    cbn [per_output_weights].
    rewrite (class_sample_weights_replicate cw1 _ _ 1 1%Q) by done.
    cbn [rbind]. by rewrite Hsw_real.
  - unfold sample_weights. rewrite decide_True by done.
    cbn [per_output_weights].
    rewrite (class_sample_weights_replicate cw1 _ _ 0 1%Q) by done.
    cbn [rbind].
    rewrite (class_sample_weights_replicate _ _ _ num_classes
               (1 / inject_Z (half_batch_of batch_size))%Q); [done| |].
    + apply (sample_class_one_hot 10). lia.
    + by apply cw2_lookup_sentinel.
  - field. by apply inject_Z_nonzero.
Qed.

End WithEngine.

Lemma class_weights_per_sample_witness :
  2 ≤ 32 ∧ Forall (λ c, 0 ≤ c ≤ 9) [3; 1; 4] ∧
  ∃ cw labels,
    cw2 (half_batch_of 32) = Ok cw ∧
    sample_weights (E := Toy.toy_engine) 2 [cw1; cw]
      [replicate 3 [1%Q]; labels] =
      Ok [replicate 3 1%Q; replicate 3 (inject_Z 10 / inject_Z 16)%Q].
Proof.
  assert (Forall (λ c, 0 ≤ c ≤ 9) [3; 1; 4]) as Hy
    by (repeat constructor; lia).
  split; [lia|]. split; [exact Hy|].
  destruct (class_weights_per_sample (E := Toy.toy_engine) 32 [3; 1; 4]
              ltac:(lia) Hy)
    as (cw & labels & fake_labels & Hcw & _ & _ & Hreal & _).
  exists cw, labels. split; [exact Hcw|exact Hreal].
Defined.

End SampleWeightFacts.

(** ** The figure of [save_imgs]: which image goes where *)

Module SampleGridFacts.
Import Numpy Keras Training Gan SampleGrid.
Import NumpyFacts GanFacts.

(** One row of the figure: [n] cells from column [j0] on, showing the
    images from [cnt] on. *)
Lemma show_row (gen_imgs : list (list Q)) (i : Z) (n : nat) (j0 cnt : Z)
    (axs : axes) :
  0 ≤ cnt ≤ Z.of_nat (length gen_imgs) →
  if decide (cnt + Z.of_nat n ≤ Z.of_nat (length gen_imgs)) then
    ∃ axs',
      for_range (seqZ j0 (Z.of_nat n)) (show_cell gen_imgs i) (cnt, axs)
        = Ok (cnt + Z.of_nat n, axs') ∧
      (∀ j, j0 ≤ j < j0 + Z.of_nat n →
            axs' !! (i, j) = gen_imgs !! Z.to_nat (cnt + (j - j0))) ∧
      (∀ i' j, ¬ (i' = i ∧ j0 ≤ j < j0 + Z.of_nat n) →
               axs' !! (i', j) = axs !! (i', j))
  else
    for_range (seqZ j0 (Z.of_nat n)) (show_cell gen_imgs i) (cnt, axs)
      = Err IndexError.
Proof.
  revert j0 cnt axs. induction n as [|n IH]; intros j0 cnt axs Hcnt.
  - rewrite decide_True by lia. change (Z.of_nat 0) with 0.
    rewrite seqZ_nil by lia. cbn [for_range]. exists axs.
    rewrite Z.add_0_r. split; [done|]. split; [intros; lia|done].
  - rewrite seqZ_cons by lia. cbn [for_range].
    change (show_cell gen_imgs i j0 (cnt, axs))
      with (rbind (item gen_imgs cnt)
              (λ img, Ok (cnt + 1, <[(i, j0) := img]> axs))).
    destruct (decide (cnt < Z.of_nat (length gen_imgs))) as [Hlt|Hge]; cycle 1.
    { rewrite decide_False by lia.
      destruct (item gen_imgs cnt) as [img|e] eqn:Himg;
        [|cbn [rbind]; by rewrite (item_raises _ _ _ Himg)].
      unfold item, wrapped in Himg.
      destruct (Z.ltb_spec cnt 0); [lia|].
      destruct (Z.ltb_spec cnt (Z.of_nat (length gen_imgs))); [lia|].
      by rewrite andb_false_r in Himg. }
    destruct (item_ok gen_imgs cnt) as (img & -> & Himg); [lia|].
    cbn [rbind].
    replace (Z.pred (Z.of_nat (S n))) with (Z.of_nat n) by lia.
    specialize (IH (Z.succ j0) (cnt + 1) (<[(i, j0) := img]> axs) ltac:(lia)).
    destruct (decide (cnt + 1 + Z.of_nat n ≤ Z.of_nat (length gen_imgs)))
      as [Hfit|Hnot].
    + rewrite decide_True by lia.
      destruct IH as (axs' & -> & Hshown & Hrest).
      exists axs'. split; [f_equal; f_equal; lia|]. split.
      * intros j Hj. destruct (decide (j = j0)) as [->|Hne].
        -- rewrite Hrest by lia. rewrite lookup_insert_eq.
           by rewrite Z.sub_diag, Z.add_0_r.
        -- rewrite Hshown by lia. f_equal. lia.
      * intros i' j Hout. rewrite Hrest by lia.
        apply lookup_insert_ne. intros [= -> ->]. lia.
    + rewrite decide_False by lia. exact IH.
Qed.

(** The rows of the figure: [m] rows of [c] cells from row [i0] on. *)
Lemma show_rows (gen_imgs : list (list Q)) (c : nat) (m : nat) (i0 cnt : Z)
    (axs : axes) :
  0 ≤ cnt ≤ Z.of_nat (length gen_imgs) →
  (0 < c)%nat →
  if decide (cnt + Z.of_nat m * Z.of_nat c ≤ Z.of_nat (length gen_imgs)) then
    ∃ axs',
      for_range (seqZ i0 (Z.of_nat m))
        (λ i, for_range (seqZ 0 (Z.of_nat c)) (show_cell gen_imgs i))
        (cnt, axs)
        = Ok (cnt + Z.of_nat m * Z.of_nat c, axs') ∧
      (∀ i j, i0 ≤ i < i0 + Z.of_nat m → 0 ≤ j < Z.of_nat c →
              axs' !! (i, j) =
                gen_imgs !! Z.to_nat (cnt + (i - i0) * Z.of_nat c + j)) ∧
      (∀ i j, ¬ (i0 ≤ i < i0 + Z.of_nat m ∧ 0 ≤ j < Z.of_nat c) →
              axs' !! (i, j) = axs !! (i, j))
  else
    for_range (seqZ i0 (Z.of_nat m))
      (λ i, for_range (seqZ 0 (Z.of_nat c)) (show_cell gen_imgs i))
      (cnt, axs)
      = Err IndexError.
Proof.
  intros Hcnt Hc. revert i0 cnt axs Hcnt.
  induction m as [|m IH]; intros i0 cnt axs Hcnt.
  - rewrite decide_True by lia. change (Z.of_nat 0) with 0.
    rewrite seqZ_nil by lia. cbn [for_range]. exists axs.
    rewrite Z.mul_0_l, Z.add_0_r. split; [done|]. split; [intros; lia|done].
  - rewrite seqZ_cons by lia. cbn [for_range].
    replace (Z.pred (Z.of_nat (S m))) with (Z.of_nat m) by lia.
    pose proof (show_row gen_imgs i0 c 0 cnt axs Hcnt) as Hrow.
    destruct (decide (cnt + Z.of_nat c ≤ Z.of_nat (length gen_imgs)))
      as [Hfit|Hnot]; cycle 1.
    { rewrite Hrow. cbn [rbind]. rewrite decide_False by nia. done. }
    destruct Hrow as (axs1 & -> & Hshown1 & Hrest1). cbn [rbind].
    specialize (IH (Z.succ i0) (cnt + Z.of_nat c) axs1 ltac:(lia)).
    destruct (decide (cnt + Z.of_nat c + Z.of_nat m * Z.of_nat c
                      ≤ Z.of_nat (length gen_imgs))) as [Hfit'|Hnot'].
    + rewrite decide_True by nia.
      destruct IH as (axs' & -> & Hshown & Hrest).
      exists axs'. split; [f_equal; f_equal; nia|]. split.
      * intros i j Hi Hj. destruct (decide (i = i0)) as [->|Hne].
        -- rewrite Hrest by lia. rewrite Hshown1 by lia. f_equal. nia.
        -- rewrite Hshown by lia. f_equal. nia.
      * intros i j Hout. rewrite Hrest by lia. apply Hrest1. lia.
    + rewrite decide_False by nia. exact IH.
Qed.

Section WithEngine.
Context `{E : Engine}.

(** X15.  The two loops of [save_imgs] fill the figure row by row: on a
    figure of [r] rows and [c] columns the cell in row [i] and column [j]
    shows image number [i * c + j], so every one of the first [r * c]
    images is shown in exactly one cell and no other cell is drawn; with
    fewer than [r * c] images the loops raise [IndexError].  The grid
    [save_imgs] draws has 25 images for its 5 x 5 figure, so the loops
    never raise there. *)
Theorem show_grid_row_major (r c : Z) (gen_imgs : list (list Q)) :
  0 < r → 0 < c →
  (r * c ≤ Z.of_nat (length gen_imgs) →
   ∃ axs,
     show_grid r c gen_imgs = Ok axs ∧
     (∀ i j, 0 ≤ i < r → 0 ≤ j < c →
             axs !! (i, j) = gen_imgs !! Z.to_nat (i * c + j)) ∧
     (∀ i j, is_Some (axs !! (i, j)) → 0 ≤ i < r ∧ 0 ≤ j < c)) ∧
  (Z.of_nat (length gen_imgs) < r * c →
   show_grid r c gen_imgs = Err IndexError) ∧
  (∀ epoch w, ∃ grid axs,
     last (saved (save_imgs epoch w).1) = Some (epoch, grid) ∧
     show_grid 5 5 grid = Ok axs ∧
     ∀ i j, 0 ≤ i < 5 → 0 ≤ j < 5 →
            axs !! (i, j) = grid !! Z.to_nat (i * 5 + j)).
Proof.
  intros Hr Hc.
  assert (∀ r c imgs, 0 < r → 0 < c →
    (r * c ≤ Z.of_nat (length imgs) →
     ∃ axs,
       show_grid r c imgs = Ok axs ∧
       (∀ i j, 0 ≤ i < r → 0 ≤ j < c →
               axs !! (i, j) = imgs !! Z.to_nat (i * c + j)) ∧
       (∀ i j, is_Some (axs !! (i, j)) → 0 ≤ i < r ∧ 0 ≤ j < c)) ∧
    (Z.of_nat (length imgs) < r * c → show_grid r c imgs = Err IndexError))
    as Hgen.
  { clear. intros r c imgs Hr Hc.
    pose proof (show_rows imgs (Z.to_nat c) (Z.to_nat r) 0 0 ∅
                  ltac:(lia) ltac:(lia)) as Hrows.
    rewrite !Z2Nat.id in Hrows by lia. unfold show_grid.
    destruct (decide (0 + r * c ≤ Z.of_nat (length imgs))) as [Hfit|Hnot].
    - split; [|lia]. intros _.
      destruct Hrows as (axs & -> & Hshown & Hrest). cbn [rbind snd].
      exists axs. split; [done|]. split.
      + intros i j Hi Hj. rewrite Hshown by lia. f_equal. lia.
      + intros i j Hsome.
        destruct (decide (0 ≤ i < 0 + r ∧ 0 ≤ j < c)) as [?|Hout]; [lia|].
        rewrite (Hrest i j Hout), lookup_empty in Hsome.
        by destruct Hsome.
    - split; [lia|]. intros _. by rewrite Hrows. }
  destruct (Hgen r c gen_imgs Hr Hc) as [Hok Herr].
  split; [exact Hok|]. split; [exact Herr|].
  intros epoch w. rewrite save_imgs_trace. cbv zeta. cbn [fst saved].
  pose proof (draw_rows_spec 25 100 (np_random w)) as [Hzlen _].
  set (grid := map _ (map _ _)).
  assert (length grid = 25%nat) as Hlen
    by (unfold grid; by rewrite !length_map).
  destruct (Hgen 5 5 grid ltac:(lia) ltac:(lia)) as [Hgrid _].
  destruct Hgrid as (axs & Hrun & Hshown & _); [rewrite Hlen; lia|].
  exists grid, axs. split; [by rewrite last_snoc|]. split; [done|].
  intros i j Hi Hj. rewrite Hshown by lia. done.
Qed.

End WithEngine.

Lemma show_grid_row_major_witness :
  0 < 2 ∧ 0 < 3 ∧
  ∃ axs,
    show_grid 2 3 [[0]; [1]; [2]; [3]; [4]; [5]; [6]]%Q = Ok axs ∧
    axs !! (1, 2) = Some [5%Q] ∧ axs !! (2, 0) = None.
Proof.
  split; [lia|]. split; [lia|].
  destruct (show_grid_row_major (E := Toy.toy_engine) 2 3
              [[0]; [1]; [2]; [3]; [4]; [5]; [6]]%Q ltac:(lia) ltac:(lia))
    as (Hok & _ & _).
  destruct Hok as (axs & Hrun & Hshown & Honly); [cbn; lia|].
  exists axs. split; [exact Hrun|]. split.
  - by rewrite Hshown by lia.
  - destruct (axs !! (2, 0)) as [img|] eqn:Hcell; [|done].
    destruct (Honly 2 0) as [? _]; [by rewrite Hcell|lia].
Defined.

End SampleGridFacts.

(** ** The script after the last fold *)

Module ScriptFacts.
Import Numpy Keras Training ClassWeights Gan CrossValidation SampleFiles.
Import NumpyFacts TrainingFacts ClassWeightsFacts GanFacts.
Import EvaluateClaims SplitFacts DriverFacts TrainEdges FrameFacts.

Lemma string_length_app (s t : string) :
  String.length (s +:+ t) = (String.length s + String.length t)%nat.
Proof.
  induction s as [|a s IH]; [done|].
  change (String a s +:+ t) with (String a (s +:+ t)).
  cbn [String.length]. by rewrite IH.
Qed.

Lemma string_app_inj_r (t s1 s2 : string) : s1 +:+ t = s2 +:+ t → s1 = s2.
Proof.
  revert s2. induction s1 as [|a s1 IH]; intros [|b s2]; [done| | |].
  - intros H. apply (f_equal String.length) in H.
    rewrite !string_length_app in H. cbn [String.length] in H. lia.
  - intros H. apply (f_equal String.length) in H.
    rewrite !string_length_app in H. cbn [String.length] in H. lia.
  - change (String a s1 +:+ t) with (String a (s1 +:+ t)).
    change (String b s2 +:+ t) with (String b (s2 +:+ t)).
    intros [= -> H]. f_equal. by apply IH.
Qed.

(** Two epochs never share a file. *)
Lemma grid_file_inj (e e' : Z) : grid_file e = grid_file e' → e = e'.
Proof.
  unfold grid_file. intros H.
  apply String.app_inj, string_app_inj_r in H.
  by apply (inj pretty) in H.
Qed.

(** A write changes no file but the one it names. *)
Lemma write_all_other (log : list (Z * list (list Q)))
    (files : gmap string (list (list Q))) (name : string) :
  name ∉ map grid_file (map fst log) →
  write_all files log !! name = files !! name.
Proof.
  revert files. induction log as [|s log IH]; intros files Hname; [done|].
  cbn in *. rewrite not_elem_of_cons in Hname. destruct Hname as [Hne Hname].
  unfold write_all in IH. rewrite IH by done. by rewrite lookup_insert_ne.
Qed.

(** The files there after the writes of a log. *)
Lemma write_all_is_Some (log : list (Z * list (list Q)))
    (files : gmap string (list (list Q))) (name : string) :
  is_Some (write_all files log !! name) ↔
  is_Some (files !! name) ∨ name ∈ map grid_file (map fst log).
Proof.
  revert files. induction log as [|s log IH]; intros files.
  { cbn. rewrite elem_of_nil. tauto. }
  cbn [write_all foldl map]. unfold write_all in IH. rewrite IH.
  rewrite elem_of_cons.
  destruct (decide (name = grid_file s.1)) as [->|Hne].
  - rewrite lookup_insert_eq. split; [intros _|eauto]. right. by left.
  - rewrite lookup_insert_ne by done. tauto.
Qed.

(** Writes that later writes all replace leave no trace. *)
Lemma write_all_covered (log : list (Z * list (list Q)))
    (files files' : gmap string (list (list Q))) :
  (∀ name, name ∉ map grid_file (map fst log) →
           files !! name = files' !! name) →
  write_all files log = write_all files' log.
Proof.
  revert files files'. induction log as [|s log IH]; intros files files' Hagree.
  { apply map_eq. intros name. apply Hagree. cbn. apply not_elem_of_nil. }
  cbn [write_all foldl]. apply IH. intros name Hname.
  destruct (decide (name = grid_file s.1)) as [->|Hne].
  - by rewrite !lookup_insert_eq.
  - rewrite !lookup_insert_ne by done. apply Hagree. cbn.
    rewrite not_elem_of_cons. done.
Qed.

Lemma write_all_app (l1 l2 : list (Z * list (list Q)))
    (files : gmap string (list (list Q))) :
  write_all files (l1 ++ l2) = write_all (write_all files l1) l2.
Proof. apply foldl_app. Qed.

Lemma elem_of_concat_replicate (n : nat) (due : list Z) (e : Z) :
  e ∈ concat (replicate n due) → e ∈ due.
Proof.
  induction n as [|n IH]; cbn; [by rewrite elem_of_nil|].
  rewrite elem_of_app. tauto.
Qed.

Lemma map_fst_concat_same (due : list Z) (news : list (list (Z * list (list Q)))) :
  Forall (λ n, map fst n = due) news →
  map fst (concat news) = concat (replicate (length news) due).
Proof.
  induction 1 as [|n news Hn _ IH]; [done|].
  cbn. by rewrite map_app, Hn, IH.
Qed.

Section WithEngine.
Context `{E : Engine}.

Lemma length_epoch_calls (cw1 cw : gmap Z Q) (hb bs : Z) (ls : list epoch_log) :
  length (concat (map (epoch_calls cw1 cw hb bs) ls)) = (3 * length ls)%nat.
Proof. induction ls as [|l ls IH]; cbn; [done|]. rewrite IH. lia. Qed.

(** What a run of [train] that returned on a new object left behind. *)
Lemma train_on_new_object X_train y_train epochs batch_size save_interval
    (b : backend) (p : process) (w1 : world) :
  train X_train y_train epochs batch_size save_interval
    (enter (init b).1 (init b).2 p) = (w1, Ok tt) →
  length (D_loss (training_history (self w1))) = Z.to_nat epochs ∧
  length (D_acc (training_history (self w1))) = Z.to_nat epochs ∧
  length (G_loss (training_history (self w1))) = Z.to_nat epochs ∧
  length (G_acc (training_history (self w1))) = Z.to_nat epochs ∧
  length (calls w1) = (length (p_calls p) + 3 * Z.to_nat epochs)%nat ∧
  ∃ new, saved w1 = p_saved p ++ new ∧
    map fst new = filter (λ e, e `mod` save_interval = 0) (seqZ 0 epochs).
Proof.
  intros Hrun.
  destruct (train_spec _ _ _ _ _ _ _ _ Hrun)
    as (cw & ls & _ & _ & Hc & Hh & _ & Hlen & _).
  specialize (Hlen eq_refl).
  destruct (history_after_epochs ls empty_history) as (Hdl & Hda & Hgl & Hga).
  change (training_history (self (enter (init b).1 (init b).2 p)))
    with empty_history in Hh.
  rewrite Hh, Hdl, Hda, Hgl, Hga. cbn [empty_history D_loss D_acc G_loss G_acc app].
  rewrite !length_map, Hlen, Hc, length_app, length_epoch_calls, Hlen.
  repeat split; try done.
  unfold train in Hrun. rewrite bind_lift in Hrun.
  destruct (cw2 (half_batch_of batch_size)) as [cw'|e] eqn:Hcw;
    [|discriminate].
  destruct (for_each_saved _ _ _ _ _ _ _ _ Hcw Hrun)
    as (grids & -> & Hglen & _).
  eexists. split; [reflexivity|]. by rewrite fst_zip by lia.
Qed.

(** A fold that ran to its end leaves its own object in [dcgan], trained
    for [epochs] epochs from an empty history. *)
Lemma fold_step_end (X_train : list (list Q)) (y_train : list Z)
    (epochs batch_size save_interval : Z) (fold : list Z * list Z)
    (p p' : process) :
  fold_step X_train y_train epochs batch_size save_interval fold p
    = (p', Ok tt) →
  (∃ o, dcgan p' = Some o ∧
     length (D_loss (training_history o)) = Z.to_nat epochs ∧
     length (D_acc (training_history o)) = Z.to_nat epochs ∧
     length (G_loss (training_history o)) = Z.to_nat epochs ∧
     length (G_acc (training_history o)) = Z.to_nat epochs) ∧
  length (p_calls p') = (length (p_calls p) + (3 * Z.to_nat epochs + 1))%nat ∧
  ∃ new, p_saved p' = p_saved p ++ new ∧
    map fst new = filter (λ e, e `mod` save_interval = 0) (seqZ 0 epochs).
Proof.
  unfold fold_step. destruct fold as [train_idx val_idx].
  destruct (take X_train train_idx) as [Xc|]; [|discriminate].
  destruct (take y_train train_idx) as [yc|]; [|discriminate].
  destruct (take X_train val_idx) as [Xv|]; [|discriminate].
  destruct (take y_train val_idx) as [yv|]; [|discriminate].
  pose proof (train_on_new_object Xc yc epochs batch_size save_interval
                (p_keras p) p) as Htrained.
  destruct (init (p_keras p)) as [o b]. cbn [fst snd] in Htrained.
  unfold fold_body. rewrite bind_run.
  destruct (train Xc yc epochs batch_size save_interval (enter o b p))
    as [w1 [[]|e]] eqn:Htrain; [|discriminate].
  destruct (Htrained w1 eq_refl) as (H1 & H2 & H3 & H4 & Hc & Hs).
  rewrite bind_run.
  rewrite evaluate_discriminator_cases.
  destruct (to_categorical yv (num_classes + 1)) as [labels|e];
    [|discriminate].
  destruct (decide (length Xv = length yv)); [|discriminate].
  cbn. intros [= <-]. cbn [dcgan p_calls p_saved].
  rewrite length_app, Hc. cbn [length].
  split; [eauto 10|]. split; [lia|done].
Qed.

(** The loop over the folds, when every fold ran to its end. *)
Lemma for_folds_end (X_train : list (list Q)) (y_train : list Z)
    (epochs batch_size save_interval : Z) (folds : list (list Z * list Z))
    (p p' : process) :
  for_folds folds
    (fold_step X_train y_train epochs batch_size save_interval) p
    = (p', Ok tt) →
  (folds ≠ [] →
   ∃ o, dcgan p' = Some o ∧
     length (D_loss (training_history o)) = Z.to_nat epochs ∧
     length (D_acc (training_history o)) = Z.to_nat epochs ∧
     length (G_loss (training_history o)) = Z.to_nat epochs ∧
     length (G_acc (training_history o)) = Z.to_nat epochs) ∧
  length (p_calls p') =
    (length (p_calls p) + length folds * (3 * Z.to_nat epochs + 1))%nat ∧
  ∃ news, p_saved p' = p_saved p ++ concat news ∧
    length news = length folds ∧
    Forall (λ new, map fst new =
              filter (λ e, e `mod` save_interval = 0) (seqZ 0 epochs)) news.
Proof.
  revert p. induction folds as [|fold rest IH]; intros p; cbn [for_folds].
  - intros [= <-]. split; [done|]. split; [cbn; lia|].
    exists []. cbn. by rewrite app_nil_r.
  - destruct (fold_step _ _ _ _ _ fold p) as [q [[]|e]] eqn:Hq; [|discriminate].
    intros Hrest.
    destruct (fold_step_end _ _ _ _ _ _ _ _ Hq) as (Ho & Hc & new & Hs & Hnew).
    destruct (IH _ Hrest) as (Ho' & Hc' & news & Hs' & Hlen & Hnews).
    split; [|split].
    + intros _. destruct rest as [|fold' rest]; [|by apply Ho'].
      cbn in Hrest. by injection Hrest as <-.
    + rewrite Hc', Hc. cbn [length]. lia.
    + exists (new :: news). cbn [concat length].
      rewrite Hs', Hs, <- app_assoc, Hlen. by repeat constructor.
Qed.

(** A run of the script that reached the end of the loop: the data were
    split into [k] folds, and [k] was at least 2. *)
Lemma cross_validate_ok (data : mnist) (k epochs batch_size save_interval : Z)
    (p p' : process) :
  cross_validate data k epochs batch_size save_interval p = (p', Ok tt) →
  ∃ folds X_train y_train,
    2 ≤ k ∧ length folds = Z.to_nat k ∧
    for_folds folds
      (fold_step X_train y_train epochs batch_size save_interval)
      (reset_scores p) = (p', Ok tt).
Proof.
  unfold cross_validate, load_data_kfold, stratified_kfold_split.
  destruct (negb (_ =? _)%nat); [discriminate|].
  destruct (Z.ltb_spec k 2); [discriminate|].
  destruct (negb (forallb _ _)); [discriminate|].
  cbn [rbind]. intros Hrun. eexists _, _, _.
  split; [done|]. split; [apply folds_length|exact Hrun].
Qed.

(** X16.  When the cross-validation loop has run to its end, the
    variable [dcgan] holds the object of the last fold, and its history
    has [epochs] records, those of the last fold alone: every fold built
    its own object with an empty history.  Each of the [k] folds has made
    [3 * epochs] calls of [train_on_batch] and one of [evaluate], and [k]
    scores were collected.  In the script that is 100 records, 3010 calls
    and 10 scores. *)
Theorem cross_validation_keeps_last_fold (data : mnist)
    (k epochs batch_size save_interval : Z) (p : process) :
  let run := cross_validate data k epochs batch_size save_interval p in
  run.2 = Ok tt →
  (∃ o, dcgan run.1 = Some o ∧
     length (D_loss (training_history o)) = Z.to_nat epochs ∧
     length (D_acc (training_history o)) = Z.to_nat epochs ∧
     length (G_loss (training_history o)) = Z.to_nat epochs ∧
     length (G_acc (training_history o)) = Z.to_nat epochs) ∧
  length (kfold_scores run.1) = Z.to_nat k ∧
  length (p_calls run.1) =
    (length (p_calls p) + Z.to_nat k * (3 * Z.to_nat epochs + 1))%nat ∧
  (k = 10 → epochs = 100 →
   length (p_calls run.1) = (length (p_calls p) + 3010)%nat).
Proof.
  cbv zeta.
  destruct (cross_validate data k epochs batch_size save_interval p)
    as [p' r] eqn:Hrun. cbn [fst snd]. intros ->.
  destruct (cross_validate_ok _ _ _ _ _ _ _ Hrun)
    as (folds & X & y & Hk & Hlen & Hloop).
  destruct (for_folds_end _ _ _ _ _ _ _ _ Hloop) as (Ho & Hc & _).
  destruct (for_folds_scores _ _ _ _ _
              (λ fold q q' s, fold_step_scores X y epochs batch_size
                                save_interval fold q q' s) Hloop)
    as (new & Hnew & _ & Hfull).
  split; [|split; [|split]].
  - apply Ho. intros ->. cbn in Hlen. lia.
  - rewrite Hnew. cbn [reset_scores kfold_scores app].
    by rewrite Hfull, Hlen.
  - by rewrite Hc, Hlen.
  - intros -> ->. by rewrite Hc, Hlen.
Qed.

(** X17.  Every fold of the cross-validation writes its sample grids
    under the same epoch numbers, the epochs [save_interval] divides, and
    the file name of a grid is made of the epoch alone.  So the grids of
    all folds but the last are written over: after the run the directory
    is what it was before with the grids of the last fold written to it,
    and the files it gained are those named after the due epochs, one
    for each.  In the script nine folds write the epochs 0, 10, ..., 90
    and the tenth writes them again. *)
Theorem cross_validation_rewrites_grids (data : mnist)
    (k epochs batch_size save_interval : Z) (p : process) :
  let run := cross_validate data k epochs batch_size save_interval p in
  let due := filter (λ e, e `mod` save_interval = 0) (seqZ 0 epochs) in
  run.2 = Ok tt →
  ∃ before last_fold,
    p_saved run.1 = p_saved p ++ before ++ last_fold ∧
    map fst before = concat (replicate (Z.to_nat k - 1) due) ∧
    map fst last_fold = due ∧
    write_all ∅ (p_saved run.1) =
      write_all (write_all ∅ (p_saved p)) last_fold ∧
    (∀ name, is_Some (write_all ∅ (p_saved run.1) !! name) ↔
             is_Some (write_all ∅ (p_saved p) !! name) ∨
             name ∈ map grid_file due) ∧
    (∀ e, is_Some (write_all ∅ (p_saved run.1) !! grid_file e) ↔
          is_Some (write_all ∅ (p_saved p) !! grid_file e) ∨ e ∈ due) ∧
    (k = 10 → epochs = 100 → save_interval = 10 →
     map fst before =
       concat (replicate 9 [0; 10; 20; 30; 40; 50; 60; 70; 80; 90]) ∧
     map fst last_fold = [0; 10; 20; 30; 40; 50; 60; 70; 80; 90]).
Proof.
  cbv zeta.
  destruct (cross_validate data k epochs batch_size save_interval p)
    as [p' r] eqn:Hrun. cbn [fst snd]. intros ->.
  destruct (cross_validate_ok _ _ _ _ _ _ _ Hrun)
    as (folds & X & y & Hk & Hlen & Hloop).
  destruct (for_folds_end _ _ _ _ _ _ _ _ Hloop)
    as (_ & _ & news & Hs & Hnlen & Hnews).
  cbn [reset_scores p_saved] in Hs.
  destruct (exists_last (l := news)) as (init & last_fold & ->).
  { intros ->. cbn in Hnlen. lia. }
  apply Forall_app in Hnews as [Hinit Hlast].
  rewrite Forall_singleton in Hlast.
  rewrite length_app in Hnlen. cbn [length] in Hnlen.
  pose proof (map_fst_concat_same _ _ Hinit) as Hbefore.
  replace (length init) with (Z.to_nat k - 1)%nat in Hbefore by lia.
  rewrite concat_app in Hs. cbn [concat] in Hs. rewrite app_nil_r in Hs.
  exists (concat init), last_fold.
  split; [exact Hs|]. split; [exact Hbefore|]. split; [exact Hlast|].
  assert (write_all ∅ (p_saved p') =
          write_all (write_all ∅ (p_saved p)) last_fold) as Hfiles.
  { rewrite Hs, !write_all_app. apply write_all_covered.
    intros name Hname. apply write_all_other. rewrite Hbefore.
    intros Hin. apply Hname. rewrite Hlast.
    apply list_elem_of_fmap in Hin as (e & -> & He).
    apply list_elem_of_fmap. exists e. split; [done|].
    by apply elem_of_concat_replicate in He. }
  split; [exact Hfiles|]. split; [|split].
  - intros name. by rewrite Hfiles, write_all_is_Some, Hlast.
  - intros e. rewrite Hfiles, write_all_is_Some, Hlast.
    enough (grid_file e ∈ map grid_file
              (filter (λ e, e `mod` save_interval = 0) (seqZ 0 epochs)) ↔
            e ∈ filter (λ e, e `mod` save_interval = 0) (seqZ 0 epochs))
      by tauto.
    split; [|apply (list_elem_of_fmap_2 grid_file)].
    intros Hin. apply list_elem_of_fmap in Hin as (e' & He & Hin).
    by apply grid_file_inj in He as ->.
  - intros -> -> ->. by rewrite Hbefore, Hlast.
Qed.

End WithEngine.

Lemma cross_validation_keeps_last_fold_witness :
  (cross_validate Toy.toy_mnist 2 2 4 2 Toy.toy_process).2 = Ok tt ∧
  length (p_calls (cross_validate Toy.toy_mnist 2 2 4 2 Toy.toy_process).1)
    = 14%nat ∧
  length (kfold_scores
            (cross_validate Toy.toy_mnist 2 2 4 2 Toy.toy_process).1)
    = 2%nat.
Proof.
  assert ((cross_validate Toy.toy_mnist 2 2 4 2 Toy.toy_process).2 = Ok tt)
    as Hrun by (vm_compute; reflexivity).
  split; [exact Hrun|].
  destruct (cross_validation_keeps_last_fold Toy.toy_mnist 2 2 4 2
              Toy.toy_process Hrun) as (_ & Hscores & Hcalls & _).
  split; [exact Hcalls|exact Hscores].
Defined.

Lemma cross_validation_rewrites_grids_witness :
  (cross_validate Toy.toy_mnist 2 2 4 2 Toy.toy_process).2 = Ok tt ∧
  ∃ first_fold last_fold,
    p_saved (cross_validate Toy.toy_mnist 2 2 4 2 Toy.toy_process).1
      = first_fold ++ last_fold ∧
    map fst first_fold = [0] ∧ map fst last_fold = [0] ∧
    write_all ∅
        (p_saved (cross_validate Toy.toy_mnist 2 2 4 2 Toy.toy_process).1)
      = write_all ∅ last_fold.
Proof.
  assert ((cross_validate Toy.toy_mnist 2 2 4 2 Toy.toy_process).2 = Ok tt)
    as Hrun by (vm_compute; reflexivity).
  split; [exact Hrun|].
  destruct (cross_validation_rewrites_grids Toy.toy_mnist 2 2 4 2
              Toy.toy_process Hrun)
    as (before & last_fold & Hsaved & Hbefore & Hlast & Hfiles & _).
  exists before, last_fold.
  split; [exact Hsaved|]. split; [exact Hbefore|]. split; [exact Hlast|].
  exact Hfiles.
Defined.

End ScriptFacts.
